(** * Cadence audio engine: the RtAudio backend and its callback bridge

    A shallow embedding of [src/engine/common/audioconfig.h],
    [src/engine/common/audioerror.h], [src/engine/devices/rtaudiodevice.cpp]
    and [src/engine/backends/rtaudiobackend.cpp], followed by the statements
    proved about them.

    Conventions.
    - A C++ [int] / [unsigned int] is a [Z]; where the source's arithmetic
      can leave the type's range the wrap-around is written with
      [to_int] / [to_unsigned].
    - A C++ [double] is a binary64 [float] of the kernel.
    - The backend object is a record; a member function is a computation
      in the monad [M], which threads the object and carries C++
      exceptions together with the state reached when they were thrown.
    - Every call into the RtAudio library is answered by a value of type
      [Native]: the library either completes or raises [RtAudioError].
      The answers are arguments of the member functions, so a statement
      quantified over them holds for every behaviour of the library. *)

From Stdlib Require Import ZArith String List Bool Lia.
From Stdlib Require Import Strings.Byte.
From Stdlib Require Import Floats Uint63 QArith.
From Stdlib Require Import Ascii DecimalString DecimalZ.
Import ListNotations.

Set Warnings "-inexact-float".

Local Open Scope string_scope.
Local Open Scope bool_scope.
Local Open Scope Z_scope.

(** ** Machine arithmetic *)

Module Cxx.

(** [unsigned int]: 32 bits, arithmetic modulo 2^32. *)
Definition UINT_MODULUS : Z := 2 ^ 32.
Definition INT_MAX : Z := 2 ^ 31 - 1.
Definition INT_MIN : Z := - 2 ^ 31.

Definition to_unsigned (z : Z) : Z := z mod UINT_MODULUS.

(** [int]: 32 bits, two's complement.  Conversions to [int] and the
    arithmetic of [std::atomic<int>] wrap around. *)
Definition to_int (z : Z) : Z := (z + 2 ^ 31) mod UINT_MODULUS - 2 ^ 31.

(** [size_t] on the LP64 targets the engine is built for. *)
Definition SIZE_MODULUS : Z := 2 ^ 64.
Definition to_size_t (z : Z) : Z := z mod SIZE_MODULUS.

Definition sizeof_float : Z := 4.

(** [static_cast<double>(i)] for an integer [i].  The conversion is exact
    for every [int] and [unsigned int] (and for any magnitude below 2^53);
    larger magnitudes are rounded to nearest. *)
Definition double_of_int (z : Z) : float :=
  if z <? 0
  then (- PrimFloat.of_uint63 (Uint63.of_Z (- z)))%float
  else PrimFloat.of_uint63 (Uint63.of_Z z).

End Cxx.

(** ** audioconfig.h *)

(** [enum class SampleFormat].  The value is carried as the enumeration's
    underlying integer: both conversion [switch]es of rtaudiodevice.cpp have
    a [default] branch for values that are none of the four enumerators. *)
Definition SampleFormat : Type := Z.
Definition Float32 : SampleFormat := 0.
Definition Int16 : SampleFormat := 1.
Definition Int24 : SampleFormat := 2.
Definition Int32 : SampleFormat := 3.

Inductive BufferStrategy : Type :=
| Fixed | Adaptive | LowLatency | Stable.

Module BackendType.
Inductive t : Type :=
| Auto | ASIO | WASAPI | DirectSound | CoreAudio | JACK | ALSA | Pulse
| RtAudio.

Definition eqb (a b : t) : bool :=
  match a, b with
  | Auto, Auto | ASIO, ASIO | WASAPI, WASAPI | DirectSound, DirectSound
  | CoreAudio, CoreAudio | JACK, JACK | ALSA, ALSA | Pulse, Pulse
  | RtAudio, RtAudio => true
  | _, _ => false
  end.

End BackendType.

Record StreamConfig : Type := mkStreamConfig {
  inputDeviceName : option string;
  outputDeviceName : option string;
  sampleRate : Z;
  bufferSize : Z;
  inputChannels : Z;
  outputChannels : Z;
  format : SampleFormat;
  bufferStrategy : BufferStrategy;
  allowSampleRateChange : bool;
  allowBufferSizeChange : bool;
  exclusiveMode : bool;
  preferredBackend : BackendType.t
}.

(** The default member initialisers of [struct StreamConfig]. *)
Definition default_StreamConfig : StreamConfig := {|
  inputDeviceName := None;
  outputDeviceName := None;
  sampleRate := 48000;
  bufferSize := 512;
  inputChannels := 2;
  outputChannels := 2;
  format := Float32;
  bufferStrategy := Stable;
  allowSampleRateChange := false;
  allowBufferSizeChange := false;
  exclusiveMode := false;
  preferredBackend := BackendType.Auto
|}.

Definition with_sampleRate (v : Z) (c : StreamConfig) : StreamConfig :=
  mkStreamConfig (inputDeviceName c) (outputDeviceName c) v (bufferSize c)
    (inputChannels c) (outputChannels c) (format c) (bufferStrategy c)
    (allowSampleRateChange c) (allowBufferSizeChange c) (exclusiveMode c)
    (preferredBackend c).

Definition with_bufferSize (v : Z) (c : StreamConfig) : StreamConfig :=
  mkStreamConfig (inputDeviceName c) (outputDeviceName c) (sampleRate c) v
    (inputChannels c) (outputChannels c) (format c) (bufferStrategy c)
    (allowSampleRateChange c) (allowBufferSizeChange c) (exclusiveMode c)
    (preferredBackend c).

(** Modelled from the spec: [StreamConfig::isValid] is declared in
    audioconfig.h and its body is not among the sources.  The design
    document gives it: false when the sample rate or the buffer size is not
    positive, when both channel counts are 0, or when the format is not one
    of the four recognised ones. *)
Definition isValid (c : StreamConfig) : bool :=
  (0 <? sampleRate c) && (0 <? bufferSize c)
  && negb ((inputChannels c =? 0) && (outputChannels c =? 0))
  && ((format c =? Float32) || (format c =? Int16)
      || (format c =? Int24) || (format c =? Int32)).

Record LatencyInfo : Type := mkLatencyInfo {
  theoreticalMs : float;
  measuredMs : float;
  jitterMs : float;
  cpuUsage : float;
  xruns : Z
}.

(** ** audioerror.h *)

Inductive AudioErrorCode : Type :=
| Success
| DeviceNotFound
| DeviceUnavailable
| InvalidConfiguration
| SampleRateUnsupported
| BufferSizeUnsupported
| AudioBackendInitFailed
| AudioBackendStartFailed
| AudioBackendStopFailed
| RealTimePriorityFailed
| AudioCallbackError
| AudioStreamClosed
| PlatformSpecificError.

(** The exceptions that cross the member functions modelled below:
    the engine's [AudioException] and the library's [RtAudioError]. *)
Inductive Exception : Type :=
| AudioException (code : AudioErrorCode) (what : string)
| RtAudioError (message : string).

(** ** What the engine takes from RtAudio.h and <chrono>

    The sources include the RtAudio header and do not contain it.  The
    engine only names its constants, so they are fields of a class and
    every statement below that does not mention an instance holds for any
    value of them.  The four sample-format constants are the [case] labels
    of one [switch]: C++ rejects a [switch] with two equal labels, hence
    [case_labels_distinct].

    [seconds] is [std::chrono::duration<double>(d).count()] for a difference
    [d] of two readings of the high-resolution clock, given in ticks of that
    clock; the tick length is the C++ library's choice. *)
Class Platform : Type := {
  RTAUDIO_SINT16 : Z;
  RTAUDIO_SINT24 : Z;
  RTAUDIO_SINT32 : Z;
  RTAUDIO_FLOAT32 : Z;
  RTAUDIO_INPUT_OVERFLOW : Z;
  RTAUDIO_OUTPUT_UNDERFLOW : Z;
  seconds : Z -> float;
  case_labels_distinct :
    NoDup [RTAUDIO_FLOAT32; RTAUDIO_SINT16; RTAUDIO_SINT24; RTAUDIO_SINT32]
}.

(** The answer of the RtAudio library to one call: it completes with a
    value, or raises [RtAudioError] with a message. *)
Inductive Native (A : Type) : Type :=
| completes (a : A)
| raises (message : string).
Arguments completes {A} a.
Arguments raises {A} message.

(** ** The buffers handed to the callback

    A buffer is the memory behind a [void*], byte by byte from the pointer;
    a null pointer is [None].  The library lays the samples of a stream out
    in the format the stream was opened with: sample [i] is the [width]
    bytes from offset [width * i], and [width] zero bytes are the sample of
    silence (the integer 0, the float [+0.0]). *)
Definition Buffer : Type := Z -> byte.

Definition memset (buf : Buffer) (c : byte) (n : Z) : Buffer :=
  fun i => if (0 <=? i) && (i <? n) then c else buf i.

Definition sample (width : Z) (buf : Buffer) (i : Z) : list byte :=
  map (fun k => buf (width * i + Z.of_nat k)) (seq 0 (Z.to_nat width)).

Definition silence (width : Z) : list byte := repeat x00 (Z.to_nat width).

(** The bytes of one sample of a stream opened for [format]: the stream is
    opened with [convertToRtAudioFormat(format)], which is 16-bit for
    [Int16], 24-bit (three bytes) for [Int24] and a 32-bit format for
    anything else. *)
Definition sampleBytes (format : SampleFormat) : Z :=
  if format =? Int16 then 2
  else if format =? Int24 then 3
  else 4.

(** What one run of the user's [AudioCallback] does: it returns, or throws
    an exception derived from [std::exception] (with its [what()]), or
    throws anything else; [out] is the output memory as the callback left
    it. *)
Inductive CallbackResult : Type :=
| cb_returns (out : Buffer)
| cb_throws_exception (what : string) (out : Buffer)
| cb_throws_other (out : Buffer).

(** [using AudioCallback = std::function<void(const float* input,
    float* output, size_t frames, double streamTime)>]; an empty
    [std::function] is [None] where one is stored. *)
Definition AudioCallback : Type :=
  option Buffer -> option Buffer -> Z -> float -> CallbackResult.

Definition written (outputBuffer : option Buffer) (out : Buffer)
  : option Buffer :=
  match outputBuffer with
  | Some _ => Some out
  | None => None
  end.

(** ** rtaudiobackend.h: the object

    The data members of [class RtAudioBackend].  [m_rtAudio] is the handle
    of the library, whose answers are the [Native] arguments;
    [m_latencyTestBuffer] and [m_measuringLatency] are never read or
    written by the member functions and are left out, and so are the two
    mutexes: a member function is modelled as one uninterrupted step. *)
Record RtAudioBackend : Type := mkRtAudioBackend {
  m_backendType : BackendType.t;
  m_config : StreamConfig;
  m_userCallback : option AudioCallback;
  m_isRunning : bool;
  m_isPaused : bool;
  m_xrunCount : Z;
  m_streamTime : float;
  m_lastCallbackTime : Z;
  m_cpuUsage : float;
  m_lastError : string
}.

Definition set_backendType (v : BackendType.t) (s : RtAudioBackend) :=
  mkRtAudioBackend v (m_config s) (m_userCallback s) (m_isRunning s)
    (m_isPaused s) (m_xrunCount s) (m_streamTime s) (m_lastCallbackTime s)
    (m_cpuUsage s) (m_lastError s).

Definition set_config (v : StreamConfig) (s : RtAudioBackend) :=
  mkRtAudioBackend (m_backendType s) v (m_userCallback s) (m_isRunning s)
    (m_isPaused s) (m_xrunCount s) (m_streamTime s) (m_lastCallbackTime s)
    (m_cpuUsage s) (m_lastError s).

Definition set_userCallback (v : option AudioCallback) (s : RtAudioBackend) :=
  mkRtAudioBackend (m_backendType s) (m_config s) v (m_isRunning s)
    (m_isPaused s) (m_xrunCount s) (m_streamTime s) (m_lastCallbackTime s)
    (m_cpuUsage s) (m_lastError s).

Definition set_isRunning (v : bool) (s : RtAudioBackend) :=
  mkRtAudioBackend (m_backendType s) (m_config s) (m_userCallback s) v
    (m_isPaused s) (m_xrunCount s) (m_streamTime s) (m_lastCallbackTime s)
    (m_cpuUsage s) (m_lastError s).

Definition set_isPaused (v : bool) (s : RtAudioBackend) :=
  mkRtAudioBackend (m_backendType s) (m_config s) (m_userCallback s)
    (m_isRunning s) v (m_xrunCount s) (m_streamTime s) (m_lastCallbackTime s)
    (m_cpuUsage s) (m_lastError s).

Definition set_xrunCount (v : Z) (s : RtAudioBackend) :=
  mkRtAudioBackend (m_backendType s) (m_config s) (m_userCallback s)
    (m_isRunning s) (m_isPaused s) v (m_streamTime s) (m_lastCallbackTime s)
    (m_cpuUsage s) (m_lastError s).

Definition set_streamTime (v : float) (s : RtAudioBackend) :=
  mkRtAudioBackend (m_backendType s) (m_config s) (m_userCallback s)
    (m_isRunning s) (m_isPaused s) (m_xrunCount s) v (m_lastCallbackTime s)
    (m_cpuUsage s) (m_lastError s).

Definition set_lastCallbackTime (v : Z) (s : RtAudioBackend) :=
  mkRtAudioBackend (m_backendType s) (m_config s) (m_userCallback s)
    (m_isRunning s) (m_isPaused s) (m_xrunCount s) (m_streamTime s) v
    (m_cpuUsage s) (m_lastError s).

Definition set_cpuUsage (v : float) (s : RtAudioBackend) :=
  mkRtAudioBackend (m_backendType s) (m_config s) (m_userCallback s)
    (m_isRunning s) (m_isPaused s) (m_xrunCount s) (m_streamTime s)
    (m_lastCallbackTime s) v (m_lastError s).

Definition set_lastError (v : string) (s : RtAudioBackend) :=
  mkRtAudioBackend (m_backendType s) (m_config s) (m_userCallback s)
    (m_isRunning s) (m_isPaused s) (m_xrunCount s) (m_streamTime s)
    (m_lastCallbackTime s) (m_cpuUsage s) v.

(** ** Member functions as computations

    A call either returns a value or throws; both leave an object behind. *)
Inductive Outcome (A : Type) : Type :=
| Returns (a : A) (s : RtAudioBackend)
| Throws (e : Exception) (s : RtAudioBackend).
Arguments Returns {A} a s.
Arguments Throws {A} e s.

Definition M (A : Type) : Type := RtAudioBackend -> Outcome A.

Definition ret {A} (a : A) : M A := fun s => Returns a s.

Definition bind {A B} (c : M A) (k : A -> M B) : M B :=
  fun s =>
    match c s with
    | Returns a s' => k a s'
    | Throws e s' => Throws e s'
    end.

Definition throw {A} (e : Exception) : M A := fun s => Throws e s.

Definition gets {A} (f : RtAudioBackend -> A) : M A := fun s => Returns (f s) s.

Definition modify (f : RtAudioBackend -> RtAudioBackend) : M unit :=
  fun s => Returns tt (f s).

(** A call into the library: its answer, as a computation. *)
Definition native {A} (answer : Native A) : M A :=
  match answer with
  | completes a => ret a
  | raises message => throw (RtAudioError message)
  end.

(** [try { body } catch (const RtAudioError& e) { handler(e.getMessage()) }]:
    an [AudioException] passes through. *)
Definition try_catch_RtAudioError {A} (body : M A) (handler : string -> M A)
  : M A :=
  fun s =>
    match body s with
    | Throws (RtAudioError message) s' => handler message s'
    | o => o
    end.

Definition state_after {A} (o : Outcome A) : RtAudioBackend :=
  match o with
  | Returns _ s => s
  | Throws _ s => s
  end.

Declare Scope backend_scope.
Delimit Scope backend_scope with backend.
Notation "x <- c ;; k" := (bind c (fun x => k))
  (at level 61, c at next level, right associativity) : backend_scope.
Notation "c ;; k" := (bind c (fun _ => k))
  (at level 61, right associativity) : backend_scope.
Local Open Scope backend_scope.
(** ** Stream output of integers

    [std::ostream << n] for an integer [n]: the decimal digits, after a
    minus sign when [n] is negative. *)
Definition decimal (z : Z) : string := NilZero.string_of_int (Z.to_int z).

(** [static_cast<int>(backendType)]: the position of the enumerator. *)
Definition BackendType_to_int (b : BackendType.t) : Z :=
  match b with
  | BackendType.Auto => 0
  | BackendType.ASIO => 1
  | BackendType.WASAPI => 2
  | BackendType.DirectSound => 3
  | BackendType.CoreAudio => 4
  | BackendType.JACK => 5
  | BackendType.ALSA => 6
  | BackendType.Pulse => 7
  | BackendType.RtAudio => 8
  end.

(** ** audioconfig.h: [struct DeviceCapabilities] *)
Record DeviceCapabilities : Type := mkDeviceCapabilities {
  supportedSampleRates : list Z;
  supportedBufferSizes : list Z;
  supportedFormats : list SampleFormat;
  maxInputChannels : Z;
  maxOutputChannels : Z;
  supportsInput : bool;
  supportsOutput : bool;
  supportsDuplex : bool;
  minLatencyMs : float;
  maxLatencyMs : float;
  caps_isDefaultInput : bool;
  caps_isDefaultOutput : bool
}.

(** ** What the engine reads of the RtAudio library's types *)

Module RtAudio.

(** [enum RtAudio::Api], as far as the engine names its enumerators;
    [other_api] stands for the enumerators its [switch] leaves to
    [default]. *)
Inductive Api : Type :=
| UNSPECIFIED | LINUX_ALSA | LINUX_PULSE | UNIX_JACK | MACOSX_CORE
| WINDOWS_WASAPI | WINDOWS_ASIO | WINDOWS_DS | RTAUDIO_DUMMY | other_api.

(** [struct RtAudio::DeviceInfo]: the members the engine reads.  The
    channel counts, the rates and the format mask are unsigned. *)
Record DeviceInfo : Type := mkDeviceInfo {
  name : string;
  outputChannels : Z;
  inputChannels : Z;
  duplexChannels : Z;
  sampleRates : list Z;
  preferredSampleRate : Z;
  nativeFormats : Z
}.

(** The library's answers to the device queries of one member function. *)
Record DeviceQueries : Type := mkDeviceQueries {
  getDeviceCount : Native Z;
  getDefaultInputDevice : Native Z;
  getDefaultOutputDevice : Native Z;
  getDeviceInfo : Z -> Native DeviceInfo
}.

(** [struct RtAudio::StreamParameters]; its members are unsigned. *)
Record StreamParameters : Type := mkStreamParameters {
  deviceId : Z;
  nChannels : Z;
  firstChannel : Z
}.

(** [RtAudioStreamFlags], the two the engine sets. *)
Inductive StreamFlag : Type :=
| RTAUDIO_NONINTERLEAVED
| RTAUDIO_HOG_DEVICE.

(** [struct RtAudio::StreamOptions]. *)
Record StreamOptions : Type := mkStreamOptions {
  flags : list StreamFlag;
  numberOfBuffers : Z;
  streamName : string;
  priority : Z
}.

(** The arguments of one call of [openStream]: the two parameter pointers
    ([None] is [nullptr]), the format, the sample rate, the buffer size
    asked for and the options.  The callback and its user data are the
    bridge and the object in every call. *)
Record OpenStream : Type := mkOpenStream {
  request_output : option StreamParameters;
  request_input : option StreamParameters;
  request_format : Z;
  request_sampleRate : Z;
  request_bufferFrames : Z;
  request_options : StreamOptions
}.

End RtAudio.

(** ** rtaudiodevice.cpp: the format conversions *)

Section Formats.

Context `{platform : Platform}.

(** [RtAudioDevice::convertRtAudioFormat]: a [switch] over the library's
    format constant.  The labels are distinct, so the first match of the
    chain is the only one. *)
Definition convertRtAudioFormat (format : Z) : SampleFormat :=
  if format =? RTAUDIO_FLOAT32 then Float32
  else if format =? RTAUDIO_SINT16 then Int16
  else if format =? RTAUDIO_SINT24 then Int24
  else if format =? RTAUDIO_SINT32 then Int32
  else Float32.

(** [RtAudioDevice::convertToRtAudioFormat]. *)
Definition convertToRtAudioFormat (format : SampleFormat) : Z :=
  if format =? Float32 then RTAUDIO_FLOAT32
  else if format =? Int16 then RTAUDIO_SINT16
  else if format =? Int24 then RTAUDIO_SINT24
  else if format =? Int32 then RTAUDIO_SINT32
  else RTAUDIO_FLOAT32.

End Formats.

(** ** rtaudiodevice.h, rtaudiodevice.cpp *)

Module RtAudioDevice.

Record t : Type := mkRtAudioDevice {
  m_deviceId : Z;
  m_deviceInfo : RtAudio.DeviceInfo;
  m_backendType : BackendType.t;
  m_isDefaultInput : bool;
  m_isDefaultOutput : bool;
  m_id : string
}.

Section Device.

(** [std::hash<std::string>], whose values the C++ library chooses. *)
Variable hash : string -> Z.

Context `{platform : Platform}.

(** The constructor: the identifier is the backend type, the device index
    and the hash of the name, written in decimal and joined by ["_"]. *)
Definition new (deviceId : Z) (info : RtAudio.DeviceInfo)
    (backendType : BackendType.t) (isDefaultInput isDefaultOutput : bool)
  : t := {|
  m_deviceId := deviceId;
  m_deviceInfo := info;
  m_backendType := backendType;
  m_isDefaultInput := isDefaultInput;
  m_isDefaultOutput := isDefaultOutput;
  m_id :=
    decimal (BackendType_to_int backendType) ++ "_"
    ++ decimal deviceId ++ "_" ++ decimal (hash (RtAudio.name info))
|}.

Definition getId (d : t) : string := m_id d.
Definition getName (d : t) : string := RtAudio.name (m_deviceInfo d).
Definition getVendor (d : t) : string := "".
Definition getBackendType (d : t) : BackendType.t := m_backendType d.
Definition getRtAudioDeviceId (d : t) : Z := m_deviceId d.
Definition getRtDeviceInfo (d : t) : RtAudio.DeviceInfo := m_deviceInfo d.

(** [getCapabilities]. *)
Definition getCapabilities (d : t) : DeviceCapabilities :=
  let info := m_deviceInfo d in
  let has (mask : Z) := negb (Z.land (RtAudio.nativeFormats info) mask =? 0) in
  {| supportedSampleRates := RtAudio.sampleRates info;
     supportedBufferSizes := [64; 128; 256; 512; 1024; 2048; 4096];
     supportedFormats :=
       (if has RTAUDIO_FLOAT32 then [Float32] else [])
       ++ (if has RTAUDIO_SINT16 then [Int16] else [])
       ++ (if has RTAUDIO_SINT24 then [Int24] else [])
       ++ (if has RTAUDIO_SINT32 then [Int32] else []);
     maxInputChannels := RtAudio.inputChannels info;
     maxOutputChannels := RtAudio.outputChannels info;
     supportsInput := 0 <? RtAudio.inputChannels info;
     supportsOutput := 0 <? RtAudio.outputChannels info;
     supportsDuplex := 0 <? RtAudio.duplexChannels info;
     minLatencyMs :=
       if 0 <? RtAudio.preferredSampleRate info
       then (Cxx.double_of_int (RtAudio.preferredSampleRate info) / 1000
             * 0.1)%float
       else 1%float;
     maxLatencyMs := 100%float;
     caps_isDefaultInput := m_isDefaultInput d;
     caps_isDefaultOutput := m_isDefaultOutput d |}.

Definition isAvailable (d : t) : bool := true.
Definition isDefaultInput (d : t) : bool := m_isDefaultInput d.
Definition isDefaultOutput (d : t) : bool := m_isDefaultOutput d.

(** [supportsSampleRate]: the rate is converted to [unsigned int] and
    looked up with [std::find], which compares as unsigned values. *)
Definition supportsSampleRate (rate : Z) (d : t) : bool :=
  existsb (fun r => Cxx.to_unsigned r =? Cxx.to_unsigned rate)
    (RtAudio.sampleRates (m_deviceInfo d)).

(** [supportsBufferSize]. *)
Definition supportsBufferSize (size : Z) (d : t) : bool :=
  existsb (fun c => c =? size) [64; 128; 256; 512; 1024; 2048; 4096].

(** [supportsFormat]. *)
Definition supportsFormat (format : SampleFormat) (d : t) : bool :=
  negb (Z.land (RtAudio.nativeFormats (m_deviceInfo d))
          (convertToRtAudioFormat format) =? 0).

(** [getDefaultInputLatencyMs], [getDefaultOutputLatencyMs]. *)
Definition getDefaultInputLatencyMs (d : t) : float :=
  if (0 <? RtAudio.preferredSampleRate (m_deviceInfo d))
     && (0 <? RtAudio.inputChannels (m_deviceInfo d))
  then (512
        / Cxx.double_of_int (RtAudio.preferredSampleRate (m_deviceInfo d))
        * 1000)%float
  else 10%float.

Definition getDefaultOutputLatencyMs (d : t) : float :=
  if (0 <? RtAudio.preferredSampleRate (m_deviceInfo d))
     && (0 <? RtAudio.outputChannels (m_deviceInfo d))
  then (512
        / Cxx.double_of_int (RtAudio.preferredSampleRate (m_deviceInfo d))
        * 1000)%float
  else 10%float.

(** [operator==] and [operator!=] between two devices of this class (the
    only class of devices in the sources, so the [dynamic_cast]
    succeeds). *)
Definition equal (a b : t) : bool := String.eqb (m_id a) (m_id b).
Definition not_equal (a b : t) : bool := negb (equal a b).

(** [toString]. *)
Definition toString (d : t) : string :=
  "RtAudioDevice: " ++ RtAudio.name (m_deviceInfo d)
  ++ " (ID: " ++ decimal (m_deviceId d)
  ++ ", In: " ++ decimal (RtAudio.inputChannels (m_deviceInfo d))
  ++ ", Out: " ++ decimal (RtAudio.outputChannels (m_deviceInfo d))
  ++ ", DefaultIn: " ++ (if m_isDefaultInput d then "Yes" else "No")
  ++ ", DefaultOut: " ++ (if m_isDefaultOutput d then "Yes" else "No")
  ++ ")".

End Device.

End RtAudioDevice.

(** ** rtaudiobackend.cpp

    [hash] is [std::hash<std::string>], which the device identifiers go
    through; [default_parameters] is what a default-constructed
    [RtAudio::StreamParameters] holds. *)

Section Engine.

Variable hash : string -> Z.
Variable default_parameters : RtAudio.StreamParameters.

Context `{platform : Platform}.

(** The constructor, when the library could be set up (otherwise it throws
    and there is no object).  With [BackendType::Auto] the backend type is
    the one the library chose, [chosen]. *)
Definition RtAudioBackend_new (backendType chosen : BackendType.t)
  : RtAudioBackend := {|
  m_backendType :=
    if BackendType.eqb backendType BackendType.Auto then chosen
    else backendType;
  m_config := default_StreamConfig;
  m_userCallback := None;
  m_isRunning := false;
  m_isPaused := false;
  m_xrunCount := 0;
  m_streamTime := 0%float;
  m_lastCallbackTime := 0;
  m_cpuUsage := 0%float;
  m_lastError := ""
|}.

Definition isRunning (s : RtAudioBackend) : bool := m_isRunning s.
Definition isPaused (s : RtAudioBackend) : bool := m_isPaused s.
Definition getCurrentConfig (s : RtAudioBackend) : StreamConfig := m_config s.
Definition getStreamTime (s : RtAudioBackend) : float := m_streamTime s.
Definition getCpuUsage (s : RtAudioBackend) : float := m_cpuUsage s.
Definition getXrunCount (s : RtAudioBackend) : Z := m_xrunCount s.
Definition getLastError (s : RtAudioBackend) : string := m_lastError s.

Definition clearError : M unit := modify (set_lastError "").
Definition setError (error : string) : M unit := modify (set_lastError error).

Definition resetPerformanceCounters : M unit :=
  modify (set_xrunCount 0) ;;
  modify (set_cpuUsage 0%float) ;;
  modify (set_streamTime 0%float).

(** [initialize].  [new_RtAudio] answers the construction of a fresh
    library object, which happens only when the configuration asks for a
    backend other than the current one. *)
Definition initialize (config : StreamConfig) (new_RtAudio : Native unit)
  : M unit :=
  if negb (isValid config)
  then throw (AudioException InvalidConfiguration
                "Invalid stream configuration")
  else
    modify (set_config config) ;;
    backendType <- gets m_backendType ;;
    (if negb (BackendType.eqb (preferredBackend config) BackendType.Auto)
        && negb (BackendType.eqb (preferredBackend config) backendType)
     then modify (set_backendType (preferredBackend config)) ;;
          native new_RtAudio
     else ret tt) ;;
    clearError.

(** The loop of [enumerateDevices], from index [i] with [remaining]
    indices to go: a device whose query raises is skipped. *)
Fixpoint enumerate_loop (getDeviceInfo : Z -> Native RtAudio.DeviceInfo)
    (backendType : BackendType.t) (defaultInput defaultOutput : Z)
    (i : Z) (remaining : nat) : list RtAudioDevice.t :=
  match remaining with
  | O => []
  | S remaining' =>
      let rest :=
        enumerate_loop getDeviceInfo backendType defaultInput defaultOutput
          (i + 1) remaining' in
      match getDeviceInfo i with
      | completes info =>
          RtAudioDevice.new hash (Cxx.to_int i) info backendType
            (Cxx.to_int i =? defaultInput) (Cxx.to_int i =? defaultOutput)
          :: rest
      | raises _ => rest
      end
  end.

(** [enumerateDevices]. *)
Definition enumerateDevices (q : RtAudio.DeviceQueries)
  : M (list RtAudioDevice.t) :=
  try_catch_RtAudioError
    (deviceCount <- native (RtAudio.getDeviceCount q) ;;
     defaultInput <- native (RtAudio.getDefaultInputDevice q) ;;
     defaultOutput <- native (RtAudio.getDefaultOutputDevice q) ;;
     backendType <- gets m_backendType ;;
     ret (enumerate_loop (RtAudio.getDeviceInfo q) backendType
            (Cxx.to_int defaultInput) (Cxx.to_int defaultOutput)
            0 (Z.to_nat deviceCount)))
    (fun message => setError message ;; ret []).

(** [createDeviceFromRtAudioId]; [None] is the null pointer. *)
Definition createDeviceFromRtAudioId (q : RtAudio.DeviceQueries)
    (deviceId : Z) (s : RtAudioBackend) : option RtAudioDevice.t :=
  if deviceId <? 0 then None
  else
    match RtAudio.getDeviceInfo q deviceId,
          RtAudio.getDefaultInputDevice q,
          RtAudio.getDefaultOutputDevice q with
    | completes info, completes defaultInput, completes defaultOutput =>
        Some (RtAudioDevice.new hash deviceId info (m_backendType s)
                (deviceId =? Cxx.to_int defaultInput)
                (deviceId =? Cxx.to_int defaultOutput))
    | _, _, _ => None
    end.

(** [getCurrentInputDevice], [getCurrentOutputDevice]. *)
Definition getCurrentInputDevice (q : RtAudio.DeviceQueries)
    (s : RtAudioBackend) : option RtAudioDevice.t :=
  if negb (isRunning s) then None else createDeviceFromRtAudioId q 1 s.

Definition getCurrentOutputDevice (q : RtAudio.DeviceQueries)
    (s : RtAudioBackend) : option RtAudioDevice.t :=
  if negb (isRunning s) then None else createDeviceFromRtAudioId q 2 s.

(** The search of [findDeviceIdByName] through the enumerated devices. *)
Fixpoint find_by_name (name : string) (isInput : bool)
    (devices : list RtAudioDevice.t) : Z :=
  match devices with
  | [] => -1
  | device :: rest =>
      if String.eqb (RtAudioDevice.getName device) name
         && ((isInput
              && (0 <? RtAudio.inputChannels
                         (RtAudioDevice.getRtDeviceInfo device)))
             || (negb isInput
                 && (0 <? RtAudio.outputChannels
                            (RtAudioDevice.getRtDeviceInfo device))))
      then RtAudioDevice.getRtAudioDeviceId device
      else find_by_name name isInput rest
  end.

(** [findDeviceIdByName]. *)
Definition findDeviceIdByName (name : string) (isInput : bool)
    (q : RtAudio.DeviceQueries) : M Z :=
  devices <- enumerateDevices q ;;
  ret (find_by_name name isInput devices).

(** Lines 82-95 of [start] for one direction: the parameters are filled in
    only when the direction has channels and the configuration names a
    device. *)
Definition named_parameters (channels : Z) (deviceName : option string)
    (isInput : bool) (q : RtAudio.DeviceQueries)
  : M RtAudio.StreamParameters :=
  match deviceName with
  | Some name =>
      if 0 <? channels
      then
        id <- findDeviceIdByName name isInput q ;;
        ret (RtAudio.mkStreamParameters
               (Cxx.to_unsigned id) (Cxx.to_unsigned channels) 0)
      else ret default_parameters
  | None => ret default_parameters
  end.

(** Lines 98-103 for one direction: a device that was not found
    ([deviceId == -1], compared as unsigned values) is replaced by the
    library's default device. *)
Definition or_default_device (defaultDevice : Native Z)
    (p : RtAudio.StreamParameters) : M RtAudio.StreamParameters :=
  if (0 <? RtAudio.nChannels p)
     && (RtAudio.deviceId p =? Cxx.to_unsigned (-1))
  then
    id <- native defaultDevice ;;
    ret (RtAudio.mkStreamParameters id (RtAudio.nChannels p)
           (RtAudio.firstChannel p))
  else ret p.

(** The input and output parameters [start] hands to [openStream]. *)
Definition stream_parameters (q : RtAudio.DeviceQueries)
  : M (RtAudio.StreamParameters * RtAudio.StreamParameters) :=
  config <- gets m_config ;;
  inputParams <-
    named_parameters (inputChannels config) (inputDeviceName config) true q ;;
  outputParams <-
    named_parameters (outputChannels config) (outputDeviceName config)
      false q ;;
  inputParams <-
    or_default_device (RtAudio.getDefaultInputDevice q) inputParams ;;
  outputParams <-
    or_default_device (RtAudio.getDefaultOutputDevice q) outputParams ;;
  ret (inputParams, outputParams).

(** Lines 106-134 of [start]: what [openStream] is called with.  A
    direction without channels passes a null parameter pointer. *)
Definition open_request (config : StreamConfig)
    (inputParams outputParams : RtAudio.StreamParameters)
  : RtAudio.OpenStream := {|
  RtAudio.request_output :=
    if 0 <? outputChannels config then Some outputParams else None;
  RtAudio.request_input :=
    if 0 <? inputChannels config then Some inputParams else None;
  RtAudio.request_format := convertToRtAudioFormat (format config);
  RtAudio.request_sampleRate := Cxx.to_unsigned (sampleRate config);
  RtAudio.request_bufferFrames := Cxx.to_unsigned (bufferSize config);
  RtAudio.request_options := {|
    RtAudio.flags :=
      RtAudio.RTAUDIO_NONINTERLEAVED
      :: (if exclusiveMode config then [RtAudio.RTAUDIO_HOG_DEVICE] else []);
    RtAudio.numberOfBuffers := 2;
    RtAudio.streamName := "Cadence DAW";
    RtAudio.priority := 90
  |}
|}.

(** [start].  [q] answers the device queries of lines 82-103, [openStream]
    answers the call of lines 125-134 with the buffer size the library
    settled on (it may adjust the requested one), [startStream] answers the
    start of the opened stream, [now] is the clock reading taken after it. *)
Definition start (callback : option AudioCallback)
    (q : RtAudio.DeviceQueries)
    (openStream : RtAudio.OpenStream -> Native Z)
    (startStream : Native unit) (now : Z) : M unit :=
  running <- gets isRunning ;;
  if running
  then throw (AudioException AudioBackendStartFailed
                "Backend is already running")
  else
    match callback with
    | None =>
        throw (AudioException AudioBackendStartFailed
                 "Invalid callback function")
    | Some _ =>
        modify (set_userCallback callback) ;;
        try_catch_RtAudioError
          (parameters <- stream_parameters q ;;
           config <- gets m_config ;;
           bufferFrames <-
             native (openStream
                       (open_request config (fst parameters)
                          (snd parameters))) ;;
           config <- gets m_config ;;
           modify (set_config
                     (with_bufferSize (Cxx.to_int bufferFrames) config)) ;;
           resetPerformanceCounters ;;
           native startStream ;;
           modify (set_isRunning true) ;;
           modify (set_isPaused false) ;;
           modify (set_lastCallbackTime now))
          (fun message =>
             setError ("Failed to start audio stream: " ++ message) ;;
             modify (set_isRunning false) ;;
             error <- gets getLastError ;;
             throw (AudioException AudioBackendStartFailed error))
    end.

(** [stop]. *)
Definition stop (stopStream closeStream : Native unit) : M unit :=
  running <- gets isRunning ;;
  if negb running then ret tt
  else
    try_catch_RtAudioError
      (native stopStream ;; native closeStream)
      (fun message => setError ("Error stopping stream: " ++ message)) ;;
    modify (set_isRunning false) ;;
    modify (set_isPaused false) ;;
    modify (set_userCallback None).

(** [pause]. *)
Definition pause (stopStream : Native unit) : M unit :=
  running <- gets isRunning ;;
  paused <- gets isPaused ;;
  if negb running || paused then ret tt
  else
    try_catch_RtAudioError
      (native stopStream ;; modify (set_isPaused true))
      (fun message =>
         setError ("Error pausing stream: " ++ message) ;;
         error <- gets getLastError ;;
         throw (AudioException AudioBackendStopFailed error)).

(** [resume]. *)
Definition resume (startStream : Native unit) (now : Z) : M unit :=
  running <- gets isRunning ;;
  paused <- gets isPaused ;;
  if negb running || negb paused then ret tt
  else
    try_catch_RtAudioError
      (native startStream ;;
       modify (set_isPaused false) ;;
       modify (set_lastCallbackTime now))
      (fun message =>
         setError ("Error resuming stream: " ++ message) ;;
         error <- gets getLastError ;;
         throw (AudioException AudioBackendStartFailed error)).

(** [updateStreamTime]. *)
Definition updateStreamTime (framesProcessed : Z) : M unit :=
  config <- gets m_config ;;
  let increment :=
    (Cxx.double_of_int framesProcessed
     / Cxx.double_of_int (sampleRate config))%float in
  streamTime <- gets m_streamTime ;;
  modify (set_streamTime (streamTime + increment)%float).

(** The library's answers to one reopening of the stream. *)
Record Reopen : Type := mkReopen {
  reopen_stopStream : Native unit;
  reopen_closeStream : Native unit;
  reopen_openStream : Native Z;
  reopen_startStream : Native unit;
  reopen_now : Z
}.

(** [changeSampleRate].  [pause] and [resume] throw [AudioException], which
    the [catch] of this function does not handle. *)
Definition changeSampleRate (newRate : Z) (n : Reopen) : M bool :=
  running <- gets isRunning ;;
  config <- gets m_config ;;
  if negb running || negb (allowSampleRateChange config) then ret false
  else
    try_catch_RtAudioError
      (wasPaused <- gets isPaused ;;
       (if negb wasPaused then pause (reopen_stopStream n) else ret tt) ;;
       native (reopen_closeStream n) ;;
       config <- gets m_config ;;
       modify (set_config (with_sampleRate newRate config)) ;;
       native (reopen_openStream n) ;;
       (if negb wasPaused
        then resume (reopen_startStream n) (reopen_now n)
        else ret tt) ;;
       ret true)
      (fun message =>
         setError ("Failed to change sample rate: " ++ message) ;;
         ret false).

(** [m_xrunCount++] on a [std::atomic<int>]. *)
Definition count_xrun : M unit :=
  modify (fun s => set_xrunCount (Cxx.to_int (m_xrunCount s + 1)) s).

Definition flag_set (status flag : Z) : bool :=
  negb (Z.land status flag =? 0).

(** [handleAudioCallback], the bridge the library calls for every period.
    [now] is the clock reading of line 441.  The result is the [int] given
    back to the library and the output memory after the call. *)
Definition handleAudioCallback (outputBuffer inputBuffer : option Buffer)
    (nFrames : Z) (streamTime : float) (status : Z) (now : Z)
  : M (Z * option Buffer) :=
  (if flag_set status RTAUDIO_INPUT_OVERFLOW then count_xrun else ret tt) ;;
  (if flag_set status RTAUDIO_OUTPUT_UNDERFLOW then count_xrun else ret tt) ;;
  lastCallbackTime <- gets m_lastCallbackTime ;;
  config <- gets m_config ;;
  let elapsed := seconds (now - lastCallbackTime) in
  let expectedTime :=
    (Cxx.double_of_int nFrames
     / Cxx.double_of_int (sampleRate config))%float in
  (if (expectedTime <? elapsed)%float
   then modify (set_cpuUsage 100%float)
   else modify (set_cpuUsage (elapsed / expectedTime * 100)%float)) ;;
  modify (set_lastCallbackTime now) ;;
  updateStreamTime nFrames ;;
  userCallback <- gets m_userCallback ;;
  match userCallback with
  | Some callback =>
      time <- gets m_streamTime ;;
      match callback inputBuffer outputBuffer nFrames time with
      | cb_returns out => ret (0, written outputBuffer out)
      | cb_throws_exception what out =>
          setError ("Audio callback error: " ++ what) ;;
          ret (1, written outputBuffer out)
      | cb_throws_other out =>
          setError "Unknown error in audio callback" ;;
          ret (1, written outputBuffer out)
      end
  | None =>
      match outputBuffer with
      | Some buf =>
          if 0 <? outputChannels config
          then
            let bufferSize :=
              Cxx.to_size_t
                (Cxx.to_unsigned (nFrames * outputChannels config)
                 * Cxx.sizeof_float) in
            ret (0, Some (memset buf x00 bufferSize))
          else ret (0, outputBuffer)
      | None => ret (0, outputBuffer)
      end
  end.

(** [measureLatency]; [rand] is the value [std::rand()] returned. *)
Definition measureLatency (rand : Z) (s : RtAudioBackend) : LatencyInfo :=
  let theoretical :=
    (Cxx.double_of_int (bufferSize (m_config s)) * 1000
     / Cxx.double_of_int (sampleRate (m_config s)))%float in
  {| theoreticalMs := theoretical;
     measuredMs :=
       (theoretical
        * (1 + Cxx.double_of_int (Z.rem rand 100) / 1000))%float;
     jitterMs := (theoretical * 0.05)%float;
     cpuUsage := getCpuUsage s;
     xruns := getXrunCount s |}.

(** ** The control thread's calls, as data *)

Inductive LifecycleCall : Type :=
| call_initialize (config : StreamConfig) (new_RtAudio : Native unit)
| call_start (callback : option AudioCallback) (q : RtAudio.DeviceQueries)
    (openStream : RtAudio.OpenStream -> Native Z)
    (startStream : Native unit) (now : Z)
| call_stop (stopStream closeStream : Native unit)
| call_pause (stopStream : Native unit)
| call_resume (startStream : Native unit) (now : Z).

Definition run_call (c : LifecycleCall) : M unit :=
  match c with
  | call_initialize config new_RtAudio => initialize config new_RtAudio
  | call_start callback q openStream startStream now =>
      start callback q openStream startStream now
  | call_stop stopStream closeStream => stop stopStream closeStream
  | call_pause stopStream => pause stopStream
  | call_resume startStream now => resume startStream now
  end.


(** The object after a sequence of calls, whether they returned or threw. *)
Fixpoint run_calls (cs : list LifecycleCall) (s : RtAudioBackend)
  : RtAudioBackend :=
  match cs with
  | [] => s
  | c :: cs' => run_calls cs' (state_after (run_call c s))
  end.

(** The flags' invariant: a paused backend is a running one. *)
Definition paused_implies_running (s : RtAudioBackend) : bool :=
  implb (isPaused s) (isRunning s).

End Engine.

(** ** rtaudiobackend.cpp, the remaining member functions *)

(** [convertRtAudioApi]. *)
Definition convertRtAudioApi (api : RtAudio.Api) : BackendType.t :=
  match api with
  | RtAudio.WINDOWS_ASIO => BackendType.ASIO
  | RtAudio.WINDOWS_WASAPI => BackendType.WASAPI
  | RtAudio.WINDOWS_DS => BackendType.DirectSound
  | RtAudio.MACOSX_CORE => BackendType.CoreAudio
  | RtAudio.LINUX_ALSA => BackendType.ALSA
  | RtAudio.LINUX_PULSE => BackendType.Pulse
  | RtAudio.UNIX_JACK => BackendType.JACK
  | RtAudio.RTAUDIO_DUMMY => BackendType.RtAudio
  | _ => BackendType.RtAudio
  end.

(** [convertToRtAudioApi]. *)
Definition convertToRtAudioApi (backendType : BackendType.t) : RtAudio.Api :=
  match backendType with
  | BackendType.ASIO => RtAudio.WINDOWS_ASIO
  | BackendType.WASAPI => RtAudio.WINDOWS_WASAPI
  | BackendType.DirectSound => RtAudio.WINDOWS_DS
  | BackendType.CoreAudio => RtAudio.MACOSX_CORE
  | BackendType.ALSA => RtAudio.LINUX_ALSA
  | BackendType.Pulse => RtAudio.LINUX_PULSE
  | BackendType.JACK => RtAudio.UNIX_JACK
  | BackendType.RtAudio => RtAudio.UNSPECIFIED
  | _ => RtAudio.UNSPECIFIED
  end.

(** The constructor again, with the library's side spelled out:
    [currentApi] is what [getCurrentApi()] answers on the library object
    made for [BackendType::Auto]. *)
Definition RtAudioBackend_ctor (backendType : BackendType.t)
    (currentApi : RtAudio.Api) : RtAudioBackend :=
  RtAudioBackend_new backendType (convertRtAudioApi currentApi).

(** The destructor: [stop] when running, every exception swallowed. *)
Definition destructor (stopStream closeStream : Native unit) : M unit :=
  fun s =>
    match (running <- gets isRunning ;;
           if running then stop stopStream closeStream else ret tt) s with
    | Returns a s' => Returns a s'
    | Throws _ s' => Returns tt s'
    end.

Definition getBackendType (s : RtAudioBackend) : BackendType.t :=
  m_backendType s.

(** [getActualSampleRate]; [streamSampleRate] answers
    [getStreamSampleRate()]. *)
Definition getActualSampleRate (streamSampleRate : Native Z)
    (s : RtAudioBackend) : Z :=
  if negb (isRunning s) then sampleRate (m_config s)
  else
    match streamSampleRate with
    | completes rate => Cxx.to_int rate
    | raises _ => sampleRate (m_config s)
    end.

(** [getActualBufferSize]: both branches return the configured size. *)
Definition getActualBufferSize (s : RtAudioBackend) : Z :=
  if negb (isRunning s) then bufferSize (m_config s)
  else bufferSize (m_config s).

(** [getInputLatencyMs]; [streamLatency] answers [getStreamLatency()]. *)
Definition getInputLatencyMs (streamLatency : Native Z) (s : RtAudioBackend)
  : float :=
  if negb (isRunning s) then 0%float
  else
    match streamLatency with
    | completes latency => (Cxx.double_of_int latency * 1000)%float
    | raises _ =>
        (Cxx.double_of_int (bufferSize (m_config s)) * 1000
         / Cxx.double_of_int (sampleRate (m_config s)))%float
    end.

Definition getOutputLatencyMs (streamLatency : Native Z) (s : RtAudioBackend)
  : float :=
  getInputLatencyMs streamLatency s.

(** [changeBufferSize]. *)
Definition changeBufferSize (newSize : Z) (n : Reopen) : M bool :=
  running <- gets isRunning ;;
  config <- gets m_config ;;
  if negb running || negb (allowBufferSizeChange config) then ret false
  else
    try_catch_RtAudioError
      (wasPaused <- gets isPaused ;;
       (if negb wasPaused then pause (reopen_stopStream n) else ret tt) ;;
       native (reopen_closeStream n) ;;
       config <- gets m_config ;;
       modify (set_config (with_bufferSize newSize config)) ;;
       native (reopen_openStream n) ;;
       (if negb wasPaused
        then resume (reopen_startStream n) (reopen_now n)
        else ret tt) ;;
       ret true)
      (fun message =>
         setError ("Failed to change buffer size: " ++ message) ;;
         ret false).

(** [switchInputDevice], [switchOutputDevice]. *)
Definition switchInputDevice (deviceId : string) : M bool :=
  setError "Device switching not implemented" ;; ret false.

Definition switchOutputDevice (deviceId : string) : M bool :=
  setError "Device switching not implemented" ;; ret false.

(** [checkAndThrowRtAudioError]. *)
Definition checkAndThrowRtAudioError (context : string) : M unit :=
  error <- gets getLastError ;;
  if String.eqb error "" then ret tt
  else throw (AudioException PlatformSpecificError
                (context ++ ": " ++ error)).

(** [rtAudioCallback]: the static function given to the library, which
    hands the call to the object behind [userData]. *)
Definition rtAudioCallback `{Platform} (outputBuffer inputBuffer : option Buffer)
    (nFrames : Z) (streamTime : float) (status : Z) (now : Z)
  : M (Z * option Buffer) :=
  handleAudioCallback outputBuffer inputBuffer nFrames streamTime status now.

(** ** Every call on a backend, as data

    The control thread's calls (lifecycle, reconfiguration, device
    switching) and the audio thread's runs of the bridge. *)
Inductive EngineCall : Type :=
| call_lifecycle (c : LifecycleCall)
| call_changeSampleRate (newRate : Z) (n : Reopen)
| call_changeBufferSize (newSize : Z) (n : Reopen)
| call_switchInputDevice (deviceId : string)
| call_switchOutputDevice (deviceId : string)
| call_clearError
| call_bridge (outputBuffer inputBuffer : option Buffer) (nFrames : Z)
    (streamTime : float) (status : Z) (now : Z).

Section EngineCalls.

Variable hash : string -> Z.
Variable default_parameters : RtAudio.StreamParameters.

Context `{platform : Platform}.

Definition run_engine_call (c : EngineCall) (s : RtAudioBackend)
  : RtAudioBackend :=
  match c with
  | call_lifecycle c' => state_after (run_call hash default_parameters c' s)
  | call_changeSampleRate newRate n =>
      state_after (changeSampleRate newRate n s)
  | call_changeBufferSize newSize n =>
      state_after (changeBufferSize newSize n s)
  | call_switchInputDevice deviceId =>
      state_after (switchInputDevice deviceId s)
  | call_switchOutputDevice deviceId =>
      state_after (switchOutputDevice deviceId s)
  | call_clearError => state_after (clearError s)
  | call_bridge outputBuffer inputBuffer nFrames streamTime status now =>
      state_after
        (rtAudioCallback outputBuffer inputBuffer nFrames streamTime status
           now s)
  end.

Fixpoint run_engine_calls (cs : list EngineCall) (s : RtAudioBackend)
  : RtAudioBackend :=
  match cs with
  | [] => s
  | c :: cs' => run_engine_calls cs' (run_engine_call c s)
  end.

End EngineCalls.


(** ** Reference values and specification-side notions *)

(** The constants as RtAudio.h (version 5) publishes them, and the
    nanosecond clock of libstdc++ and libc++, for which
    [duration<double>(d).count()] is [double(d.count()) / 1e9].  Used for
    the concrete runs only. *)
Definition rtaudio_h : Platform := {|
  RTAUDIO_SINT16 := 2;
  RTAUDIO_SINT24 := 4;
  RTAUDIO_SINT32 := 8;
  RTAUDIO_FLOAT32 := 16;
  RTAUDIO_INPUT_OVERFLOW := 1;
  RTAUDIO_OUTPUT_UNDERFLOW := 2;
  seconds := fun ticks => (Cxx.double_of_int ticks / 1e9)%float;
  case_labels_distinct :=
    ltac:(repeat constructor; simpl; intuition discriminate)
|}.

(** The first error the library raises during the teardown of [stop]:
    [closeStream] is reached only when [stopStream] completed. *)
Definition teardown_error (stopStream closeStream : Native unit)
  : option string :=
  match stopStream, closeStream with
  | raises message, _ => Some message
  | completes _, raises message => Some message
  | completes _, completes _ => None
  end.

(** The number of xrun conditions a status word carries. *)
Definition xrun_flags `{Platform} (status : Z) : Z :=
  Z.b2z (flag_set status RTAUDIO_INPUT_OVERFLOW)
  + Z.b2z (flag_set status RTAUDIO_OUTPUT_UNDERFLOW).

(** The rational a finite binary64 value denotes. *)
Definition Q_of_float (x : float) : option Q :=
  match Prim2SF x with
  | S754_zero _ => Some 0%Q
  | S754_finite sign m e =>
      let magnitude :=
        if (0 <=? e)%Z then inject_Z (Z.pos m * 2 ^ e)
        else (Z.pos m # Pos.pow 2 (Z.to_pos (- e))) in
      Some (if sign then (- magnitude)%Q else magnitude)
  | _ => None
  end.

(** [x] is within [tolerance] of the rational [target]. *)
Definition within (tolerance target : Q) (x : float) : bool :=
  match Q_of_float x with
  | Some q =>
      Qle_bool (target - tolerance) q && Qle_bool q (target + tolerance)
  | None => false
  end.

(** [x] is within the fraction [relative] of the positive rational
    [target]. *)
Definition within_relative (relative target : Q) (x : float) : bool :=
  within (relative * target) target x.

(** A callback that writes nothing and returns, as in the engine's tests. *)
Definition null_callback : AudioCallback :=
  fun _ output _ _ =>
    cb_returns (match output with Some buf => buf | None => fun _ => x00 end).

(** A callback that throws [std::runtime_error("boom")]. *)
Definition throwing_callback : AudioCallback :=
  fun _ output _ _ =>
    cb_throws_exception "boom"
      (match output with Some buf => buf | None => fun _ => x00 end).

(** ** Rounding, as the specification of binary64 arithmetic has it *)

(** [N / D] lies at the record [mrs]: its integer part is [shr_m], and the
    round and sticky bits say where the rest lies against one half. *)
Definition located (N D : Z) (mrs : shr_record) : Prop :=
  0 <= N - shr_m mrs * D < D
  /\ shr_r mrs = (D <=? 2 * (N - shr_m mrs * D))
  /\ shr_s mrs
     = negb (N - shr_m mrs * D =? 0) && negb (2 * (N - shr_m mrs * D) =? D).

(** The integer nearest to [N / D], ties to even. *)
Definition round_quotient (N D : Z) : Z :=
  let q := N / D in
  let rest := N - q * D in
  if 2 * rest <? D then q
  else if 2 * rest =? D then (if Z.even q then q else q + 1)
  else q + 1.

(** The binary64 value [x] is the positive integer [T], exactly, in its
    normal form: a 53-bit mantissa and a non-positive exponent. *)
Definition represents (T : Z) (x : spec_float) : Prop :=
  exists m e,
    x = S754_finite false m e
    /\ 2 ^ 52 <= Z.pos m < 2 ^ 53 /\ e <= 0 /\ Z.pos m = T * 2 ^ (- e).


(** One period of the stream, as the library reports it to the bridge. *)
Record Period : Type := mkPeriod {
  period_output : option Buffer;
  period_input : option Buffer;
  period_frames : Z;
  period_streamTime : float;
  period_status : Z;
  period_now : Z
}.

(** The bridge run once for each of the given periods, in order. *)
Fixpoint run_periods `{Platform} (ps : list Period) (s : RtAudioBackend)
  : RtAudioBackend :=
  match ps with
  | [] => s
  | p :: ps' =>
      run_periods ps'
        (state_after
           (rtAudioCallback (period_output p) (period_input p)
              (period_frames p) (period_streamTime p) (period_status p)
              (period_now p) s))
  end.

(** The xrun conditions flagged over a list of periods. *)
Fixpoint xrun_flags_total `{Platform} (ps : list Period) : Z :=
  match ps with
  | [] => 0
  | p :: ps' => xrun_flags (period_status p) + xrun_flags_total ps'
  end.

(** Whether a callback is held. *)
Definition callback_installed (s : RtAudioBackend) : bool :=
  match m_userCallback s with
  | Some _ => true
  | None => false
  end.

(** The devices of [ds] that [findDeviceIdByName] accepts. *)
Definition name_matches (name : string) (isInput : bool)
    (device : RtAudioDevice.t) : bool :=
  String.eqb (RtAudioDevice.getName device) name
  && (0 <? (if isInput
            then RtAudio.inputChannels (RtAudioDevice.getRtDeviceInfo device)
            else RtAudio.outputChannels
                   (RtAudioDevice.getRtDeviceInfo device))).

(** Whether the separator of device identifiers occurs in a string. *)
Fixpoint has_separator (s : string) : bool :=
  match s with
  | EmptyString => false
  | String c s' => Ascii.eqb c "_"%char || has_separator s'
  end.


(** Whether a run of the user callback ended in an exception, and the
    output memory it left. *)
Definition callback_threw (r : CallbackResult) : bool :=
  match r with
  | cb_returns _ => false
  | _ => true
  end.

Definition callback_output (r : CallbackResult) : Buffer :=
  match r with
  | cb_returns out => out
  | cb_throws_exception _ out => out
  | cb_throws_other out => out
  end.


(** What holds of a backend between any two calls: a paused backend is
    running, a running backend holds a callback, the backend type is not
    Auto and the xrun counter is a valid [int]. *)
Definition engine_invariant (s : RtAudioBackend) : Prop :=
  paused_implies_running s = true
  /\ implb (isRunning s) (callback_installed s) = true
  /\ BackendType.eqb (getBackendType s) BackendType.Auto = false
  /\ Cxx.INT_MIN <= getXrunCount s <= Cxx.INT_MAX.

(** A stand-in for [std::hash<std::string>]: the length of the string. *)
Definition length_hash (s : string) : Z := Z.of_nat (String.length s).

(** A duplex device with the usual rates, float and 16-bit formats. *)
Definition usb_interface : RtAudio.DeviceInfo := {|
  RtAudio.name := "USB Audio";
  RtAudio.outputChannels := 2;
  RtAudio.inputChannels := 2;
  RtAudio.duplexChannels := 2;
  RtAudio.sampleRates := [44100; 48000; 96000];
  RtAudio.preferredSampleRate := 48000;
  RtAudio.nativeFormats := 18
|}.

(** An output-only device. *)
Definition speakers : RtAudio.DeviceInfo := {|
  RtAudio.name := "Speakers";
  RtAudio.outputChannels := 2;
  RtAudio.inputChannels := 0;
  RtAudio.duplexChannels := 0;
  RtAudio.sampleRates := [44100; 48000];
  RtAudio.preferredSampleRate := 44100;
  RtAudio.nativeFormats := 2
|}.

(** A library with three device indices, the second of which cannot be
    queried. *)
Definition three_devices : RtAudio.DeviceQueries := {|
  RtAudio.getDeviceCount := completes 3;
  RtAudio.getDefaultInputDevice := completes 2;
  RtAudio.getDefaultOutputDevice := completes 0;
  RtAudio.getDeviceInfo := fun i =>
    if i =? 0 then completes speakers
    else if i =? 2 then completes usb_interface
    else raises "device unavailable"
|}.

(** A default-constructed [RtAudio::StreamParameters]: RtAudio.h
    initialises [deviceId], [nChannels] and [firstChannel] to 0. *)
Definition zero_parameters : RtAudio.StreamParameters :=
  RtAudio.mkStreamParameters 0 0 0.

(** What RtAudio's [openStream] checks of its parameter pointers before it
    probes a device: a non-null [StreamParameters] has at least one channel,
    and the two pointers are not both null. *)
Definition no_channels (p : option RtAudio.StreamParameters) : bool :=
  match p with
  | Some parameters => RtAudio.nChannels parameters <? 1
  | None => false
  end.

Definition rejects_empty_parameters
    (openStream : RtAudio.OpenStream -> Native Z) : Prop :=
  forall request,
    no_channels (RtAudio.request_output request)
    || no_channels (RtAudio.request_input request) = true ->
    exists message, openStream request = raises message.

(** A library that makes this check and opens every other stream with the
    buffer size asked for. *)
Definition checked_openStream (request : RtAudio.OpenStream) : Native Z :=
  match RtAudio.request_output request, RtAudio.request_input request with
  | None, None =>
      raises "RtApi::openStream: input and output StreamParameters structures are both NULL!"
  | output, input =>
      if no_channels output || no_channels input
      then raises "RtApi::openStream: a non-NULL StreamParameters structure cannot have an nChannels value less than one."
      else completes (RtAudio.request_bufferFrames request)
  end.

(** What the [catch] clause of [start] makes of a library error raised
    with the object in state [s]. *)
Definition start_failure (message : string) (s : RtAudioBackend)
  : Outcome unit :=
  Throws
    (AudioException AudioBackendStartFailed
       ("Failed to start audio stream: " ++ message))
    (set_isRunning false
       (set_lastError ("Failed to start audio stream: " ++ message) s)).

(** The object of a [start] after [openStream] answered [frames]: the
    buffer size is stored and the performance counters are reset. *)
Definition stream_opened (frames : Z) (s : RtAudioBackend) : RtAudioBackend :=
  set_streamTime 0%float
    (set_cpuUsage 0%float
       (set_xrunCount 0
          (set_config (with_bufferSize (Cxx.to_int frames) (m_config s)) s))).

(** A backend constructed and never initialised. *)
Definition fresh_backend : RtAudioBackend :=
  RtAudioBackend_new BackendType.Auto BackendType.ALSA.

(** A playback configuration that names the output device. *)
Definition playback_config : StreamConfig :=
  mkStreamConfig None (Some "Speakers") 48000 512 0 2 Float32 Stable
    false false false BackendType.Auto.

(** The backend after [initialize(playback_config)] and [start(callback)],
    the library having opened and started the stream on the named device
    with the 512 frames per buffer asked for. *)
Definition started_backend (callback : AudioCallback) : RtAudioBackend :=
  state_after
    (start (platform := rtaudio_h) length_hash zero_parameters
       (Some callback) three_devices checked_openStream (completes tt) 0
       (state_after (initialize playback_config (completes tt)
                       fresh_backend))).

(** Output memory that holds something other than silence. *)
Definition stale_buffer : Buffer := fun _ => xff.

(** A started backend whose configuration allows both reconfigurations. *)
Definition flexible_backend : RtAudioBackend :=
  set_config
    (mkStreamConfig None None 48000 512 2 2 Float32 Stable true true false
       BackendType.Auto)
    (started_backend null_callback).

(** * Properties *)

(** ** Machine arithmetic and enumerations *)

Lemma to_int_id z : Cxx.INT_MIN <= z <= Cxx.INT_MAX -> Cxx.to_int z = z.
Proof.
  unfold Cxx.to_int, Cxx.INT_MIN, Cxx.INT_MAX, Cxx.UINT_MODULUS. intros Hz.
  rewrite Z.mod_small; lia.
Qed.

Lemma to_int_range z : Cxx.INT_MIN <= Cxx.to_int z <= Cxx.INT_MAX.
Proof.
  unfold Cxx.to_int, Cxx.INT_MIN, Cxx.INT_MAX, Cxx.UINT_MODULUS.
  pose proof (Z.mod_pos_bound (z + 2 ^ 31) (2 ^ 32) ltac:(lia)). lia.
Qed.

Lemma to_int_add_absorb z k : Cxx.to_int (Cxx.to_int z + k) = Cxx.to_int (z + k).
Proof.
  unfold Cxx.to_int, Cxx.UINT_MODULUS. f_equal.
  replace ((z + 2 ^ 31) mod 2 ^ 32 - 2 ^ 31 + k + 2 ^ 31)
    with ((z + 2 ^ 31) mod 2 ^ 32 + k) by lia.
  rewrite Zplus_mod_idemp_l. f_equal. lia.
Qed.

Lemma to_unsigned_id z : 0 <= z < Cxx.UINT_MODULUS -> Cxx.to_unsigned z = z.
Proof. intros Hz. unfold Cxx.to_unsigned. now rewrite Z.mod_small. Qed.

Lemma BackendType_eqb_spec a b : reflect (a = b) (BackendType.eqb a b).
Proof. destruct a, b; simpl; constructor; congruence. Qed.

(** Unfolds the monad and the setters down to the record. *)
Ltac run :=
  cbv beta iota delta
    [bind ret throw gets modify native try_catch_RtAudioError state_after
     setError clearError resetPerformanceCounters count_xrun
     isRunning isPaused getLastError getCurrentConfig getCpuUsage
     getXrunCount getStreamTime
     set_backendType set_config set_userCallback set_isRunning set_isPaused
     set_xrunCount set_streamTime set_lastCallbackTime set_cpuUsage
     set_lastError
     m_backendType m_config m_userCallback m_isRunning m_isPaused
     m_xrunCount m_streamTime m_lastCallbackTime m_cpuUsage m_lastError].

Ltac run_in H :=
  cbv beta iota delta
    [bind ret throw gets modify native try_catch_RtAudioError state_after
     setError clearError resetPerformanceCounters count_xrun
     isRunning isPaused getLastError getCurrentConfig getCpuUsage
     getXrunCount getStreamTime
     set_backendType set_config set_userCallback set_isRunning set_isPaused
     set_xrunCount set_streamTime set_lastCallbackTime set_cpuUsage
     set_lastError
     m_backendType m_config m_userCallback m_isRunning m_isPaused
     m_xrunCount m_streamTime m_lastCallbackTime m_cpuUsage m_lastError]
    in H.

Section Properties.

Variable hash : string -> Z.
Variable default_parameters : RtAudio.StreamParameters.

Context `{platform : Platform}.

(** ** Sample-format conversions *)

Lemma format_labels :
  RTAUDIO_SINT16 <> RTAUDIO_FLOAT32 /\ RTAUDIO_SINT24 <> RTAUDIO_FLOAT32
  /\ RTAUDIO_SINT32 <> RTAUDIO_FLOAT32 /\ RTAUDIO_SINT24 <> RTAUDIO_SINT16
  /\ RTAUDIO_SINT32 <> RTAUDIO_SINT16 /\ RTAUDIO_SINT32 <> RTAUDIO_SINT24.
Proof.
  pose proof case_labels_distinct as D.
  inversion D as [|? ? N1 D1]; subst.
  inversion D1 as [|? ? N2 D2]; subst.
  inversion D2 as [|? ? N3 D3]; subst.
  simpl in N1, N2, N3.
  repeat split; intros E; rewrite ?E in *; tauto.
Qed.

(** C9.  Both sample-format mappings are total functions; a native format
    that is none of the four mapped constants, and a [SampleFormat] that is
    none of the four enumerators, fall back to Float32 (resp. to the native
    Float32 constant); and for each of Float32, Int16, Int24, Int32,
    converting to the native format and back gives the format again. *)
Theorem convertRtAudioFormat_round_trip :
  (forall f : SampleFormat,
      In f [Float32; Int16; Int24; Int32] ->
      convertRtAudioFormat (convertToRtAudioFormat f) = f)
  /\ (forall v : Z,
         ~ In v [RTAUDIO_FLOAT32; RTAUDIO_SINT16; RTAUDIO_SINT24;
                 RTAUDIO_SINT32] ->
         convertRtAudioFormat v = Float32)
  /\ (forall f : SampleFormat,
         ~ In f [Float32; Int16; Int24; Int32] ->
         convertToRtAudioFormat f = RTAUDIO_FLOAT32).
Proof.
  destruct format_labels as (L1 & L2 & L3 & L4 & L5 & L6).
  split; [| split].
  - intros f Hf. simpl in Hf.
    destruct Hf as [<- | [<- | [<- | [<- | []]]]];
      unfold convertToRtAudioFormat, convertRtAudioFormat; simpl;
      rewrite ?Z.eqb_refl;
      repeat match goal with
        | |- context [?a =? ?b] =>
            destruct (Z.eqb_spec a b); try congruence
        end;
      reflexivity.
  - intros v Hv. simpl in Hv. unfold convertRtAudioFormat.
    repeat match goal with
      | |- context [?a =? ?b] => destruct (Z.eqb_spec a b)
      end;
      solve [reflexivity | exfalso; intuition congruence].
  - intros f Hf. simpl in Hf. unfold convertToRtAudioFormat.
    repeat match goal with
      | |- context [?a =? ?b] => destruct (Z.eqb_spec a b)
      end;
      solve [reflexivity | exfalso; intuition congruence].
Qed.


(** ** The lifecycle *)

Lemma initialize_flags config new_RtAudio s :
  let s' := state_after (initialize config new_RtAudio s) in
  isRunning s' = isRunning s /\ isPaused s' = isPaused s.
Proof.
  unfold initialize. destruct (isValid config); simpl; [| run; auto].
  run.
  destruct (negb _ && negb _); [destruct new_RtAudio |]; simpl; auto.
Qed.

(** The device queries of [start] write nothing but the last error. *)
Lemma enumerateDevices_state q s :
  exists devices e,
    enumerateDevices hash q s = Returns devices (set_lastError e s).
Proof.
  unfold enumerateDevices. run. destruct s as [bt cfg cb r p x t l c e].
  destruct (RtAudio.getDeviceCount q); [| eauto].
  destruct (RtAudio.getDefaultInputDevice q); [| eauto].
  destruct (RtAudio.getDefaultOutputDevice q); eauto.
Qed.

Lemma named_parameters_state channels deviceName isInput q s :
  exists parameters e,
    named_parameters hash default_parameters channels deviceName isInput q s
    = Returns parameters (set_lastError e s).
Proof.
  unfold named_parameters, findDeviceIdByName.
  destruct deviceName as [name|];
    [destruct (0 <? channels) |];
    try solve [destruct s as [bt cfg cb r p x t l c e]; run; eauto].
  destruct (enumerateDevices_state q s) as (devices & e & E).
  unfold bind at 1 2. rewrite E. unfold ret. eauto.
Qed.

Lemma or_default_device_outcome defaultDevice parameters s :
  (exists parameters',
      or_default_device defaultDevice parameters s = Returns parameters' s)
  \/ (exists message,
         defaultDevice = raises message
         /\ or_default_device defaultDevice parameters s
            = Throws (RtAudioError message) s).
Proof.
  unfold or_default_device.
  destruct ((0 <? RtAudio.nChannels parameters) && _); run; eauto.
  destruct defaultDevice; eauto.
Qed.

Lemma stream_parameters_outcome q s :
  exists e,
    (exists parameters,
        stream_parameters hash default_parameters q s
        = Returns parameters (set_lastError e s))
    \/ (exists message,
           stream_parameters hash default_parameters q s
           = Throws (RtAudioError message) (set_lastError e s)
           /\ (RtAudio.getDefaultInputDevice q = raises message
               \/ RtAudio.getDefaultOutputDevice q = raises message)).
Proof.
  unfold stream_parameters, bind, gets, ret.
  destruct (named_parameters_state (inputChannels (m_config s))
              (inputDeviceName (m_config s)) true q s) as (p1 & e1 & E1).
  rewrite E1.
  destruct (named_parameters_state (outputChannels (m_config s))
              (outputDeviceName (m_config s)) false q (set_lastError e1 s))
    as (p2 & e2 & E2).
  rewrite E2.
  change (set_lastError e2 (set_lastError e1 s)) with (set_lastError e2 s).
  exists e2.
  destruct (or_default_device_outcome (RtAudio.getDefaultInputDevice q) p1
              (set_lastError e2 s)) as [(p1' & D1) | (m & Hm & D1)];
    rewrite D1.
  - destruct (or_default_device_outcome (RtAudio.getDefaultOutputDevice q)
                p2 (set_lastError e2 s)) as [(p2' & D2) | (m & Hm & D2)];
      rewrite D2.
    + left. eauto.
    + right. eauto.
  - right. eauto.
Qed.

(** Every outcome of [start] with a callback on a backend that is not
    running. *)
Lemma start_cases f q openStream startStream now s :
  isRunning s = false ->
  exists e,
    (exists message,
        (RtAudio.getDefaultInputDevice q = raises message
         \/ RtAudio.getDefaultOutputDevice q = raises message)
        /\ start hash default_parameters (Some f) q openStream startStream
             now s
           = start_failure message
               (set_lastError e (set_userCallback (Some f) s)))
    \/ (exists inputParams outputParams,
           stream_parameters hash default_parameters q
             (set_userCallback (Some f) s)
           = Returns (inputParams, outputParams)
               (set_lastError e (set_userCallback (Some f) s))
           /\ start hash default_parameters (Some f) q openStream
                startStream now s
              = match openStream
                        (open_request (m_config s) inputParams
                           outputParams) with
                | raises message =>
                    start_failure message
                      (set_lastError e (set_userCallback (Some f) s))
                | completes frames =>
                    match startStream with
                    | raises message =>
                        start_failure message
                          (stream_opened frames
                             (set_lastError e
                                (set_userCallback (Some f) s)))
                    | completes _ =>
                        Returns tt
                          (set_lastCallbackTime now
                             (set_isPaused false
                                (set_isRunning true
                                   (stream_opened frames
                                      (set_lastError e
                                         (set_userCallback (Some f) s))))))
                    end
                end).
Proof.
  intros R.
  destruct (stream_parameters_outcome q (set_userCallback (Some f) s))
    as [e [([ip op] & E) | (m & E & Hm)]]; exists e.
  - right. exists ip, op. split; [exact E |].
    unfold start, start_failure, stream_opened.
    destruct s as [bt cfg cb r p x t l c e0]; simpl in R; subst r.
    run_in E. run. rewrite E. simpl.
    destruct (openStream _) as [frames|m]; [| reflexivity].
    destruct startStream as [[]|m]; reflexivity.
  - left. exists m. split; [exact Hm |].
    unfold start, start_failure.
    destruct s as [bt cfg cb r p x t l c e0]; simpl in R; subst r.
    run_in E. run. rewrite E. reflexivity.
Qed.

Lemma start_guards callback q openStream startStream now s :
  (isRunning s = true ->
   start hash default_parameters callback q openStream startStream now s
   = Throws (AudioException AudioBackendStartFailed
               "Backend is already running") s)
  /\ (isRunning s = false ->
      start hash default_parameters None q openStream startStream now s
      = Throws (AudioException AudioBackendStartFailed
                  "Invalid callback function") s).
Proof.
  unfold start. run.
  destruct s as [bt cfg cb r p x t l c e]; simpl.
  split; intros ->; reflexivity.
Qed.

Lemma start_outcome callback q openStream startStream now s :
  match start hash default_parameters callback q openStream startStream
          now s with
  | Returns _ s' =>
      isRunning s = false /\ isRunning s' = true /\ isPaused s' = false
      /\ m_userCallback s' = callback
      /\ (exists f, callback = Some f)
      /\ (exists request frames, openStream request = completes frames)
      /\ startStream = completes tt
  | Throws e s' =>
      (exists what, e = AudioException AudioBackendStartFailed what)
      /\ isPaused s' = isPaused s
      /\ (isRunning s = true -> s' = s)
      /\ (isRunning s = false -> isRunning s' = false)
  end.
Proof.
  destruct (isRunning s) eqn:R.
  - rewrite (proj1 (start_guards callback q openStream startStream now s) R).
    repeat split; eauto; congruence.
  - destruct callback as [f|].
    + destruct (start_cases f q openStream startStream now s R)
        as [e [(m & _ & ->) | (ip & op & _ & ->)]].
      * unfold start_failure. repeat split; eauto; discriminate.
      * destruct (openStream _) as [frames|m] eqn:O;
          [destruct startStream as [[]|m] |];
          unfold start_failure; repeat split; eauto; discriminate.
    + rewrite (proj2 (start_guards None q openStream startStream now s) R).
      repeat split; eauto; congruence.
Qed.

Lemma stop_outcome stopStream closeStream s :
  stop stopStream closeStream s =
  Returns tt
    (if isRunning s
     then set_userCallback None
            (set_isPaused false
               (set_isRunning false
                  (match teardown_error stopStream closeStream with
                   | Some message =>
                       set_lastError ("Error stopping stream: " ++ message) s
                   | None => s
                   end)))
     else s).
Proof.
  unfold stop. run. destruct s as [bt cfg cb r p x t l c e]; simpl.
  destruct r; simpl; [| reflexivity].
  destruct stopStream as [[]|m]; simpl; [| reflexivity].
  destruct closeStream as [[]|m]; reflexivity.
Qed.

Lemma pause_outcome stopStream s :
  match pause stopStream s with
  | Returns _ s' =>
      isRunning s' = isRunning s
      /\ (isPaused s' = isPaused s
          \/ (isRunning s = true /\ isPaused s = false /\ isPaused s' = true))
  | Throws e s' =>
      (exists what, e = AudioException AudioBackendStopFailed what)
      /\ isRunning s' = isRunning s /\ isPaused s' = isPaused s
  end.
Proof.
  unfold pause. run. destruct s as [bt cfg cb r p x t l c e]; simpl.
  destruct r, p; simpl; auto.
  destruct stopStream as [[]|m]; simpl; eauto 6.
Qed.

Lemma resume_outcome startStream now s :
  match resume startStream now s with
  | Returns _ s' =>
      isRunning s' = isRunning s
      /\ (isPaused s' = isPaused s \/ isPaused s' = false)
  | Throws e s' =>
      (exists what, e = AudioException AudioBackendStartFailed what)
      /\ isRunning s' = isRunning s /\ isPaused s' = isPaused s
  end.
Proof.
  unfold resume. run. destruct s as [bt cfg cb r p x t l c e]; simpl.
  destruct r, p; simpl; auto.
  destruct startStream as [[]|m]; simpl; eauto 6.
Qed.

Lemma run_call_preserves c s :
  paused_implies_running s = true ->
  paused_implies_running
    (state_after (run_call hash default_parameters c s)) = true.
Proof.
  unfold paused_implies_running. intros Inv.
  destruct c as [config n | callback q o st now | st cl | st | st now]; simpl.
  - destruct (initialize_flags config n s) as [-> ->]. exact Inv.
  - pose proof (start_outcome callback q o st now s) as O.
    destruct (start hash default_parameters callback q o st now s)
      as [[] s'|e s']; simpl.
    + destruct O as (_ & -> & -> & _). reflexivity.
    + destruct O as (_ & Hp & Hr & Hn). rewrite Hp.
      destruct (isRunning s) eqn:R.
      * rewrite (Hr eq_refl), R. exact Inv.
      * rewrite (Hn eq_refl). exact Inv.
  - rewrite stop_outcome. simpl.
    destruct (isRunning s) eqn:R.
    + reflexivity.
    + rewrite R. exact Inv.
  - pose proof (pause_outcome st s) as O.
    destruct (pause st s) as [[] s'|e s']; simpl.
    + destruct O as (-> & [-> | (-> & _ & ->)]); auto.
    + destruct O as (_ & -> & ->). exact Inv.
  - pose proof (resume_outcome st now s) as O.
    destruct (resume st now s) as [[] s'|e s']; simpl.
    + destruct O as (-> & [-> | ->]); auto.
    + destruct O as (_ & -> & ->). exact Inv.
Qed.

Lemma run_calls_preserve cs : forall s,
  paused_implies_running s = true ->
  paused_implies_running (run_calls hash default_parameters cs s) = true.
Proof.
  induction cs as [|c cs IH]; intros s Inv; simpl.
  - exact Inv.
  - apply IH, run_call_preserves, Inv.
Qed.

(** C10.  A paused backend is a running one: this holds of a newly
    constructed backend, every lifecycle call (initialize, start, stop,
    pause, resume) preserves it whether the call returns or throws, and so
    it holds after any sequence of such calls.  [pause] turns the paused
    flag on only for a running backend; [stop] on a running backend and a
    [start] that returns leave the paused flag off. *)
Theorem paused_implies_running_invariant :
  (forall backendType chosen,
      paused_implies_running (RtAudioBackend_new backendType chosen) = true)
  /\ (forall c s,
         paused_implies_running s = true ->
         paused_implies_running
           (state_after (run_call hash default_parameters c s)) = true)
  /\ (forall cs backendType chosen,
         paused_implies_running
           (run_calls hash default_parameters cs
              (RtAudioBackend_new backendType chosen)) = true)
  /\ (forall stopStream s,
         isPaused s = false ->
         isPaused (state_after (pause stopStream s)) = true ->
         isRunning s = true)
  /\ (forall stopStream closeStream s,
         isRunning s = true ->
         isPaused (state_after (stop stopStream closeStream s)) = false)
  /\ (forall callback q openStream startStream now s s',
         start hash default_parameters callback q openStream startStream
           now s = Returns tt s' ->
         isPaused s' = false).
Proof.
  split; [| split; [| split; [| split; [| split]]]].
  - reflexivity.
  - exact run_call_preserves.
  - intros cs backendType chosen. now apply run_calls_preserve.
  - intros stopStream s Hp Hp'.
    pose proof (pause_outcome stopStream s) as O.
    destruct (pause stopStream s) as [[] s'|e s']; simpl in Hp'.
    + destruct O as (_ & [E | (R & _)]); [congruence | exact R].
    + destruct O as (_ & _ & E). congruence.
  - intros stopStream closeStream s R. rewrite stop_outcome, R. reflexivity.
  - intros callback q openStream startStream now s s' E.
    pose proof (start_outcome callback q openStream startStream now s) as O.
    rewrite E in O. tauto.
Qed.

(** C4.  [stop] returns from every state and never throws.  On a backend
    that is not running it changes nothing; on a running backend it leaves
    the backend not running, not paused and without a callback, and when
    the native teardown raised an error the last-error string records it
    while the flags are cleared all the same.  A second [stop] is a no-op. *)
Theorem stop_never_fails : forall stopStream closeStream s,
  exists s',
    stop stopStream closeStream s = Returns tt s'
    /\ (isRunning s = false -> s' = s)
    /\ (isRunning s = true ->
        isRunning s' = false /\ isPaused s' = false
        /\ m_userCallback s' = None
        /\ getLastError s' =
           match teardown_error stopStream closeStream with
           | Some message => "Error stopping stream: " ++ message
           | None => getLastError s
           end)
    /\ (forall stopStream' closeStream',
           stop stopStream' closeStream' s' = Returns tt s').
Proof.
  intros stopStream closeStream s. eexists. split; [apply stop_outcome |].
  destruct (isRunning s) eqn:R.
  - split; [discriminate |]. split.
    + intros _. repeat split.
      destruct (teardown_error stopStream closeStream); reflexivity.
    + intros a b. rewrite stop_outcome. reflexivity.
  - split; [reflexivity |]. split; [discriminate |].
    intros a b. rewrite stop_outcome, R. reflexivity.
Qed.

(** C5.  [changeSampleRate] on a backend that is not running, or whose
    configuration has [allowSampleRateChange] off, returns [false], throws
    nothing and leaves the whole object (so also the running flag and the
    configured sample rate) as it was. *)
Theorem changeSampleRate_refused : forall newRate n s,
  isRunning s = false \/ allowSampleRateChange (getCurrentConfig s) = false ->
  changeSampleRate newRate n s = Returns false s.
Proof.
  intros newRate n s H. unfold changeSampleRate. run.
  destruct s as [bt cfg cb r p x t l c e]; simpl in *.
  destruct H as [-> | ->]; [reflexivity |].
  now rewrite Bool.orb_true_r.
Qed.

(** C3.  [start] on a backend that was constructed and never initialised
    throws [AudioBackendStartFailed] and leaves the backend not running,
    whatever callback it is given.  [start] has no check of its own for
    this: the default configuration names no device and has two output
    channels, so [openStream] is handed a non-null output parameter set
    that is still default-constructed, and the library refuses it.  The two
    facts about the library are the hypotheses: default-constructed
    parameters have no channels, and [openStream] raises when a non-null
    parameter set has less than one channel. *)
Theorem start_without_initialize_fails :
  forall backendType chosen callback q openStream startStream now,
    RtAudio.nChannels default_parameters = 0 ->
    rejects_empty_parameters openStream ->
    exists what s',
      start hash default_parameters callback q openStream startStream now
        (RtAudioBackend_new backendType chosen)
      = Throws (AudioException AudioBackendStartFailed what) s'
      /\ isRunning s' = false.
Proof.
  intros backendType chosen callback q openStream startStream now H0 Hlib.
  destruct callback as [f|].
  - unfold start, stream_parameters, named_parameters, or_default_device,
      RtAudioBackend_new.
    run. simpl. rewrite H0. simpl.
    destruct (Hlib (open_request default_StreamConfig default_parameters
                      default_parameters)) as [message E].
    { simpl. rewrite H0. reflexivity. }
    rewrite E. simpl. eauto.
  - unfold start, RtAudioBackend_new. run. simpl. eauto.
Qed.

(** ** The callback bridge *)

(** Case analysis over one run of the bridge: the object, the two status
    flags, the lateness test, the installed callback and what it did, and
    the output pointer. *)
Ltac bridge s :=
  unfold handleAudioCallback, updateStreamTime; run;
  destruct s as [bt cfg cb r p x t l c e]; simpl;
  repeat match goal with
    | |- context [flag_set ?a ?b] => destruct (flag_set a b); simpl
    | |- context [PrimFloat.ltb ?a ?b] => destruct (PrimFloat.ltb a b); simpl
    end.

(** The members the bridge never writes. *)
Lemma handleAudioCallback_frame outputBuffer inputBuffer nFrames streamTime
    status now s :
  let s' :=
    state_after
      (handleAudioCallback outputBuffer inputBuffer nFrames streamTime
         status now s) in
  isRunning s' = isRunning s /\ isPaused s' = isPaused s
  /\ m_userCallback s' = m_userCallback s /\ m_config s' = m_config s
  /\ m_lastCallbackTime s' = now.
Proof.
  bridge s;
    (destruct cb as [f|];
     [ match goal with
       | |- context [f ?a ?b ?c ?d] => destruct (f a b c d)
       end
     | destruct outputBuffer; [destruct (0 <? outputChannels cfg) |] ]);
    simpl; auto.
Qed.

(** C6.  After every run of the bridge, with [elapsed] the clock time since
    [m_lastCallbackTime] (the timestamp the previous run left, or the
    baseline of start/resume) and [expected] the quotient of the frame count
    by the sample rate, the CPU usage reads 100 when [elapsed] exceeds
    [expected] and [elapsed / expected * 100] otherwise; the run leaves its
    own clock reading as the new timestamp. *)
Theorem cpu_usage_after_callback :
  forall outputBuffer inputBuffer nFrames streamTime status now s,
    let elapsed := seconds (now - m_lastCallbackTime s) in
    let expected :=
      (Cxx.double_of_int nFrames
       / Cxx.double_of_int (sampleRate (m_config s)))%float in
    let s' :=
      state_after
        (handleAudioCallback outputBuffer inputBuffer nFrames streamTime
           status now s) in
    getCpuUsage s' =
      (if (expected <? elapsed)%float then 100%float
       else (elapsed / expected * 100)%float)
    /\ m_lastCallbackTime s' = now.
Proof.
  intros outputBuffer inputBuffer nFrames streamTime status now s.
  bridge s;
    (destruct cb as [f|];
     [ match goal with
       | |- context [f ?a ?b ?c ?d] => destruct (f a b c d)
       end
     | destruct outputBuffer; [destruct (0 <? outputChannels cfg) |] ]);
    simpl; auto.
Qed.

(** C2, as the code has it.  One run of the bridge counts one xrun for each
    of the two conditions its status word carries: the counter is unchanged
    when neither the overflow nor the underflow flag is set, goes up by 1
    when exactly one is set and by 2 when both are set, in the wrap-around
    arithmetic of a 32-bit atomic [int]; as long as the counter stays within
    the range of [int] the new value is the old one plus the number of
    flags set. *)
Theorem xrun_count_per_flag :
  forall outputBuffer inputBuffer nFrames streamTime status now s,
    let s' :=
      state_after
        (handleAudioCallback outputBuffer inputBuffer nFrames streamTime
           status now s) in
    getXrunCount s' =
      (if xrun_flags status =? 0 then getXrunCount s
       else Cxx.to_int (getXrunCount s + xrun_flags status))
    /\ (Cxx.INT_MIN <= getXrunCount s ->
        getXrunCount s + xrun_flags status <= Cxx.INT_MAX ->
        getXrunCount s' = getXrunCount s + xrun_flags status).
Proof.
  intros outputBuffer inputBuffer nFrames streamTime status now s.
  assert (getXrunCount
            (state_after
               (handleAudioCallback outputBuffer inputBuffer nFrames
                  streamTime status now s)) =
          (if xrun_flags status =? 0 then getXrunCount s
           else Cxx.to_int (getXrunCount s + xrun_flags status))) as E.
  { unfold xrun_flags.
    bridge s;
      (destruct cb as [f|];
       [ match goal with
         | |- context [f ?a ?b ?c ?d] => destruct (f a b c d)
         end
       | destruct outputBuffer; [destruct (0 <? outputChannels cfg) |] ]);
      simpl; rewrite ?to_int_add_absorb; try reflexivity;
      f_equal; lia. }
  cbv zeta. split; [exact E |].
  intros Hlo Hhi. rewrite E.
  assert (0 <= xrun_flags status) as Hf
      by (unfold xrun_flags; do 2 destruct (flag_set _ _); simpl; lia).
  destruct (Z.eqb_spec (xrun_flags status) 0) as [-> | _]; [lia |].
  apply to_int_id. lia.
Qed.

(** C1.  What one run of the bridge does when the installed callback
    throws: the exception is caught, the last-error string is set to a
    non-empty message, and 1 is returned to the library.  The bridge does
    not touch the running flag or the stored callback: [isRunning] and
    [m_userCallback] read after the run what they read before it. *)
Theorem throwing_callback_is_caught :
  forall outputBuffer inputBuffer nFrames streamTime status now s callback,
    m_userCallback s = Some callback ->
    (forall time,
        match callback inputBuffer outputBuffer nFrames time with
        | cb_returns _ => False
        | _ => True
        end) ->
    exists s' output,
      handleAudioCallback outputBuffer inputBuffer nFrames streamTime
        status now s = Returns (1, output) s'
      /\ getLastError s' <> ""
      /\ isRunning s' = isRunning s
      /\ m_userCallback s' = Some callback.
Proof.
  intros outputBuffer inputBuffer nFrames streamTime status now s callback
    Hcb Hthrows.
  bridge s; simpl in Hcb; subst cb;
    match goal with
    | |- context [callback ?a ?b ?c ?d] =>
        pose proof (Hthrows d) as T; destruct (callback a b c d)
    end;
    try contradiction; simpl;
    do 2 eexists; (split; [reflexivity |]); repeat split; discriminate.
Qed.

Lemma memset_zero buf n j : 0 <= j < n -> memset buf x00 n j = x00.
Proof.
  intros Hj. unfold memset.
  destruct (Z.leb_spec 0 j), (Z.ltb_spec j n); simpl; try reflexivity; lia.
Qed.

Lemma memset_sample buf n width i :
  0 < width -> 0 <= i -> width * (i + 1) <= n ->
  sample width (memset buf x00 n) i = silence width.
Proof.
  intros Hw Hi Hn. unfold sample, silence.
  rewrite (map_ext_in _ (fun _ => x00)).
  - rewrite map_const, length_seq. reflexivity.
  - intros k Hk. apply in_seq in Hk. apply memset_zero. nia.
Qed.

Lemma sampleBytes_range format : 0 < sampleBytes format <= Cxx.sizeof_float.
Proof.
  unfold sampleBytes, Cxx.sizeof_float.
  destruct (format =? Int16); [lia |].
  destruct (format =? Int24); lia.
Qed.

Lemma no_callback_output outputBuffer inputBuffer nFrames streamTime status
    now s :
  m_userCallback s = None ->
  exists s',
    handleAudioCallback outputBuffer inputBuffer nFrames streamTime status
      now s =
    Returns
      (0,
       match outputBuffer with
       | Some buf =>
           if 0 <? outputChannels (m_config s)
           then Some (memset buf x00
                        (Cxx.to_size_t
                           (Cxx.to_unsigned
                              (nFrames * outputChannels (m_config s))
                            * Cxx.sizeof_float)))
           else outputBuffer
       | None => outputBuffer
       end) s'.
Proof.
  intros Hcb.
  bridge s; simpl in Hcb; subst cb;
    (destruct outputBuffer; [destruct (0 <? outputChannels cfg) |]);
    eexists; reflexivity.
Qed.

(** C8, as the code has it.  In a run of the bridge with no callback
    installed, a non-null output pointer, a positive output channel count
    and a product frames * outputChannels that fits [unsigned int], the
    bridge returns 0 and the output memory holds silence in its first
    frames * outputChannels samples, in the sample format of the
    configuration.  With a null output pointer the bridge returns 0 and
    writes nothing. *)
Theorem no_callback_zero_fills :
  (forall buf inputBuffer nFrames streamTime status now s,
      m_userCallback s = None ->
      0 < outputChannels (m_config s) ->
      0 <= nFrames ->
      nFrames * outputChannels (m_config s) < Cxx.UINT_MODULUS ->
      exists s' out,
        handleAudioCallback (Some buf) inputBuffer nFrames streamTime
          status now s = Returns (0, Some out) s'
        /\ (forall i,
               0 <= i < nFrames * outputChannels (m_config s) ->
               sample (sampleBytes (format (m_config s))) out i
               = silence (sampleBytes (format (m_config s)))))
  /\ (forall inputBuffer nFrames streamTime status now s,
         m_userCallback s = None ->
         exists s',
           handleAudioCallback None inputBuffer nFrames streamTime
             status now s = Returns (0, None) s').
Proof.
  split.
  - intros buf inputBuffer nFrames streamTime status now s Hcb Hch Hn Hfit.
    destruct (no_callback_output (Some buf) inputBuffer nFrames streamTime
                status now s Hcb) as [s' E].
    assert (Cxx.to_size_t
              (Cxx.to_unsigned (nFrames * outputChannels (m_config s))
               * Cxx.sizeof_float)
            = Cxx.sizeof_float * (nFrames * outputChannels (m_config s)))
      as Hsize.
    { rewrite to_unsigned_id by nia.
      unfold Cxx.to_size_t, Cxx.sizeof_float, Cxx.SIZE_MODULUS,
        Cxx.UINT_MODULUS in *.
      rewrite Z.mod_small; nia. }
    apply Z.ltb_lt in Hch. rewrite Hch, Hsize in E.
    exists s'. eexists. split; [exact E |].
    intros i Hi.
    pose proof (sampleBytes_range (format (m_config s))) as Hw.
    apply memset_sample; nia.
  - intros inputBuffer nFrames streamTime status now s Hcb.
    exact (no_callback_output None inputBuffer nFrames streamTime status
             now s Hcb).
Qed.

(** ** Latency *)


(** The number of binary digits of a mantissa. *)
Lemma digits2_pos_spec p :
  2 ^ (Z.pos (digits2_pos p) - 1) <= Z.pos p < 2 ^ Z.pos (digits2_pos p).
Proof.
  induction p as [p IH | p IH |]; simpl digits2_pos.
  - rewrite Pos2Z.inj_succ.
    replace (Z.succ (Z.pos (digits2_pos p)) - 1)
      with (Z.succ (Z.pos (digits2_pos p) - 1)) by lia.
    rewrite !Z.pow_succ_r by lia. lia.
  - rewrite Pos2Z.inj_succ.
    replace (Z.succ (Z.pos (digits2_pos p)) - 1)
      with (Z.succ (Z.pos (digits2_pos p) - 1)) by lia.
    rewrite !Z.pow_succ_r by lia. lia.
  - simpl. lia.
Qed.

Lemma digits2_pos_unique p d :
  2 ^ (d - 1) <= Z.pos p < 2 ^ d -> Z.pos (digits2_pos p) = d.
Proof.
  intros [Hl Hu]. pose proof (digits2_pos_spec p) as [Sl Su].
  set (d' := Z.pos (digits2_pos p)) in *.
  assert (0 < d') by (unfold d'; lia).
  assert (0 < d).
  { destruct (Z_lt_le_dec 0 d); [assumption |].
    destruct (Z.eq_dec d 0) as [-> | Hd]; [simpl in Hu; lia |].
    rewrite (Z.pow_neg_r 2 d) in Hu by lia. lia. }
  destruct (Z.lt_trichotomy d d') as [L | [E | G]]; [| exact (eq_sym E) |].
  - assert (2 ^ d <= 2 ^ (d' - 1)) by (apply Z.pow_le_mono_r; lia). lia.
  - assert (2 ^ d' <= 2 ^ (d - 1)) by (apply Z.pow_le_mono_r; lia). lia.
Qed.

(** Shifting a mantissa right by one bit keeps track of where the exact
    value lies, with the unit doubled. *)
Lemma shr_1_located N D mrs :
  0 <= shr_m mrs -> located N D mrs ->
  located N (2 * D) (shr_1 mrs)
  /\ shr_m (shr_1 mrs) = shr_m mrs / 2.
Proof.
  destruct mrs as [m r s]. unfold located. cbn [shr_m shr_r shr_s].
  intros Hm (Hrest & Hr & Hs).
  assert (Hcase : forall h b : Z, (b = 0 \/ b = 1) -> m = 2 * h + b ->
            located N (2 * D)
              {| shr_m := h; shr_r := (b =? 1); shr_s := r || s |}
            /\ h = m / 2).
  { intros h b Hb Hm2. unfold located. cbn [shr_m shr_r shr_s]. subst r s.
    split; [| apply Z.div_unique with (r := b); lia].
    destruct Hb as [-> | ->]; subst m;
      [change (0 =? 1) with false | change (1 =? 1) with true];
      repeat match goal with
        | |- context [?a <=? ?b] => destruct (Z.leb_spec a b)
        | |- context [?a =? ?b] => destruct (Z.eqb_spec a b)
        end; cbn [andb orb negb]; repeat split; try reflexivity; lia. }
  destruct m as [|[p|p|]|p]; cbn [shr_1]; try lia.
  - apply (Hcase 0 0); lia.
  - apply (Hcase (Z.pos p) 1); lia.
  - apply (Hcase (Z.pos p) 0); lia.
  - apply (Hcase 0 1); lia.
Qed.

Lemma pow2_xI p : 2 ^ Z.pos p~1 = 2 * (2 ^ Z.pos p * 2 ^ Z.pos p).
Proof.
  replace (Z.pos p~1) with (1 + Z.pos p + Z.pos p) by lia.
  rewrite Z.pow_add_r by lia. rewrite Z.pow_add_r by lia.
  rewrite Z.pow_1_r. ring.
Qed.

Lemma pow2_xO p : 2 ^ Z.pos p~0 = 2 ^ Z.pos p * 2 ^ Z.pos p.
Proof.
  replace (Z.pos p~0) with (Z.pos p + Z.pos p) by lia.
  rewrite Z.pow_add_r by lia. ring.
Qed.

Lemma iter_pos_shr_1_located p : forall N D mrs,
  0 <= shr_m mrs -> located N D mrs ->
  located N (D * 2 ^ Z.pos p) (SpecFloat.iter_pos shr_1 p mrs)
  /\ shr_m (SpecFloat.iter_pos shr_1 p mrs) = shr_m mrs / 2 ^ Z.pos p.
Proof.
  induction p as [p IH | p IH |]; intros N D mrs Hm L;
    simpl SpecFloat.iter_pos.
  - destruct (shr_1_located N D mrs Hm L) as [L1 M1].
    assert (0 <= shr_m (shr_1 mrs)) as P1
        by (rewrite M1; apply Z.div_pos; lia).
    destruct (IH N (2 * D) _ P1 L1) as [L2 M2].
    assert (0 <= shr_m (SpecFloat.iter_pos shr_1 p (shr_1 mrs))) as P2
        by (rewrite M2; apply Z.div_pos; lia).
    destruct (IH N _ _ P2 L2) as [L3 M3].
    rewrite pow2_xI.
    replace (D * (2 * (2 ^ Z.pos p * 2 ^ Z.pos p)))
      with (2 * D * 2 ^ Z.pos p * 2 ^ Z.pos p) by ring.
    split; [exact L3 |].
    rewrite M3, M2, M1, !Z.div_div by lia.
    f_equal; ring.
  - destruct (IH N D mrs Hm L) as [L2 M2].
    assert (0 <= shr_m (SpecFloat.iter_pos shr_1 p mrs)) as P2
        by (rewrite M2; apply Z.div_pos; lia).
    destruct (IH N _ _ P2 L2) as [L3 M3].
    rewrite pow2_xO.
    replace (D * (2 ^ Z.pos p * 2 ^ Z.pos p))
      with (D * 2 ^ Z.pos p * 2 ^ Z.pos p) by ring.
    split; [exact L3 |].
    rewrite M3, M2, !Z.div_div by lia.
    f_equal; ring.
  - destruct (shr_1_located N D mrs Hm L) as [L1 M1].
    replace (D * 2 ^ 1) with (2 * D) by lia. split; [exact L1 |].
    rewrite M1. reflexivity.
Qed.

Lemma fexp_normal x : -1074 <= x - 53 -> fexp prec emax x = x - 53.
Proof.
  intros Hx. unfold fexp, SpecFloat.emin, prec, emax.
  apply Z.max_l. lia.
Qed.

Lemma shr_m_of_loc m l : shr_m (shr_record_of_loc m l) = m.
Proof. destruct l as [|[]]; reflexivity. Qed.

Lemma located_exact m : located m 1 (shr_record_of_loc m loc_Exact).
Proof.
  unfold located. cbn [shr_record_of_loc shr_m shr_r shr_s].
  replace (m - m * 1) with 0 by ring. repeat split; lia.
Qed.

Lemma Zdigits2_spec m :
  0 < m -> 2 ^ (Zdigits2 m - 1) <= m < 2 ^ Zdigits2 m.
Proof.
  destruct m as [|p|p]; try lia. intros _. apply digits2_pos_spec.
Qed.

Lemma Zdigits2_unique m d :
  2 ^ (d - 1) <= m < 2 ^ d -> 0 < m -> Zdigits2 m = d.
Proof.
  destruct m as [|p|p]; try lia. intros H _. now apply digits2_pos_unique.
Qed.

Lemma shr_fexp_located m e l N D :
  0 < m -> 53 <= Zdigits2 m -> -1074 <= Zdigits2 m + e - 53 ->
  located N D (shr_record_of_loc m l) ->
  exists mrs,
    shr_fexp prec emax m e l = (mrs, e + (Zdigits2 m - 53))
    /\ located N (D * 2 ^ (Zdigits2 m - 53)) mrs
    /\ shr_m mrs = m / 2 ^ (Zdigits2 m - 53).
Proof.
  intros Hm Hd He L. unfold shr_fexp. rewrite fexp_normal by lia.
  replace (Zdigits2 m + e - 53 - e) with (Zdigits2 m - 53) by ring.
  destruct (Zdigits2 m - 53) as [|p|p] eqn:K; try lia.
  - exists (shr_record_of_loc m l). cbn [shr].
    rewrite Z.add_0_r, Z.mul_1_r, Z.div_1_r, shr_m_of_loc. auto.
  - cbn [shr].
    destruct (iter_pos_shr_1_located p N D (shr_record_of_loc m l))
      as [L' M'].
    + rewrite shr_m_of_loc. lia.
    + exact L.
    + eexists. split; [reflexivity |]. split; [exact L' |].
      rewrite M', shr_m_of_loc. reflexivity.
Qed.

(** Rounding a located value to nearest even is [round_quotient]. *)
Lemma round_nearest_even_located N D mrs :
  located N D mrs ->
  round_nearest_even (shr_m mrs) (loc_of_shr_record mrs)
  = round_quotient N D.
Proof.
  destruct mrs as [m r s]. unfold located.
  cbn [shr_m shr_r shr_s]. intros (Hrest & Hr & Hs).
  assert (N / D = m) as Hq
      by (symmetry; apply Z.div_unique with (r := N - m * D); lia).
  unfold round_quotient. rewrite Hq. cbv zeta. subst r s.
  repeat match goal with
    | |- context [?a <=? ?b] => destruct (Z.leb_spec a b)
    | |- context [?a <? ?b] => destruct (Z.ltb_spec a b)
    | |- context [?a =? ?b] => destruct (Z.eqb_spec a b)
    end; cbn [andb orb negb loc_of_shr_record round_nearest_even];
    try reflexivity; lia.
Qed.

Lemma round_quotient_range N D :
  0 < D -> N / D <= round_quotient N D <= N / D + 1.
Proof.
  intros HD. unfold round_quotient. cbv zeta.
  destruct (_ <? _); [lia |].
  destruct (_ =? _); [destruct (Z.even _) |]; lia.
Qed.

(** The rounding step of every binary64 operation, in the normal range: a
    mantissa of at least 53 bits at which [N / D] is located is shifted
    down to 53 bits and rounded to nearest even; a rounded mantissa of
    2^53 is renormalised. *)
Lemma binary_round_aux_located sx mx ex lx N D :
  0 < mx -> 53 <= Zdigits2 mx ->
  -1074 <= Zdigits2 mx + ex - 53 < 971 ->
  located N D (shr_record_of_loc mx lx) ->
  2 ^ 52 <= round_quotient N (D * 2 ^ (Zdigits2 mx - 53)) <= 2 ^ 53
  /\ binary_round_aux prec emax sx mx ex lx
     = if round_quotient N (D * 2 ^ (Zdigits2 mx - 53)) =? 2 ^ 53
       then S754_finite sx (2 ^ 52)%positive (ex + (Zdigits2 mx - 53) + 1)
       else S754_finite sx
              (Z.to_pos (round_quotient N (D * 2 ^ (Zdigits2 mx - 53))))
              (ex + (Zdigits2 mx - 53)).
Proof.
  intros Hm Hd He L.
  destruct (shr_fexp_located mx ex lx N D Hm Hd ltac:(lia) L)
    as (mrs & E & L1 & M1).
  set (k := Zdigits2 mx - 53) in *.
  assert (0 <= k) as Hk by (unfold k; lia).
  pose proof (round_nearest_even_located _ _ _ L1) as R.
  set (m := round_quotient N (D * 2 ^ k)) in *.
  assert (0 < D * 2 ^ k) as HD by (destruct L1 as [? _]; lia).
  assert (N / (D * 2 ^ k) = shr_m mrs) as Hq.
  { destruct L1 as [Hrest _]. symmetry.
    apply Z.div_unique with (r := N - shr_m mrs * (D * 2 ^ k)); lia. }
  pose proof (round_quotient_range N (D * 2 ^ k) HD) as Rg.
  fold m in Rg. rewrite Hq, M1 in Rg.
  pose proof (Zdigits2_spec mx Hm) as [Dl Du].
  replace (Zdigits2 mx - 1) with (52 + k) in Dl by (unfold k; lia).
  replace (Zdigits2 mx) with (53 + k) in Du by (unfold k; lia).
  rewrite Z.pow_add_r in Dl, Du by lia.
  assert (0 < 2 ^ k) as Hp by (apply Z.pow_pos_nonneg; lia).
  assert (2 ^ 52 <= mx / 2 ^ k) by (apply Z.div_le_lower_bound; lia).
  assert (mx / 2 ^ k < 2 ^ 53) by (apply Z.div_lt_upper_bound; lia).
  split; [lia |].
  unfold binary_round_aux. rewrite E, R.
  destruct (Z.eqb_spec m (2 ^ 53)) as [E53 | N53].
  - rewrite E53. unfold shr_fexp.
    change (Zdigits2 (2 ^ 53)) with 54.
    rewrite fexp_normal by lia.
    replace (54 + (ex + k) - 53 - (ex + k)) with 1 by ring.
    cbn [shr shr_record_of_loc SpecFloat.iter_pos].
    change (shr_m (shr_1 {| shr_m := 2 ^ 53; shr_r := false; shr_s := false |}))
      with (Z.pos (2 ^ 52)).
    cbv iota beta.
    replace (ex + k + 1 <=? emax - prec) with true
      by (symmetry; apply Z.leb_le; unfold emax, prec; lia).
    reflexivity.
  - assert (Zdigits2 m = 53) as D53
        by (apply Zdigits2_unique; [change (53 - 1) with 52 |]; lia).
    unfold shr_fexp. rewrite D53, fexp_normal by lia.
    replace (53 + (ex + k) - 53 - (ex + k)) with 0 by ring.
    cbn [shr shr_record_of_loc shr_m].
    destruct m as [|q|q]; try lia.
    replace (ex + k <=? emax - prec) with true
      by (symmetry; apply Z.leb_le; unfold emax, prec; lia).
    reflexivity.
Qed.

Lemma round_quotient_exact N D q :
  0 < D -> N = q * D -> round_quotient N D = q.
Proof.
  intros HD ->. unfold round_quotient. rewrite Z.div_mul by lia. cbv zeta.
  replace (q * D - q * D) with 0 by ring.
  destruct (Z.ltb_spec (2 * 0) D); lia.
Qed.

Lemma iter_xO p n : Z.pos (Pos.iter xO p n) = Z.pos p * 2 ^ Z.pos n.
Proof.
  induction n as [|n IH] using Pos.peano_ind.
  - simpl Pos.iter. change (2 ^ 1) with 2. lia.
  - rewrite Pos.iter_succ, Pos2Z.inj_succ, Z.pow_succ_r by lia.
    replace (Z.pos (Pos.iter xO p n)~0) with (2 * Z.pos (Pos.iter xO p n))
      by lia.
    rewrite IH. ring.
Qed.

Lemma represents_exponent T m e :
  0 < T -> 2 ^ 52 <= Z.pos m < 2 ^ 53 -> e <= 0 ->
  Z.pos m = T * 2 ^ (- e) -> -52 <= e.
Proof.
  intros HT Hm He Hv.
  destruct (Z_lt_le_dec e (-52)) as [L | G]; [| exact G].
  assert (2 ^ 53 <= 2 ^ (- e)) by (apply Z.pow_le_mono_r; lia).
  nia.
Qed.

(** Integers below 2^53 convert exactly. *)
Lemma binary_normalize_int z :
  0 < z < 2 ^ 53 -> represents z (binary_normalize prec emax z 0 false).
Proof.
  intros Hz. destruct z as [|p|p]; try lia.
  cbn [binary_normalize]. unfold binary_round.
  pose proof (digits2_pos_spec p) as [Dl Du].
  set (d := Z.pos (digits2_pos p)) in *.
  assert (0 < d) as Hd0 by (unfold d; lia).
  assert (d <= 53) as Hd.
  { destruct (Z_lt_le_dec 53 d) as [L | G]; [| exact G].
    assert (2 ^ 53 <= 2 ^ (d - 1)) by (apply Z.pow_le_mono_r; lia). lia. }
  rewrite Z.add_0_r, fexp_normal by lia.
  unfold shl_align. rewrite Z.sub_0_r.
  destruct (d - 53) as [|n|n] eqn:K; try lia.
  - assert (d = 53) as E53 by lia. rewrite E53 in Dl, Du.
    change (53 - 1) with 52 in Dl.
    destruct (binary_round_aux_located false (Z.pos p) 0 loc_Exact
                (Z.pos p) 1) as [_ R].
    + lia.
    + cbn [Zdigits2]. fold d. lia.
    + cbn [Zdigits2]. fold d. lia.
    + apply located_exact.
    + rewrite R. cbn [Zdigits2]. fold d. rewrite E53.
      change (53 - 53) with 0.
      rewrite (round_quotient_exact (Z.pos p) (1 * 2 ^ 0) (Z.pos p))
        by (change (2 ^ 0) with 1; lia).
      replace (Z.pos p =? 2 ^ 53) with false
        by (symmetry; apply Z.eqb_neq; lia).
      exists p, 0. cbn [Z.to_pos]. rewrite Z.add_0_r.
      change (2 ^ (- 0)) with 1. repeat split; try lia.
  - assert (Z.pos n = 53 - d) as Hn by lia.
    assert (Z.pos (Pos.iter xO p n) = Z.pos p * 2 ^ (53 - d)) as Hmz
        by (rewrite iter_xO, Hn; reflexivity).
    assert (2 ^ 52 <= Z.pos (Pos.iter xO p n) < 2 ^ 53) as Hr.
    { rewrite Hmz.
      replace 52 with ((d - 1) + (53 - d)) at 1 by lia.
      replace 53 with (d + (53 - d)) at 4 by lia.
      rewrite !Z.pow_add_r by lia.
      assert (0 < 2 ^ (53 - d)) by (apply Z.pow_pos_nonneg; lia). nia. }
    assert (Zdigits2 (Z.pos (Pos.iter xO p n)) = 53) as D53
        by (apply Zdigits2_unique; [change (53 - 1) with 52 |]; lia).
    destruct (binary_round_aux_located false (Z.pos (Pos.iter xO p n))
                (Z.neg n) loc_Exact (Z.pos (Pos.iter xO p n)) 1)
      as [_ R].
    + lia.
    + lia.
    + rewrite D53. lia.
    + apply located_exact.
    + rewrite R, D53. change (53 - 53) with 0.
      rewrite (round_quotient_exact _ (1 * 2 ^ 0)
                 (Z.pos (Pos.iter xO p n)))
        by (change (2 ^ 0) with 1; lia).
      replace (Z.pos (Pos.iter xO p n) =? 2 ^ 53) with false
        by (symmetry; apply Z.eqb_neq; lia).
      exists (Pos.iter xO p n), (Z.neg n). cbn [Z.to_pos].
      rewrite Z.add_0_r.
      replace (- Z.neg n) with (53 - d) by lia.
      repeat split; try lia. 
Qed.

Lemma double_of_int_represents z :
  0 < z < 2 ^ 53 -> represents z (Prim2SF (PrimFloat.of_uint63 (Uint63.of_Z z))).
Proof.
  intros Hz. rewrite FloatAxioms.of_uint63_spec, Uint63.of_Z_spec.
  rewrite Z.mod_small by (unfold Uint63.wB; simpl; lia).
  now apply binary_normalize_int.
Qed.

Lemma pow2_split a b : 0 <= a -> 0 <= b -> 2 ^ (a + b) = 2 ^ a * 2 ^ b.
Proof. intros. now apply Z.pow_add_r. Qed.

(** A product of integers that stays below 2^53 is exact. *)
Lemma SFmul_int a b x y :
  0 < a -> 0 < b -> a * b < 2 ^ 53 ->
  represents a x -> represents b y ->
  represents (a * b) (SFmul prec emax x y).
Proof.
  intros Ha Hb Hab (mx & ex & -> & Hmx & Hex & Vx) (my & ey & -> & Hmy & Hey & Vy).
  pose proof (represents_exponent a mx ex Ha Hmx Hex Vx) as Lx.
  pose proof (represents_exponent b my ey Hb Hmy Hey Vy) as Ly.
  cbn [SFmul xorb].
  set (P := Z.pos (mx * my)).
  assert (P = Z.pos mx * Z.pos my) as HP by (unfold P; lia).
  assert (2 ^ 104 <= P < 2 ^ 106) as HPr.
  { rewrite HP. change (2 ^ 104) with (2 ^ 52 * 2 ^ 52).
    change (2 ^ 106) with (2 ^ 53 * 2 ^ 53). nia. }
  assert (0 < P) as HP0 by (unfold P; lia).
  pose proof (Zdigits2_spec P HP0) as [Dl Du].
  set (d := Zdigits2 P) in *.
  assert (105 <= d <= 106) as Hd.
  { split.
    - destruct (Z_lt_le_dec d 105) as [L | G]; [| exact G].
      assert (2 ^ d <= 2 ^ 104) by (apply Z.pow_le_mono_r; lia). lia.
    - destruct (Z_lt_le_dec 106 d) as [L | G]; [| lia].
      assert (2 ^ 106 <= 2 ^ (d - 1)) by (apply Z.pow_le_mono_r; lia). lia. }
  set (k := d - 53) in *.
  set (n := - ex - ey).
  assert (P = a * b * 2 ^ n) as HPn.
  { rewrite HP, Vx, Vy. unfold n.
    replace (- ex - ey) with (- ex + - ey) by ring.
    rewrite Z.pow_add_r by lia. ring. }
  assert (k <= n) as Hkn.
  { destruct (Z_lt_le_dec n k) as [L | G]; [| exact G].
    assert (0 <= n) by (unfold n; lia).
    assert (2 ^ n <= 2 ^ (k - 1)) by (apply Z.pow_le_mono_r; lia).
    assert (2 ^ (d - 1) = 2 ^ 53 * 2 ^ (k - 1))
      by (rewrite <- Z.pow_add_r by (unfold k; lia); f_equal; unfold k; lia).
    assert (0 < 2 ^ (k - 1)) by (apply Z.pow_pos_nonneg; unfold k; lia).
    nia. }
  assert (0 <= k) as Hk0 by (unfold k; lia).
  assert (2 ^ n = 2 ^ (n - k) * 2 ^ k) as Hsplit
      by (rewrite <- Z.pow_add_r by lia; f_equal; lia).
  assert (0 < 2 ^ k) as Hpk by (apply Z.pow_pos_nonneg; lia).
  assert (0 < 2 ^ (n - k)) as Hpnk by (apply Z.pow_pos_nonneg; lia).
  destruct (binary_round_aux_located false P (ex + ey) loc_Exact P 1)
    as [Rg R].
  - exact HP0.
  - fold d. lia.
  - fold d. lia.
  - apply located_exact.
  - fold d k in Rg, R.
    rewrite (round_quotient_exact P (1 * 2 ^ k) (a * b * 2 ^ (n - k)))
      in Rg, R by (try lia; rewrite HPn, Hsplit; ring).
    set (m := a * b * 2 ^ (n - k)) in *.
    assert (P = m * 2 ^ k) as HPm by (unfold m; rewrite HPn, Hsplit; ring).
    assert (m < 2 ^ 53) as Hm53.
    { replace d with (53 + k) in Du by (unfold k; lia).
      rewrite Z.pow_add_r in Du by lia. nia. }
    unfold P in R at 1. fold P in R. rewrite R.
    replace (m =? 2 ^ 53) with false by (symmetry; apply Z.eqb_neq; lia).
    exists (Z.to_pos m), (ex + ey + k).
    rewrite Z2Pos.id by lia.
    split; [reflexivity |]. split; [lia |]. split; [unfold n in Hkn; lia |].
    unfold m. f_equal. f_equal. unfold n. lia.
Qed.

Lemma round_quotient_nearest N D :
  0 < D -> 2 * Z.abs (round_quotient N D * D - N) <= D.
Proof.
  intros HD. unfold round_quotient. cbv zeta.
  pose proof (Z.div_mod N D ltac:(lia)) as E.
  pose proof (Z.mod_pos_bound N D HD) as B.
  assert (N - N / D * D = N mod D) as -> by lia.
  destruct (Z.ltb_spec (2 * (N mod D)) D).
  - lia.
  - destruct (Z.eqb_spec (2 * (N mod D)) D).
    + destruct (Z.even (N / D)); lia.
    + lia.
Qed.

Lemma new_location_located D q r :
  0 < D -> 0 <= r < D ->
  located (q * D + r) D (shr_record_of_loc q (new_location D r)).
Proof.
  intros HD Hr. unfold located. rewrite shr_m_of_loc.
  replace (q * D + r - q * D) with r by ring.
  unfold new_location, new_location_even, new_location_odd.
  destruct (Z.even D) eqn:Ev.
  - destruct (Z.eqb_spec r 0) as [-> | Nz].
    + cbn [shr_record_of_loc shr_r shr_s].
      destruct (Z.leb_spec D (2 * 0)), (Z.eqb_spec (2 * 0) D);
        cbn [andb negb]; repeat split; try reflexivity; lia.
    + destruct (Z.compare_spec (2 * r) D);
        cbn [shr_record_of_loc shr_r shr_s];
        destruct (Z.leb_spec D (2 * r)), (Z.eqb_spec (2 * r) D);
        cbn [andb negb]; repeat split; try reflexivity; lia.
  - assert (2 * r <> D) as Odd.
    { intros <-. rewrite Z.even_mul in Ev. discriminate. }
    destruct (Z.eqb_spec r 0) as [-> | Nz].
    + cbn [shr_record_of_loc shr_r shr_s].
      destruct (Z.leb_spec D (2 * 0)), (Z.eqb_spec (2 * 0) D);
        cbn [andb negb]; repeat split; try reflexivity; lia.
    + destruct (Z.compare_spec (2 * r + 1) D);
        cbn [shr_record_of_loc shr_r shr_s];
        destruct (Z.leb_spec D (2 * r)), (Z.eqb_spec (2 * r) D);
        cbn [andb negb]; repeat split; try reflexivity; lia.
Qed.

(** The quotient of two integers is rounded to nearest: the mantissa of the
    result is within one half of the exact quotient scaled to its
    exponent. *)
Lemma SFdiv_nearest a b x y :
  0 < a < 2 ^ 52 -> 0 < b ->
  represents a x -> represents b y ->
  exists m e,
    SFdiv prec emax x y = S754_finite false m e
    /\ 2 ^ 52 <= Z.pos m < 2 ^ 53 /\ e <= 0
    /\ 2 * Z.abs (Z.pos m * b - a * 2 ^ (- e)) <= b.
Proof.
  intros Ha Hb (mx & ex & -> & Hmx & Hex & Vx) (my & ey & -> & Hmy & Hey & Vy).
  pose proof (represents_exponent a mx ex ltac:(lia) Hmx Hex Vx) as Lx.
  pose proof (represents_exponent b my ey Hb Hmy Hey Vy) as Ly.
  cbn [SFdiv xorb]. unfold SFdiv_core_binary.
  rewrite (Zdigits2_unique (Z.pos mx) 53)
    by (try change (53 - 1) with 52; lia).
  rewrite (Zdigits2_unique (Z.pos my) 53)
    by (try change (53 - 1) with 52; lia).
  rewrite fexp_normal by lia.
  replace (53 + ex - (53 + ey) - 53) with (ex - ey - 53) by ring.
  rewrite Z.min_l by lia.
  replace (ex - ey - (ex - ey - 53)) with 53 by ring.
  cbv iota beta. rewrite Z.shiftl_mul_pow2 by lia.
  set (N := Z.pos mx * 2 ^ 53).
  pose proof (Z_div_mod N (Z.pos my) ltac:(lia)) as DM.
  destruct (Z.div_eucl N (Z.pos my)) as [q r]. destruct DM as [EN Hr].
  assert (2 ^ 52 <= q < 2 ^ 54) as Hq.
  { assert (q = N / Z.pos my) as ->
        by (apply Z.div_unique with (r := r); lia).
    split.
    - apply Z.div_le_lower_bound; [lia |]. unfold N. clear - Hmx Hmy. lia.
    - apply Z.div_lt_upper_bound; [lia |]. unfold N. clear - Hmx Hmy. lia. }
  assert (0 < q) as Hq0 by lia.
  pose proof (Zdigits2_spec q Hq0) as [Dl Du].
  set (d := Zdigits2 q) in *.
  assert (53 <= d <= 54) as Hd.
  { split.
    - destruct (Z_lt_le_dec d 53) as [L | G]; [| exact G].
      assert (2 ^ d <= 2 ^ 52) by (apply Z.pow_le_mono_r; lia). lia.
    - destruct (Z_lt_le_dec 54 d) as [L | G]; [| lia].
      assert (2 ^ 54 <= 2 ^ (d - 1)) by (apply Z.pow_le_mono_r; lia). lia. }
  destruct (binary_round_aux_located false q (ex - ey - 53)
              (new_location (Z.pos my) r) N (Z.pos my)) as [Rg R].
  - exact Hq0.
  - fold d. lia.
  - fold d. lia.
  - replace N with (q * Z.pos my + r) by lia.
    apply new_location_located; lia.
  - fold d in Rg, R. rewrite R. clear R.
    set (k := d - 53) in *.
    assert (0 <= k <= 1) as Hk by (unfold k; lia).
    assert (0 < 2 ^ k) as Hpk by (apply Z.pow_pos_nonneg; lia).
    pose proof (round_quotient_nearest N (Z.pos my * 2 ^ k) ltac:(lia))
      as Near.
    set (mr := round_quotient N (Z.pos my * 2 ^ k)) in *.
    set (W := Z.pos my * 2 ^ k) in *.
    assert (0 < W) as HW by (unfold W; apply Z.mul_pos_pos; lia).
    (* the mantissa [m] and the shift [j] of the result *)
    assert (exists m j,
               (if mr =? 2 ^ 53
                then S754_finite false (2 ^ 52) (ex - ey - 53 + k + 1)
                else S754_finite false (Z.to_pos mr) (ex - ey - 53 + k))
               = S754_finite false m (ex - ey - 53 + j)
               /\ 2 ^ 52 <= Z.pos m < 2 ^ 53 /\ 0 <= j <= 2
               /\ 2 * Z.abs (Z.pos m * 2 ^ j * Z.pos my - N)
                  <= Z.pos my * 2 ^ j) as (m & j & -> & Hm & Hj & Hnear).
    { destruct (Z.eqb_spec mr (2 ^ 53)) as [E53 | N53].
      - exists (2 ^ 52)%positive, (k + 1).
        split; [f_equal; lia |]. split; [lia |]. split; [lia |].
        rewrite Z.pow_add_r by lia. change (2 ^ 1) with 2.
        rewrite E53 in Near.
        replace (Z.pos (2 ^ 52) * (2 ^ k * 2) * Z.pos my - N)
          with (2 ^ 53 * W - N)
          by (unfold W; change (Z.pos (2 ^ 52)) with (2 ^ 52);
              change (2 ^ 53) with (2 ^ 52 * 2); ring).
        replace (Z.pos my * (2 ^ k * 2)) with (2 * W) by (unfold W; ring).
        clear - Near HW. lia.
      - exists (Z.to_pos mr), k.
        rewrite Z2Pos.id by lia.
        split; [reflexivity |]. split; [lia |]. split; [lia |].
        replace (mr * 2 ^ k * Z.pos my - N) with (mr * W - N)
          by (unfold W; ring).
        exact Near. }
    exists m, (ex - ey - 53 + j). split; [reflexivity |]. split; [exact Hm |].
    (* in units of the operands *)
    set (nx := - ex) in *. set (ny := - ey) in *.
    assert (0 <= nx <= 52) as Hnx by (unfold nx; lia).
    assert (0 <= ny <= 52) as Hny by (unfold ny; lia).
    set (t := j + ny). set (u := nx + 53).
    assert (Z.pos m * 2 ^ j * Z.pos my = Z.pos m * b * 2 ^ t) as E1.
    { rewrite Vy. unfold t. rewrite Z.pow_add_r by lia. ring. }
    assert (N = a * 2 ^ u) as E2.
    { unfold N. rewrite Vx. unfold u. rewrite Z.pow_add_r by lia. ring. }
    assert (Z.pos my * 2 ^ j = b * 2 ^ t) as E3.
    { rewrite Vy. unfold t. rewrite Z.pow_add_r by lia. ring. }
    rewrite E1, E2, E3 in Hnear.
    assert (0 < 2 ^ t) as Ht by (apply Z.pow_pos_nonneg; unfold t; lia).
    assert (0 < 2 ^ u) as Hu by (apply Z.pow_pos_nonneg; unfold u; lia).
    assert (t <= u) as Htu.
    { destruct (Z_lt_le_dec u t) as [L | G]; [| exact G]. exfalso.
      assert (2 * 2 ^ u <= 2 ^ t) as Hpow.
      { replace (2 * 2 ^ u) with (2 ^ (u + 1))
          by (rewrite Z.pow_add_r by (unfold u; lia); ring).
        apply Z.pow_le_mono_r; lia. }
      set (X := 2 ^ u) in *. set (Y := 2 ^ t) in *.
      assert (0 < b * Y) as HbY by (apply Z.mul_pos_pos; lia).
      assert (0 < b * X) as HbX by (apply Z.mul_pos_pos; lia).
      assert (2 * (Z.pos m * (b * Y)) - 2 * (a * X) <= b * Y) as H1.
      { replace (Z.pos m * (b * Y)) with (Z.pos m * b * Y) by ring.
        clear - Hnear. lia. }
      assert (2 ^ 52 * (b * Y) <= Z.pos m * (b * Y)) as H2
          by (apply Z.mul_le_mono_nonneg_r; lia).
      assert (2 * (b * X) <= b * Y) as H3.
      { replace (2 * (b * X)) with (b * (2 * X)) by ring.
        apply Z.mul_le_mono_nonneg_l; lia. }
      assert (a * X < 2 ^ 52 * X) as H4
          by (apply Z.mul_lt_mono_pos_r; lia).
      assert (1 * X <= b * X) as H5
          by (apply Z.mul_le_mono_nonneg_r; lia).
      clear - H1 H2 H3 H4 H5 HbY HbX Hu. lia. }
    split; [unfold u, t, nx, ny in Htu; lia |].
    replace (- (ex - ey - 53 + j)) with (u - t) by (unfold u, t, nx, ny; lia).
    assert (2 ^ u = 2 ^ (u - t) * 2 ^ t) as Hsplit
        by (rewrite <- Z.pow_add_r by (unfold t; lia); f_equal; lia).
    rewrite Hsplit in Hnear.
    replace (Z.pos m * b * 2 ^ t - a * (2 ^ (u - t) * 2 ^ t))
      with ((Z.pos m * b - a * 2 ^ (u - t)) * 2 ^ t) in Hnear by ring.
    rewrite Z.abs_mul, (Z.abs_eq (2 ^ t)) in Hnear by lia.
    apply Z.mul_le_mono_pos_r with (p := 2 ^ t); [exact Ht |].
    rewrite <- Z.mul_assoc. exact Hnear.
Qed.

(** A correctly rounded normal value is within 2^-52 of the exact one. *)
Lemma within_relative_nearest x m e a b :
  Prim2SF x = S754_finite false m e ->
  2 ^ 52 <= Z.pos m -> e <= 0 -> 0 < a -> 0 < b ->
  2 * Z.abs (Z.pos m * b - a * 2 ^ (- e)) <= b ->
  within_relative (1 # 2 ^ 52) (inject_Z a / inject_Z b) x = true.
Proof.
  intros Hx Hm He Ha Hb Near.
  unfold within_relative, within, Q_of_float. rewrite Hx.
  assert (0 < 2 ^ (- e)) as HE by (apply Z.pow_pos_nonneg; lia).
  set (E := 2 ^ (- e)) in *.
  assert (2 ^ 52 * b <= Z.pos m * b) as Hmb
      by (apply Z.mul_le_mono_nonneg_r; lia).
  assert (a * E * (2 ^ 52 - 1) <= Z.pos m * b * 2 ^ 52) as Lower
      by (clear - Near Hmb Hb; lia).
  assert (Z.pos m * b * 2 ^ 52 <= a * E * (2 ^ 52 + 1)) as Upper
      by (clear - Near Hmb Hb; lia).
  assert ((if 0 <=? e
           then inject_Z (Z.pos m * 2 ^ e)
           else Z.pos m # 2 ^ Z.to_pos (- e))
          = (Z.pos m # Z.to_pos E)) as ->.
  { destruct (Z.leb_spec 0 e).
    - assert (e = 0) as -> by lia. unfold E. simpl. unfold inject_Z.
      f_equal. lia.
    - f_equal. unfold E. rewrite <- (Z2Pos.id (- e)) at 2 by lia.
      rewrite <- Pos2Z.inj_pow. reflexivity. }
  destruct a as [|pa|pa]; try lia. destruct b as [|pb|pb]; try lia.
  apply andb_true_intro; split; apply Qle_bool_iff;
    unfold Qle, Qminus, Qplus, Qopp, Qmult, Qdiv, Qinv, inject_Z;
    cbn [Qnum Qden]; unfold Qmult; cbn [Qnum Qden];
    rewrite ?Pos2Z.inj_mul, ?Z2Pos.id by lia;
    change (Z.pos (2 ^ 52)%positive) with (2 ^ 52);
    set (A := Z.pos pa) in *; set (B := Z.pos pb) in *;
    set (M := Z.pos m) in *.
  - replace ((A * 1 * (2 ^ 52 * (1 * B)) + - (1 * (A * 1)) * (1 * B)) * E)
      with (B * (A * E * (2 ^ 52 - 1))) by ring.
    replace (M * (1 * B * (2 ^ 52 * (1 * B))))
      with (B * (M * B * 2 ^ 52)) by ring.
    apply Z.mul_le_mono_nonneg_l; [lia | exact Lower].
  - replace ((A * 1 * (2 ^ 52 * (1 * B)) + 1 * (A * 1) * (1 * B)) * E)
      with (B * (A * E * (2 ^ 52 + 1))) by ring.
    replace (M * (1 * B * (2 ^ 52 * (1 * B))))
      with (B * (M * B * 2 ^ 52)) by ring.
    apply Z.mul_le_mono_nonneg_l; [lia | exact Upper].
Qed.

Lemma thousand_represents : represents 1000 (Prim2SF 1000%float).
Proof.
  exists 8796093022208000%positive, (-43).
  split; [vm_compute; reflexivity |]. repeat split; lia.
Qed.

(** The quotient [measureLatency] computes, for an [int] buffer size and
    sample rate that are positive: the binary64 value nearest to
    [b * 1000 / r], with a 53-bit mantissa [m] at exponent [e]. *)
Lemma theoreticalMs_nearest b r :
  0 < b <= Cxx.INT_MAX -> 0 < r <= Cxx.INT_MAX ->
  exists m e,
    Prim2SF (Cxx.double_of_int b * 1000 / Cxx.double_of_int r)%float
    = S754_finite false m e
    /\ 2 ^ 52 <= Z.pos m < 2 ^ 53 /\ e <= 0
    /\ 2 * Z.abs (Z.pos m * r - b * 1000 * 2 ^ (- e)) <= r.
Proof.
  unfold Cxx.INT_MAX. intros Hb Hr. unfold Cxx.double_of_int.
  replace (b <? 0) with false by (symmetry; apply Z.ltb_ge; lia).
  replace (r <? 0) with false by (symmetry; apply Z.ltb_ge; lia).
  rewrite FloatAxioms.div_spec, FloatAxioms.mul_spec. unfold SF64div, SF64mul.
  apply SFdiv_nearest; try lia.
  - apply SFmul_int; try lia.
    + apply double_of_int_represents. lia.
    + exact thousand_represents.
  - apply double_of_int_represents. lia.
Qed.

(** C7.  For every stored configuration whose buffer size and sample rate
    are positive [int]s, [measureLatency] reports as [theoreticalMs] a
    value within the fraction 2^-52 of the exact quotient
    [bufferSize * 1000 / sampleRate]: the conversions to [double] and the
    product by 1000.0 are exact, and the division rounds to nearest.  For
    512 frames at 48000 Hz the value is within 1e-4 of 10.6667 (and within
    2^-49 of the exact 32/3), for 256 frames at 44100 Hz within 1e-4 of
    5.805 (and within 2^-50 of the exact 2560/441). *)
Theorem measureLatency_theoreticalMs :
  (forall rand s,
      0 < bufferSize (m_config s) <= Cxx.INT_MAX ->
      0 < sampleRate (m_config s) <= Cxx.INT_MAX ->
      within_relative (1 # 2 ^ 52)
        (inject_Z (bufferSize (m_config s) * 1000)
         / inject_Z (sampleRate (m_config s)))
        (theoreticalMs (measureLatency rand s)) = true)
  /\ (forall rand s,
         bufferSize (m_config s) = 512 -> sampleRate (m_config s) = 48000 ->
         within (1 # 10000) (106667 # 10000)
           (theoreticalMs (measureLatency rand s)) = true
         /\ within (1 # 2 ^ 49) (32 # 3)
              (theoreticalMs (measureLatency rand s)) = true)
  /\ (forall rand s,
         bufferSize (m_config s) = 256 -> sampleRate (m_config s) = 44100 ->
         within (1 # 10000) (5805 # 1000)
           (theoreticalMs (measureLatency rand s)) = true
         /\ within (1 # 2 ^ 50) (2560 # 441)
              (theoreticalMs (measureLatency rand s)) = true).
Proof.
  split; [| split].
  - intros rand s Hb Hr. unfold measureLatency. cbn [theoreticalMs].
    destruct (theoreticalMs_nearest _ _ Hb Hr) as (m & e & E & Hm & He & Near).
    apply (within_relative_nearest _ m e); try lia. exact E.
  - intros rand s Hb Hr; unfold measureLatency; simpl.
    rewrite Hb, Hr; split; vm_compute; reflexivity.
  - intros rand s Hb Hr; unfold measureLatency; simpl.
    rewrite Hb, Hr; split; vm_compute; reflexivity.
Qed.

End Properties.

(** * Concrete runs *)

Section Runs.

#[local] Existing Instance rtaudio_h.

Lemma convertRtAudioFormat_round_trip_witness :
  convertRtAudioFormat (convertToRtAudioFormat Int24) = Int24.
Proof.
  apply (proj1 convertRtAudioFormat_round_trip). simpl. tauto.
Defined.

Lemma paused_implies_running_invariant_witness :
  paused_implies_running
    (state_after
       (run_call length_hash zero_parameters (call_pause (completes tt))
          (started_backend null_callback)))
  = true.
Proof.
  apply (proj1 (proj2 (paused_implies_running_invariant length_hash
                         zero_parameters))).
  reflexivity.
Defined.

Lemma stop_never_fails_witness :
  exists s',
    stop (raises "device lost") (completes tt)
      (started_backend null_callback) = Returns tt s'
    /\ isRunning s' = false /\ isPaused s' = false
    /\ m_userCallback s' = None
    /\ getLastError s' = "Error stopping stream: device lost".
Proof.
  destruct (stop_never_fails (raises "device lost") (completes tt)
              (started_backend null_callback)) as (s' & E & _ & R & _).
  exists s'. split; [exact E |]. exact (R eq_refl).
Defined.

Lemma changeSampleRate_refused_witness :
  changeSampleRate 44100
    (mkReopen (completes tt) (completes tt) (completes 512) (completes tt) 7)
    (started_backend null_callback)
  = Returns false (started_backend null_callback).
Proof.
  apply changeSampleRate_refused. right. reflexivity.
Defined.

Lemma xrun_count_per_flag_witness :
  getXrunCount
    (state_after
       (handleAudioCallback None None 512 0%float 1 1000
          (started_backend null_callback)))
  = 0 + xrun_flags 1.
Proof.
  apply (proj2 (xrun_count_per_flag None None 512 0%float 1 1000
                  (started_backend null_callback))); vm_compute; discriminate.
Defined.

(** C2, the claim as stated fails: a status word with both the overflow and
    the underflow flag is one flagged invocation, and it moves the counter
    from 0 to 2. *)
Lemma xrun_both_flags_count_two :
  flag_set 3 RTAUDIO_INPUT_OVERFLOW = true
  /\ flag_set 3 RTAUDIO_OUTPUT_UNDERFLOW = true
  /\ getXrunCount (started_backend null_callback) = 0
  /\ getXrunCount
       (state_after
          (handleAudioCallback None None 512 0%float 3 1000
             (started_backend null_callback))) = 2.
Proof. repeat split. Qed.

Lemma throwing_callback_is_caught_witness :
  exists s' output,
    handleAudioCallback (Some stale_buffer) None 512 0%float 0 1000
      (started_backend throwing_callback) = Returns (1, output) s'
    /\ getLastError s' <> ""
    /\ isRunning s' = isRunning (started_backend throwing_callback)
    /\ m_userCallback s' = Some throwing_callback.
Proof.
  apply throwing_callback_is_caught; [reflexivity | intros time; exact I].
Defined.

(** C1, the run that shows the divergence: the backend was started, its
    callback throws in the first period; the bridge returns 1 and records
    the error, and [isRunning] still reads true. *)
Lemma throwing_callback_keeps_running :
  isRunning (started_backend throwing_callback) = true
  /\ match handleAudioCallback (Some stale_buffer) None 512 0%float 0 1000
             (started_backend throwing_callback) with
     | Returns (code, _) s' =>
         code = 1
         /\ getLastError s' = "Audio callback error: boom"
         /\ isRunning s' = true
     | Throws _ _ => False
     end.
Proof. split; [reflexivity |]. vm_compute. repeat split. Qed.

Lemma checked_openStream_rejects :
  rejects_empty_parameters checked_openStream.
Proof.
  intros request H. unfold checked_openStream.
  destruct (RtAudio.request_output request) as [output|],
           (RtAudio.request_input request) as [input|];
    cbn [no_channels orb] in *; try discriminate;
    rewrite ?H; eauto.
Qed.

Lemma start_without_initialize_fails_witness :
  exists what s',
    start length_hash zero_parameters (Some null_callback) three_devices
      checked_openStream (completes tt) 0 fresh_backend
    = Throws (AudioException AudioBackendStartFailed what) s'
    /\ isRunning s' = false.
Proof.
  apply (start_without_initialize_fails length_hash zero_parameters
           BackendType.Auto BackendType.ALSA (Some null_callback)
           three_devices checked_openStream (completes tt) 0).
  - reflexivity.
  - exact checked_openStream_rejects.
Defined.

Lemma no_callback_zero_fills_witness :
  exists s' out,
    handleAudioCallback (Some stale_buffer) None 512 0%float 0 1000
      fresh_backend = Returns (0, Some out) s'
    /\ (forall i,
           0 <= i < 512 * 2 ->
           sample (sampleBytes Float32) out i
           = silence (sampleBytes Float32)).
Proof.
  apply (proj1 no_callback_zero_fills); [reflexivity | | |]; vm_compute;
    congruence.
Defined.

(** C8, the claim as stated fails.  No callback is installed and two output
    channels are configured.  With 2^31 frames the byte count is computed
    from a product that wrapped to 0, and sample 0 keeps its stale bytes;
    with a null output pointer there is no memory to fill and none is. *)
Lemma no_callback_leaves_stale_samples :
  m_userCallback fresh_backend = None
  /\ outputChannels (m_config fresh_backend) = 2
  /\ match handleAudioCallback (Some stale_buffer) None (2 ^ 31) 0%float 0
             1000 fresh_backend with
     | Returns (code, Some out) _ =>
         code = 0
         /\ sample (sampleBytes Float32) out 0 = [xff; xff; xff; xff]
         /\ sample (sampleBytes Float32) out 0
            <> silence (sampleBytes Float32)
     | _ => False
     end
  /\ match handleAudioCallback None None 512 0%float 0 1000 fresh_backend with
     | Returns (code, None) _ => code = 0
     | _ => False
     end.
Proof.
  split; [reflexivity |]. split; [reflexivity |]. split.
  - vm_compute. repeat split. discriminate.
  - vm_compute. reflexivity.
Qed.

Lemma measureLatency_theoreticalMs_witness :
  within_relative (1 # 2 ^ 52) (inject_Z (512 * 1000) / inject_Z 48000)
    (theoreticalMs (measureLatency 42 fresh_backend)) = true.
Proof.
  apply (proj1 measureLatency_theoreticalMs 42 fresh_backend);
    vm_compute; split; congruence.
Defined.

End Runs.

(** * The rest of the engine: properties *)

(** ** Decimal output *)

Lemma decimal_inj a b : decimal a = decimal b -> a = b.
Proof.
  unfold decimal. intros E.
  apply DecimalZ.to_int_inj.
  assert (forall z, Z.to_int z <> Decimal.Pos Decimal.Nil
                    /\ Z.to_int z <> Decimal.Neg Decimal.Nil) as N.
  { intros [|p|p]; simpl; split; try discriminate;
      intros [= H]; exact (DecimalPos.Unsigned.to_uint_nonnil p H). }
  pose proof (NilZero.isi (Z.to_int a) (proj1 (N a)) (proj2 (N a))) as Ha.
  pose proof (NilZero.isi (Z.to_int b) (proj1 (N b)) (proj2 (N b))) as Hb.
  rewrite E in Ha. congruence.
Qed.

Lemma digits_no_separator d :
  has_separator (NilEmpty.string_of_uint d) = false.
Proof. induction d; simpl; auto. Qed.

Lemma decimal_no_separator z : has_separator (decimal z) = false.
Proof.
  unfold decimal.
  destruct (Z.to_int z) as [d|d]; simpl;
    destruct d; simpl; auto using digits_no_separator.
Qed.

Lemma separator_splits a : forall a' r r',
  has_separator a = false -> has_separator a' = false ->
  a ++ "_" ++ r = a' ++ "_" ++ r' -> a = a' /\ r = r'.
Proof.
  induction a as [|c a IH]; intros [|c' a'] r r' Ha Ha' E; simpl in *.
  - injection E as E. auto.
  - injection E as Ec E. subst c'. simpl in Ha'. discriminate.
  - injection E as Ec E. subst c. simpl in Ha. discriminate.
  - injection E as Ec E. subst c'.
    apply Bool.orb_false_elim in Ha, Ha'.
    destruct (IH a' r r' (proj2 Ha) (proj2 Ha') E) as [-> ->]. auto.
Qed.

Lemma has_separator_app a b :
  has_separator (a ++ b) = has_separator a || has_separator b.
Proof.
  induction a as [|c a IH]; simpl; [reflexivity |].
  now rewrite IH, Bool.orb_assoc.
Qed.

Section DeviceProperties.

Variable hash : string -> Z.

Context `{platform : Platform}.

(** ** Devices *)

(** X1.  Two devices compare equal exactly when they were built for the
    same backend type, the same device index and names of the same hash;
    the default flags and the rest of the descriptor play no part, and
    [operator!=] is the negation of [operator==]. *)
Theorem device_equal_iff :
  forall id1 info1 b1 in1 out1 id2 info2 b2 in2 out2,
    let d1 := RtAudioDevice.new hash id1 info1 b1 in1 out1 in
    let d2 := RtAudioDevice.new hash id2 info2 b2 in2 out2 in
    (RtAudioDevice.equal d1 d2 = true <->
     b1 = b2 /\ id1 = id2
     /\ hash (RtAudio.name info1) = hash (RtAudio.name info2))
    /\ RtAudioDevice.not_equal d1 d2 = negb (RtAudioDevice.equal d1 d2).
Proof.
  intros. split; [| reflexivity].
  unfold RtAudioDevice.equal, d1, d2. simpl. rewrite String.eqb_eq. split.
  - intros E.
    apply separator_splits in E; try apply decimal_no_separator.
    destruct E as [Eb E].
    apply separator_splits in E; try apply decimal_no_separator.
    destruct E as [Ei Eh].
    apply decimal_inj in Eb, Ei, Eh.
    repeat split; auto.
    destruct b1, b2; simpl in Eb; try discriminate; reflexivity.
  - intros (-> & -> & ->). reflexivity.
Qed.

(** X2.  [supportsFormat] agrees with the format list of
    [getCapabilities]: each of the four sample formats is reported as
    supported exactly when it is in [supportedFormats], which lists no
    format twice; a value that is none of the four is answered as Float32
    is. *)
Theorem supportsFormat_iff_listed : forall d,
  (forall f, In f [Float32; Int16; Int24; Int32] ->
     (RtAudioDevice.supportsFormat f d = true <->
      In f (supportedFormats (RtAudioDevice.getCapabilities d))))
  /\ NoDup (supportedFormats (RtAudioDevice.getCapabilities d))
  /\ (forall f, ~ In f [Float32; Int16; Int24; Int32] ->
        RtAudioDevice.supportsFormat f d
        = RtAudioDevice.supportsFormat Float32 d).
Proof.
  intros d. split; [| split].
  - intros f Hf. simpl in Hf.
    unfold RtAudioDevice.supportsFormat, RtAudioDevice.getCapabilities.
    cbn [supportedFormats].
    destruct Hf as [<- | [<- | [<- | [<- | []]]]];
      unfold convertToRtAudioFormat, Float32, Int16, Int24, Int32; simpl;
      repeat match goal with
        | |- context [negb (Z.land ?a ?b =? 0)] =>
            destruct (negb (Z.land a b =? 0))
        end;
      simpl; split; intros H; try discriminate; try reflexivity;
      try tauto;
      repeat match goal with
        | H : _ \/ _ |- _ => destruct H
        | H : False |- _ => destruct H
        end;
      try discriminate.
  - unfold RtAudioDevice.getCapabilities. cbn [supportedFormats].
    repeat match goal with
      | |- context [negb (Z.land ?a ?b =? 0)] =>
          destruct (negb (Z.land a b =? 0))
      end;
      simpl; repeat constructor; simpl;
      unfold Float32, Int16, Int24, Int32; intuition discriminate.
  - intros f Hf. simpl in Hf.
    unfold RtAudioDevice.supportsFormat.
    f_equal. f_equal. f_equal. unfold convertToRtAudioFormat.
    repeat match goal with
      | |- context [?a =? ?b] => destruct (Z.eqb_spec a b)
      end;
      solve [reflexivity | exfalso; intuition congruence].
Qed.

(** X3.  [supportsBufferSize] accepts exactly the buffer sizes that
    [getCapabilities] lists in [supportedBufferSizes], whatever the
    device. *)
Theorem supportsBufferSize_iff_listed : forall size d,
  RtAudioDevice.supportsBufferSize size d = true <->
  In size (supportedBufferSizes (RtAudioDevice.getCapabilities d)).
Proof.
  intros size d. unfold RtAudioDevice.supportsBufferSize.
  rewrite existsb_exists. cbn [RtAudioDevice.getCapabilities supportedBufferSizes].
  split.
  - intros (c & Hc & E). apply Z.eqb_eq in E. now subst.
  - intros H. exists size. split; [exact H | apply Z.eqb_refl].
Qed.

(** X4.  [supportsSampleRate] compares rates as unsigned 32-bit values:
    when the device's rates are valid [unsigned int]s, a rate is reported
    as supported exactly when its unsigned image is listed.  So a rate that
    is not negative is supported exactly when it is listed, and when every
    listed rate is below 2^31 no negative rate is supported. *)
Theorem supportsSampleRate_iff_listed : forall rate d,
  Forall (fun r => 0 <= r < Cxx.UINT_MODULUS)
    (RtAudio.sampleRates (RtAudioDevice.getRtDeviceInfo d)) ->
  (RtAudioDevice.supportsSampleRate rate d = true <->
   In (Cxx.to_unsigned rate)
     (RtAudio.sampleRates (RtAudioDevice.getRtDeviceInfo d)))
  /\ (0 <= rate < Cxx.UINT_MODULUS ->
      (RtAudioDevice.supportsSampleRate rate d = true <->
       In rate (RtAudio.sampleRates (RtAudioDevice.getRtDeviceInfo d))))
  /\ (Cxx.INT_MIN <= rate < 0 ->
      Forall (fun r => r <= Cxx.INT_MAX)
        (RtAudio.sampleRates (RtAudioDevice.getRtDeviceInfo d)) ->
      RtAudioDevice.supportsSampleRate rate d = false).
Proof.
  intros rate d Hrates.
  unfold RtAudioDevice.getRtDeviceInfo in *.
  assert (RtAudioDevice.supportsSampleRate rate d = true <->
          In (Cxx.to_unsigned rate)
            (RtAudio.sampleRates (RtAudioDevice.m_deviceInfo d))) as Main.
  { unfold RtAudioDevice.supportsSampleRate. rewrite existsb_exists.
    rewrite Forall_forall in Hrates. split.
    - intros (r & Hr & E). apply Z.eqb_eq in E.
      rewrite to_unsigned_id in E by auto. now subst.
    - intros H. exists (Cxx.to_unsigned rate). split; [exact H |].
      apply Z.eqb_eq. apply to_unsigned_id. auto. }
  split; [exact Main |]. split.
  - intros Hr. rewrite Main, to_unsigned_id by exact Hr. reflexivity.
  - intros Hneg Hsmall.
    apply Bool.not_true_is_false. intros E.
    apply Main in E. rewrite Forall_forall in Hsmall.
    apply Hsmall in E.
    unfold Cxx.to_unsigned, Cxx.UINT_MODULUS, Cxx.INT_MIN, Cxx.INT_MAX in *.
    replace (rate mod 2 ^ 32) with (rate + 2 ^ 32) in E.
    + lia.
    + apply Z.mod_unique with (q := -1); lia.
Qed.

End DeviceProperties.

Section EngineProperties.

Variable hash : string -> Z.
Variable default_parameters : RtAudio.StreamParameters.

Context `{platform : Platform}.

(** ** Backend types *)

(** X5.  Converting a backend type to the library's API tag and back gives
    the backend type again, except for Auto, which comes back as RtAudio;
    in the other direction the seven platform APIs and UNSPECIFIED come
    back unchanged, while the dummy API and the tags the engine does not
    name come back as UNSPECIFIED.  No API tag is converted to Auto. *)
Theorem convertRtAudioApi_round_trip :
  (forall b,
      convertRtAudioApi (convertToRtAudioApi b)
      = if BackendType.eqb b BackendType.Auto then BackendType.RtAudio
        else b)
  /\ (forall api,
         convertToRtAudioApi (convertRtAudioApi api)
         = match api with
           | RtAudio.RTAUDIO_DUMMY | RtAudio.other_api => RtAudio.UNSPECIFIED
           | _ => api
           end)
  /\ (forall api,
         BackendType.eqb (convertRtAudioApi api) BackendType.Auto = false).
Proof.
  split; [| split].
  - intros []; reflexivity.
  - intros []; reflexivity.
  - intros []; reflexivity.
Qed.

(** ** Reconfiguration *)

(** X6.  [changeBufferSize] on a backend that is not running, or whose
    configuration has [allowBufferSizeChange] off, returns [false], throws
    nothing and leaves the object as it was. *)
Theorem changeBufferSize_refused : forall newSize n s,
  isRunning s = false \/ allowBufferSizeChange (getCurrentConfig s) = false ->
  changeBufferSize newSize n s = Returns false s.
Proof.
  intros newSize n s H. unfold changeBufferSize. run.
  destruct s as [bt cfg cb r p x t l c e]; simpl in *.
  destruct H as [-> | ->]; [reflexivity |].
  now rewrite Bool.orb_true_r.
Qed.

(** Every way [changeSampleRate] can end on a running backend that allows
    the change. *)
Lemma changeSampleRate_outcome newRate n s :
  isRunning s = true ->
  allowSampleRateChange (m_config s) = true ->
  let paused_first := negb (isPaused s) in
  match changeSampleRate newRate n s with
  | Returns true s' =>
      (paused_first = true -> reopen_stopStream n = completes tt
                              /\ reopen_startStream n = completes tt)
      /\ reopen_closeStream n = completes tt
      /\ (exists frames, reopen_openStream n = completes frames)
      /\ m_config s' = with_sampleRate newRate (m_config s)
      /\ isRunning s' = true /\ isPaused s' = isPaused s
      /\ getLastError s' = getLastError s
      /\ m_userCallback s' = m_userCallback s
  | Returns false s' =>
      (exists message,
          getLastError s' = "Failed to change sample rate: " ++ message
          /\ ((reopen_closeStream n = raises message
               /\ m_config s' = m_config s)
              \/ (reopen_closeStream n = completes tt
                  /\ reopen_openStream n = raises message
                  /\ m_config s' = with_sampleRate newRate (m_config s))))
      /\ isRunning s' = true /\ isPaused s' = true
      /\ m_userCallback s' = m_userCallback s
  | Throws e s' =>
      paused_first = true
      /\ ((exists message,
              reopen_stopStream n = raises message
              /\ e = AudioException AudioBackendStopFailed
                       ("Error pausing stream: " ++ message)
              /\ getLastError s' = "Error pausing stream: " ++ message
              /\ m_config s' = m_config s /\ isPaused s' = false)
          \/ (exists message,
                 reopen_startStream n = raises message
                 /\ e = AudioException AudioBackendStartFailed
                          ("Error resuming stream: " ++ message)
                 /\ getLastError s' = "Error resuming stream: " ++ message
                 /\ m_config s' = with_sampleRate newRate (m_config s)
                 /\ isPaused s' = true))
      /\ isRunning s' = true
      /\ m_userCallback s' = m_userCallback s
  end.
Proof.
  intros R A. unfold changeSampleRate, pause, resume. run.
  destruct s as [bt cfg cb r p x t l c e]; simpl in *. subst r.
  rewrite A. simpl.
  destruct n as [st cl op sa now]; simpl.
  destruct p; simpl.
  - destruct cl as [[]|m]; simpl.
    + destruct op as [frames|m]; simpl.
      * repeat split; eauto; discriminate.
      * split; [| auto]. exists m. split; [reflexivity |]. right. auto.
    + split; [| auto]. exists m. split; [reflexivity |]. left. auto.
  - destruct st as [[]|m]; simpl.
    + destruct cl as [[]|m]; simpl.
      * destruct op as [frames|m]; simpl.
        -- destruct sa as [[]|m]; simpl.
           ++ repeat split; eauto.
           ++ split; [reflexivity |]. split; [| auto].
              right. exists m. repeat split; reflexivity.
        -- split; [| auto]. exists m. split; [reflexivity |]. right. auto.
      * split; [| auto]. exists m. split; [reflexivity |]. left. auto.
    + split; [reflexivity |]. split; [| auto].
      left. exists m. repeat split; reflexivity.
Qed.

(** X7.  On a running backend that allows the change, when the library
    completes every call of the reopening, [changeSampleRate] returns
    [true]: the stored sample rate is the new one and nothing else of the
    configuration changed, the backend is still running, it is paused
    exactly if it was paused before, and no error is recorded. *)
Theorem changeSampleRate_succeeds : forall newRate frames now s,
  isRunning s = true ->
  allowSampleRateChange (getCurrentConfig s) = true ->
  exists s',
    changeSampleRate newRate
      (mkReopen (completes tt) (completes tt) (completes frames)
         (completes tt) now) s = Returns true s'
    /\ getCurrentConfig s' = with_sampleRate newRate (getCurrentConfig s)
    /\ isRunning s' = true /\ isPaused s' = isPaused s
    /\ getLastError s' = getLastError s.
Proof.
  intros newRate frames now s R A.
  unfold changeSampleRate, pause, resume. run.
  destruct s as [bt cfg cb r p x t l c e]; simpl in *. subst r.
  rewrite A. simpl. destruct p; simpl; eexists; repeat split.
Qed.

(** X8.  On a running backend that allows the change, [changeSampleRate]
    returns [false] exactly when closing or reopening the stream raised an
    error, and it throws exactly when pausing or resuming did.  After a
    [false] the error is recorded with the prefix "Failed to change sample
    rate: ", the stored sample rate is the new one only if the failure was
    in reopening, and the backend still reports running and paused.  A
    thrown exception is an [AudioException] (stop-failed from pausing,
    start-failed from resuming) whose text is the recorded error. *)
Theorem changeSampleRate_failure : forall newRate n s,
  isRunning s = true ->
  allowSampleRateChange (getCurrentConfig s) = true ->
  match changeSampleRate newRate n s with
  | Returns true _ =>
      reopen_closeStream n = completes tt
      /\ exists frames, reopen_openStream n = completes frames
  | Returns false s' =>
      (exists message,
          getLastError s' = "Failed to change sample rate: " ++ message
          /\ ((reopen_closeStream n = raises message
               /\ getCurrentConfig s' = getCurrentConfig s)
              \/ (reopen_closeStream n = completes tt
                  /\ reopen_openStream n = raises message
                  /\ getCurrentConfig s'
                     = with_sampleRate newRate (getCurrentConfig s))))
      /\ isRunning s' = true /\ isPaused s' = true
  | Throws e s' =>
      isPaused s = false
      /\ (exists code message,
             e = AudioException code message
             /\ getLastError s' = message
             /\ ((code = AudioBackendStopFailed
                  /\ exists m, reopen_stopStream n = raises m)
                 \/ (code = AudioBackendStartFailed
                     /\ exists m, reopen_startStream n = raises m)))
      /\ isRunning s' = true
  end.
Proof.
  intros newRate n s R A.
  pose proof (changeSampleRate_outcome newRate n s R A) as O.
  unfold getCurrentConfig in *.
  destruct (changeSampleRate newRate n s) as [[] s'|e s']; cbv zeta in O.
  - tauto.
  - destruct O as (E & Hr & Hp & _). auto.
  - destruct O as (P & Hc & Hr & _).
    split; [now destruct (isPaused s) |]. split; [| exact Hr].
    destruct Hc as [(m & Hs & -> & He & _) | (m & Hs & -> & He & _)];
      do 2 eexists; (split; [reflexivity |]); (split; [exact He |]);
      [left | right]; eauto.
Qed.

(** ** Lifecycle *)

Lemma BackendType_eqb_refl b : BackendType.eqb b b = true.
Proof. destruct b; reflexivity. Qed.

(** X9.  [initialize] with a configuration that is not valid throws
    [InvalidConfiguration] and leaves the object as it was.  With a valid
    configuration, and the library able to provide the requested backend,
    it returns: [getCurrentConfig] is the configuration passed, the last
    error is empty, the backend type is the preferred one unless that is
    Auto, and the running and paused flags are untouched.  Calling it a
    second time with the same configuration changes nothing more. *)
Theorem initialize_outcome : forall config s,
  (isValid config = false ->
   forall new_RtAudio,
     initialize config new_RtAudio s
     = Throws (AudioException InvalidConfiguration
                 "Invalid stream configuration") s)
  /\ (isValid config = true ->
      exists s',
        initialize config (completes tt) s = Returns tt s'
        /\ getCurrentConfig s' = config
        /\ getLastError s' = ""
        /\ getBackendType s'
           = (if BackendType.eqb (preferredBackend config) BackendType.Auto
              then getBackendType s else preferredBackend config)
        /\ isRunning s' = isRunning s /\ isPaused s' = isPaused s
        /\ forall new_RtAudio,
             initialize config new_RtAudio s' = Returns tt s').
Proof.
  intros config s. split; intros V.
  - intros n. unfold initialize. rewrite V. reflexivity.
  - exists (set_lastError ""
              (set_backendType
                 (if BackendType.eqb (preferredBackend config)
                       BackendType.Auto
                  then m_backendType s else preferredBackend config)
                 (set_config config s))).
    unfold initialize, getBackendType. rewrite V.
    destruct s as [bt cfg cb r p x t l c e]. run. simpl.
    destruct (BackendType_eqb_spec (preferredBackend config) BackendType.Auto)
      as [EA | NA]; simpl.
    + repeat split.
    + destruct (BackendType_eqb_spec (preferredBackend config) bt)
        as [EB | NB]; simpl.
      * subst bt. rewrite BackendType_eqb_refl. simpl. repeat split.
      * rewrite BackendType_eqb_refl. simpl. repeat split.
Qed.

(** X10.  A [start] that returns was given a callback on a backend that
    was not running; the device resolution of lines 82-103 returned the
    stream parameters, [openStream] completed on the request built from
    them and the configuration, and [startStream] completed.  It leaves the
    backend running and not paused with the callback installed, the xrun
    counter, the CPU usage and the stream time reset to zero and the clock
    reading as the timestamp; the stored buffer size, and so
    [getActualBufferSize], is the size the library settled on (as an
    [int]), the rest of the configuration is unchanged, and the last error
    is the one the device resolution left. *)
Theorem start_success :
  forall callback q openStream startStream now s s',
    start hash default_parameters callback q openStream startStream now s
    = Returns tt s' ->
    exists f inputParams outputParams resolved frames,
      callback = Some f /\ isRunning s = false
      /\ stream_parameters hash default_parameters q
           (set_userCallback callback s)
         = Returns (inputParams, outputParams) resolved
      /\ openStream
           (open_request (getCurrentConfig s) inputParams outputParams)
         = completes frames
      /\ startStream = completes tt
      /\ isRunning s' = true /\ isPaused s' = false
      /\ m_userCallback s' = Some f
      /\ getXrunCount s' = 0
      /\ getCpuUsage s' = 0%float /\ getStreamTime s' = 0%float
      /\ m_lastCallbackTime s' = now
      /\ getCurrentConfig s'
         = with_bufferSize (Cxx.to_int frames) (getCurrentConfig s)
      /\ getActualBufferSize s' = Cxx.to_int frames
      /\ getLastError s' = getLastError resolved.
Proof.
  intros callback q openStream startStream now s s' H.
  destruct (isRunning s) eqn:R.
  - rewrite (proj1 (start_guards hash default_parameters callback q
                      openStream startStream now s) R) in H.
    discriminate.
  - destruct callback as [f|].
    + destruct (start_cases hash default_parameters f q openStream
                  startStream now s R)
        as [e [(m & _ & E) | (ip & op & P & E)]]; rewrite E in H.
      * discriminate.
      * unfold getCurrentConfig.
        destruct (openStream (open_request (m_config s) ip op))
          as [frames|m] eqn:O; [| discriminate].
        destruct startStream as [[]|m]; [| discriminate].
        injection H as <-.
        exists f, ip, op, (set_lastError e (set_userCallback (Some f) s)),
          frames.
        repeat split; assumption.
    + rewrite (proj2 (start_guards hash default_parameters None q
                        openStream startStream now s) R) in H.
      discriminate.
Qed.

(** X11.  Every exception that [start] throws when it is given a callback
    on a backend that is not running comes from the library: it is
    [AudioBackendStartFailed] with the text "Failed to start audio stream: "
    followed by the message the library raised in [getDefaultInputDevice],
    [getDefaultOutputDevice], [openStream] or [startStream]; [getLastError]
    returns the same text, the backend is not running and the callback that
    was passed stays stored.  When the two default-device queries complete
    and [openStream] raises whatever it is asked, [start] throws with the
    message of [openStream]. *)
Theorem start_native_failure :
  forall f q openStream startStream now s,
    isRunning s = false ->
    (forall e s',
        start hash default_parameters (Some f) q openStream startStream
          now s = Throws e s' ->
        exists message,
          e = AudioException AudioBackendStartFailed
                ("Failed to start audio stream: " ++ message)
          /\ getLastError s' = "Failed to start audio stream: " ++ message
          /\ isRunning s' = false
          /\ m_userCallback s' = Some f
          /\ (RtAudio.getDefaultInputDevice q = raises message
              \/ RtAudio.getDefaultOutputDevice q = raises message
              \/ (exists request, openStream request = raises message)
              \/ startStream = raises message))
    /\ (forall message input output,
           RtAudio.getDefaultInputDevice q = completes input ->
           RtAudio.getDefaultOutputDevice q = completes output ->
           (forall request, openStream request = raises message) ->
           exists s',
             start hash default_parameters (Some f) q openStream
               startStream now s
             = Throws (AudioException AudioBackendStartFailed
                         ("Failed to start audio stream: " ++ message)) s').
Proof.
  intros f q openStream startStream now s R.
  destruct (start_cases hash default_parameters f q openStream startStream
              now s R)
    as [e0 [(m & Hm & E) | (ip & op & P & E)]]; rewrite E; clear E.
  - split.
    + intros e s' [= <- <-]. exists m.
      repeat split. destruct Hm; auto.
    + intros message input output Hi Ho _.
      destruct Hm as [Hm | Hm]; congruence.
  - split.
    + intros e s'.
      destruct (openStream (open_request (m_config s) ip op))
        as [frames|m] eqn:O;
        [destruct startStream as [[]|m]; [discriminate |] |];
        intros [= <- <-]; exists m; repeat split; eauto 6.
    + intros message input output _ _ Hopen.
      rewrite Hopen. unfold start_failure. eauto.
Qed.

(** X12.  [start] on a running backend throws [AudioBackendStartFailed]
    ("Backend is already running") and changes nothing: the stream keeps
    running with the callback it had.  [start] with an empty callback on a
    backend that is not running throws [AudioBackendStartFailed] ("Invalid
    callback function") and changes nothing either. *)
Theorem start_rejected : forall callback q openStream startStream now s,
  (isRunning s = true ->
   start hash default_parameters callback q openStream startStream now s
   = Throws (AudioException AudioBackendStartFailed
               "Backend is already running") s)
  /\ (isRunning s = false ->
      start hash default_parameters None q openStream startStream now s
      = Throws (AudioException AudioBackendStartFailed
                  "Invalid callback function") s).
Proof.
  intros callback q openStream startStream now s.
  unfold start. run.
  destruct s as [bt cfg cb r p x t l c e]; simpl.
  split; intros ->; reflexivity.
Qed.

(** X13.  On a backend that is running and not paused, [pause] followed by
    [resume], the library completing both, gives back the same object with
    only the timestamp of the last callback replaced by the clock reading
    of [resume].  [pause] on a paused backend and [resume] on a backend
    that is not paused change nothing, and neither does either of them on
    a backend that is not running. *)
Theorem pause_resume_round_trip : forall now s,
  (isRunning s = true -> isPaused s = false ->
   exists s1,
     pause (completes tt) s = Returns tt s1
     /\ isRunning s1 = true /\ isPaused s1 = true
     /\ resume (completes tt) now s1
        = Returns tt (set_lastCallbackTime now s))
  /\ (forall stopStream,
         isRunning s = false \/ isPaused s = true ->
         pause stopStream s = Returns tt s)
  /\ (forall startStream,
         isRunning s = false \/ isPaused s = false ->
         resume startStream now s = Returns tt s).
Proof.
  intros now s. unfold pause, resume. run.
  destruct s as [bt cfg cb r p x t l c e]; simpl.
  split; [| split].
  - intros -> ->. simpl. eexists. repeat split.
  - intros stopStream [-> | ->]; simpl; [reflexivity |].
    now rewrite Bool.orb_true_r.
  - intros startStream [-> | ->]; simpl; [reflexivity |].
    now rewrite Bool.orb_true_r.
Qed.

(** X14.  The destructor never throws: it returns with the backend not
    running, and if the backend was running it is also not paused and
    holds no callback, whatever the library answered to the teardown. *)
Theorem destructor_stops : forall stopStream closeStream s,
  exists s',
    destructor stopStream closeStream s = Returns tt s'
    /\ isRunning s' = false
    /\ (isRunning s = true ->
        isPaused s' = false /\ m_userCallback s' = None)
    /\ (isRunning s = false -> s' = s).
Proof.
  intros stopStream closeStream s.
  unfold destructor. cbv beta iota delta [bind gets].
  unfold isRunning at 1.
  destruct (m_isRunning s) eqn:R.
  - rewrite stop_outcome. unfold isRunning at 1. rewrite R.
    eexists. split; [reflexivity |].
    repeat split; unfold isRunning; intros; congruence.
  - eexists. split; [reflexivity |].
    repeat split; unfold isRunning in *; intros; congruence.
Qed.

(** ** The bridge, beyond the counters *)

(** One run of the bridge, case by case: the status flags, the lateness
    test, the callback and its result, the output pointer. *)
Ltac bridge_cases s :=
  unfold rtAudioCallback, handleAudioCallback, updateStreamTime; run;
  destruct s as [bt cfg cb r p x t l c e]; simpl;
  repeat match goal with
    | |- context [flag_set ?a ?b] => destruct (flag_set a b); simpl
    | |- context [PrimFloat.ltb ?a ?b] => destruct (PrimFloat.ltb a b); simpl
    end;
  match goal with
  | |- context [match cb with _ => _ end] =>
      destruct cb as [f|];
      [ match goal with
        | |- context [f ?a ?b ?c ?d] => destruct (f a b c d)
        end
      | repeat match goal with
          | |- context [match ?o with Some _ => _ | None => _ end] =>
              destruct o
          | |- context [0 <? outputChannels cfg] =>
              destruct (0 <? outputChannels cfg)
          end ]
  end;
  simpl.

(** X15.  A run of the bridge never throws and gives the library 0 or 1.
    With a callback installed, the callback is called once, with the
    buffers and the frame count of the run and, as its time, the stream
    time accumulated so far (the stored time plus frames / sampleRate, not
    the time the library reported); the result is 1 exactly when the
    callback threw, the output memory is what the callback left, and the
    last error changes only if it threw.  Without a callback the result is
    0 and the last error is unchanged. *)
Theorem bridge_result :
  forall outputBuffer inputBuffer nFrames streamTime status now s,
    let time :=
      (getStreamTime s
       + Cxx.double_of_int nFrames
         / Cxx.double_of_int (sampleRate (getCurrentConfig s)))%float in
    exists code output s',
      handleAudioCallback outputBuffer inputBuffer nFrames streamTime status
        now s = Returns (code, output) s'
      /\ getStreamTime s' = time
      /\ match m_userCallback s with
         | Some callback =>
             let r := callback inputBuffer outputBuffer nFrames time in
             code = (if callback_threw r then 1 else 0)
             /\ output = written outputBuffer (callback_output r)
             /\ (callback_threw r = false ->
                 getLastError s' = getLastError s)
         | None => code = 0 /\ getLastError s' = getLastError s
         end.
Proof.
  intros outputBuffer inputBuffer nFrames streamTime status now s.
  bridge_cases s;
    do 3 eexists; (split; [reflexivity |]); simpl;
    repeat split; discriminate.
Qed.

(** What a run of the bridge leaves alone, and what it does to the xrun
    counter. *)
Lemma bridge_step outputBuffer inputBuffer nFrames streamTime status now s :
  let s' :=
    state_after
      (rtAudioCallback outputBuffer inputBuffer nFrames streamTime status
         now s) in
  isRunning s' = isRunning s /\ isPaused s' = isPaused s
  /\ m_userCallback s' = m_userCallback s
  /\ m_backendType s' = m_backendType s
  /\ m_config s' = m_config s
  /\ getXrunCount s' =
     (if xrun_flags status =? 0 then getXrunCount s
      else Cxx.to_int (getXrunCount s + xrun_flags status)).
Proof.
  unfold xrun_flags.
  bridge_cases s; rewrite ?to_int_add_absorb; repeat split;
    try reflexivity; f_equal; lia.
Qed.

Lemma xrun_flags_range status : 0 <= xrun_flags status <= 2.
Proof.
  unfold xrun_flags. do 2 destruct (flag_set _ _); simpl; lia.
Qed.

Lemma run_periods_xrun ps : forall s,
  getXrunCount (run_periods ps s)
  = if xrun_flags_total ps =? 0 then getXrunCount s
    else Cxx.to_int (getXrunCount s + xrun_flags_total ps).
Proof.
  induction ps as [|p ps IH]; intros s; simpl; [reflexivity |].
  rewrite IH.
  destruct (bridge_step (period_output p) (period_input p)
              (period_frames p) (period_streamTime p) (period_status p)
              (period_now p) s) as (_ & _ & _ & _ & _ & ->).
  pose proof (xrun_flags_range (period_status p)) as Hp.
  assert (0 <= xrun_flags_total ps) as Hps.
  { clear. induction ps as [|q ps IH]; simpl; [lia |].
    pose proof (xrun_flags_range (period_status q)). lia. }
  destruct (Z.eqb_spec (xrun_flags (period_status p)) 0) as [E0 | N0];
    destruct (Z.eqb_spec (xrun_flags_total ps) 0) as [E1 | N1];
    destruct (Z.eqb_spec
                (xrun_flags (period_status p) + xrun_flags_total ps) 0);
    try lia; try reflexivity.
  - rewrite E0. reflexivity.
  - rewrite E1, Z.add_0_r. reflexivity.
  - rewrite to_int_add_absorb. f_equal. lia.
Qed.

(** X16.  Over any sequence of runs of the bridge the xrun counter adds up
    the conditions flagged in the status words, modulo the range of [int]:
    starting from a counter that is a valid [int], it ends at the wrapped
    sum, and it ends at the exact sum as long as that does not exceed
    [INT_MAX].  Runs without a flag never move it. *)
Theorem xrun_count_over_periods : forall ps s,
  Cxx.INT_MIN <= getXrunCount s <= Cxx.INT_MAX ->
  getXrunCount (run_periods ps s)
  = Cxx.to_int (getXrunCount s + xrun_flags_total ps)
  /\ (getXrunCount s + xrun_flags_total ps <= Cxx.INT_MAX ->
      getXrunCount (run_periods ps s)
      = getXrunCount s + xrun_flags_total ps)
  /\ (xrun_flags_total ps = 0 ->
      getXrunCount (run_periods ps s) = getXrunCount s).
Proof.
  intros ps s Hx. rewrite run_periods_xrun.
  assert (0 <= xrun_flags_total ps) as Hps.
  { clear. induction ps as [|q ps IH]; simpl; [lia |].
    pose proof (xrun_flags_range (period_status q)). lia. }
  destruct (Z.eqb_spec (xrun_flags_total ps) 0) as [E | N].
  - rewrite E, Z.add_0_r, to_int_id by exact Hx. auto.
  - repeat split.
    + intros Hmax. apply to_int_id. lia.
    + intros E. contradiction.
Qed.

(** ** Invariants over every call *)

Lemma engine_invariant_new backendType currentApi :
  engine_invariant (RtAudioBackend_ctor backendType currentApi).
Proof.
  unfold engine_invariant, RtAudioBackend_ctor, RtAudioBackend_new,
    paused_implies_running, callback_installed, getBackendType,
    getXrunCount, isRunning, isPaused, Cxx.INT_MIN, Cxx.INT_MAX; simpl.
  repeat split; try lia.
  destruct backendType; simpl; try reflexivity.
  destruct currentApi; reflexivity.
Qed.

(** Unfolds the invariant on a destructed object. *)
Ltac invariant_cases :=
  unfold engine_invariant, paused_implies_running, callback_installed,
    getBackendType, getXrunCount, isRunning, isPaused,
    Cxx.INT_MIN, Cxx.INT_MAX in *;
  simpl in *;
  repeat match goal with
    | H : _ /\ _ |- _ => destruct H
    end.

Lemma start_invariant callback q openStream startStream now s :
  engine_invariant s ->
  engine_invariant
    (state_after
       (start hash default_parameters callback q openStream startStream
          now s)).
Proof.
  intros Inv.
  destruct (isRunning s) eqn:R.
  - rewrite (proj1 (start_guards hash default_parameters callback q
                      openStream startStream now s) R).
    exact Inv.
  - destruct callback as [f|].
    + destruct (start_cases hash default_parameters f q openStream
                  startStream now s R)
        as [e0 [(m & _ & ->) | (ip & op & _ & ->)]].
      * destruct s as [bt cfg cb r p x t l ce e].
        unfold start_failure. invariant_cases. subst.
        repeat split; auto.
      * destruct (openStream _) as [frames|m];
          [destruct startStream as [[]|m] |];
          destruct s as [bt cfg cb r p x t l ce e];
          unfold start_failure, stream_opened;
          invariant_cases; subst; repeat split; auto; lia.
    + rewrite (proj2 (start_guards hash default_parameters None q
                        openStream startStream now s) R).
      exact Inv.
Qed.

Lemma lifecycle_call_invariant c s :
  engine_invariant s ->
  engine_invariant (state_after (run_call hash default_parameters c s)).
Proof.
  intros Inv.
  destruct c as [config n | callback q o st now | st cl | st | st now];
    [| apply start_invariant, Inv | | |];
    destruct s as [bt cfg cb r p x t l ce e]; simpl.
  - unfold initialize. destruct (isValid config); simpl; [| exact Inv].
    run. simpl.
    destruct (BackendType_eqb_spec (preferredBackend config)
                BackendType.Auto) as [EA | NA]; simpl.
    + invariant_cases. auto.
    + destruct (BackendType.eqb (preferredBackend config) bt); simpl;
        [invariant_cases; auto |].
      assert (BackendType.eqb (preferredBackend config) BackendType.Auto
              = false) as NA'
          by (destruct (BackendType_eqb_spec (preferredBackend config)
                          BackendType.Auto); congruence).
      destruct n as [[]|m]; simpl; invariant_cases; auto.
  - rewrite stop_outcome. unfold isRunning. simpl.
    destruct r; [| exact Inv].
    destruct (teardown_error st cl); invariant_cases; auto.
  - unfold pause. run. simpl.
    destruct r, p; simpl; try exact Inv.
    destruct st as [[]|m]; simpl; invariant_cases; auto.
  - unfold resume. run. simpl.
    destruct r, p; simpl; try exact Inv.
    destruct st as [[]|m]; simpl; invariant_cases; auto.
Qed.

Lemma reconfiguration_invariant s :
  engine_invariant s ->
  (forall newRate n,
      engine_invariant (state_after (changeSampleRate newRate n s)))
  /\ (forall newSize n,
         engine_invariant (state_after (changeBufferSize newSize n s))).
Proof.
  intros Inv.
  destruct s as [bt cfg cb r p x t l ce e].
  split; intros v [st cl op sa now];
    unfold changeSampleRate, changeBufferSize, pause, resume; run; simpl;
    destruct r; simpl; try exact Inv;
    match goal with
    | |- context [negb (?flag cfg)] => destruct (flag cfg)
    end; simpl; try exact Inv;
    destruct p; simpl;
    repeat match goal with
      | |- context [match ?a with completes _ => _ | raises _ => _ end] =>
          is_var a; destruct a as [[]|?]; simpl
      | |- context [match op with completes _ => _ | raises _ => _ end] =>
          destruct op as [?|?]; simpl
      end;
    invariant_cases; auto.
Qed.

Lemma engine_call_invariant c s :
  engine_invariant s ->
  engine_invariant (run_engine_call hash default_parameters c s).
Proof.
  intros Inv.
  destruct c as [c | v n | v n | d | d | | o i nf st status now];
    cbn [run_engine_call].
  - apply lifecycle_call_invariant, Inv.
  - apply (reconfiguration_invariant s Inv).
  - apply (reconfiguration_invariant s Inv).
  - destruct s as [bt cfg cb r p x t l ce e].
    unfold switchInputDevice. run. simpl. exact Inv.
  - destruct s as [bt cfg cb r p x t l ce e].
    unfold switchOutputDevice. run. simpl. exact Inv.
  - destruct s as [bt cfg cb r p x t l ce e]. run. simpl. exact Inv.
  - destruct (bridge_step o i nf st status now s)
      as (Hr & Hp & Hc & Hb & _ & Hx).
    destruct Inv as (I1 & I2 & I3 & I4).
    unfold engine_invariant, paused_implies_running, callback_installed,
      getBackendType in *.
    rewrite Hr, Hp, Hc, Hb, Hx.
    repeat split; auto;
      destruct (xrun_flags status =? 0); try apply to_int_range; lia.
Qed.

Lemma engine_calls_invariant cs : forall s,
  engine_invariant s ->
  engine_invariant (run_engine_calls hash default_parameters cs s).
Proof.
  induction cs as [|c cs IH]; intros s Inv; simpl; [exact Inv |].
  apply IH, engine_call_invariant, Inv.
Qed.

(** X17.  After any sequence of calls on a constructed backend (lifecycle
    calls, reconfigurations, device switches, error clearing, runs of the
    bridge; returning or throwing), a backend that reports running holds
    a callback: the bridge of a running backend never takes its no-callback
    branch. *)
Theorem running_backend_has_callback : forall backendType currentApi cs,
  implb
    (isRunning
       (run_engine_calls hash default_parameters cs
          (RtAudioBackend_ctor backendType currentApi)))
    (callback_installed
       (run_engine_calls hash default_parameters cs
          (RtAudioBackend_ctor backendType currentApi)))
  = true.
Proof.
  intros backendType currentApi cs.
  apply (engine_calls_invariant cs _
           (engine_invariant_new backendType currentApi)).
Qed.

(** X18.  After any sequence of calls on a constructed backend,
    [getBackendType] is not Auto: the constructor replaces Auto by the type
    of the API the library chose, and [initialize] takes over the preferred
    backend of a configuration only when that is not Auto. *)
Theorem backend_type_never_Auto : forall backendType currentApi cs,
  BackendType.eqb
    (getBackendType
       (run_engine_calls hash default_parameters cs
          (RtAudioBackend_ctor backendType currentApi)))
    BackendType.Auto
  = false.
Proof.
  intros backendType currentApi cs.
  apply (engine_calls_invariant cs _
           (engine_invariant_new backendType currentApi)).
Qed.

(** X19.  After any sequence of calls on a constructed backend, also
    through reconfigurations that fail half-way and runs of the bridge, a
    paused backend is a running one and the xrun counter is a valid
    [int]. *)
Theorem engine_calls_keep_flags : forall backendType currentApi cs,
  paused_implies_running
    (run_engine_calls hash default_parameters cs
       (RtAudioBackend_ctor backendType currentApi)) = true
  /\ Cxx.INT_MIN
     <= getXrunCount
          (run_engine_calls hash default_parameters cs
             (RtAudioBackend_ctor backendType currentApi))
     <= Cxx.INT_MAX.
Proof.
  intros backendType currentApi cs.
  destruct (engine_calls_invariant cs _
              (engine_invariant_new backendType currentApi))
    as (I1 & _ & _ & I4).
  auto.
Qed.

(** ** Device enumeration *)

Lemma device_id_inj id1 info1 b1 in1 out1 id2 info2 b2 in2 out2 :
  RtAudioDevice.getId (RtAudioDevice.new hash id1 info1 b1 in1 out1)
  = RtAudioDevice.getId (RtAudioDevice.new hash id2 info2 b2 in2 out2) ->
  id1 = id2.
Proof.
  unfold RtAudioDevice.getId. simpl. intros E.
  apply separator_splits in E; try apply decimal_no_separator.
  destruct E as [_ E].
  apply separator_splits in E; try apply decimal_no_separator.
  destruct E as [Ei _]. now apply decimal_inj in Ei.
Qed.

Lemma to_int_inj_unsigned a b :
  0 <= a < Cxx.UINT_MODULUS -> 0 <= b < Cxx.UINT_MODULUS ->
  Cxx.to_int a = Cxx.to_int b -> a = b.
Proof.
  unfold Cxx.to_int, Cxx.UINT_MODULUS. intros Ha Hb E.
  assert ((a + 2 ^ 31) mod 2 ^ 32 = (b + 2 ^ 31) mod 2 ^ 32) as E' by lia.
  destruct (Z_lt_le_dec a (2 ^ 31)), (Z_lt_le_dec b (2 ^ 31)).
  - rewrite !Z.mod_small in E' by lia. lia.
  - rewrite (Z.mod_small (a + 2 ^ 31)) in E' by lia.
    replace ((b + 2 ^ 31) mod 2 ^ 32) with (b - 2 ^ 31) in E'
      by (apply Z.mod_unique with (q := 1); lia).
    lia.
  - rewrite (Z.mod_small (b + 2 ^ 31)) in E' by lia.
    replace ((a + 2 ^ 31) mod 2 ^ 32) with (a - 2 ^ 31) in E'
      by (apply Z.mod_unique with (q := 1); lia).
    lia.
  - replace ((a + 2 ^ 31) mod 2 ^ 32) with (a - 2 ^ 31) in E'
      by (apply Z.mod_unique with (q := 1); lia).
    replace ((b + 2 ^ 31) mod 2 ^ 32) with (b - 2 ^ 31) in E'
      by (apply Z.mod_unique with (q := 1); lia).
    lia.
Qed.

(** The devices the loop produces: one for each index whose query
    completes. *)
Lemma enumerate_loop_In getDeviceInfo backendType defaultInput defaultOutput
    remaining : forall i d,
  In d (enumerate_loop hash getDeviceInfo backendType defaultInput
          defaultOutput i remaining)
  <-> exists j info,
        i <= j < i + Z.of_nat remaining
        /\ getDeviceInfo j = completes info
        /\ d = RtAudioDevice.new hash (Cxx.to_int j) info backendType
                 (Cxx.to_int j =? defaultInput)
                 (Cxx.to_int j =? defaultOutput).
Proof.
  induction remaining as [|n IH]; intros i d.
  - simpl. split; [intros [] | intros (j & _ & Hj & _); lia].
  - cbn [enumerate_loop].
    destruct (getDeviceInfo i) as [info|m] eqn:Q.
    + cbn [In]. rewrite IH. split.
      * intros [<- | (j & info' & Hj & Hq & ->)].
        -- exists i, info. repeat split; auto; lia.
        -- exists j, info'. repeat split; auto; lia.
      * intros (j & info' & Hj & Hq & ->).
        destruct (Z.eq_dec j i) as [-> | N].
        -- left. rewrite Q in Hq. injection Hq as ->. reflexivity.
        -- right. exists j, info'. repeat split; auto; lia.
    + rewrite IH. split.
      * intros (j & info' & Hj & Hq & ->).
        exists j, info'. repeat split; auto; lia.
      * intros (j & info' & Hj & Hq & ->).
        destruct (Z.eq_dec j i) as [-> | N]; [congruence |].
        exists j, info'. repeat split; auto; lia.
Qed.

Lemma enumerate_loop_NoDup getDeviceInfo backendType defaultInput
    defaultOutput remaining : forall i,
  0 <= i -> i + Z.of_nat remaining <= Cxx.UINT_MODULUS ->
  NoDup (map RtAudioDevice.getId
           (enumerate_loop hash getDeviceInfo backendType defaultInput
              defaultOutput i remaining)).
Proof.
  induction remaining as [|n IH]; intros i Hi Hn.
  - constructor.
  - cbn [enumerate_loop].
    assert (NoDup (map RtAudioDevice.getId
                     (enumerate_loop hash getDeviceInfo backendType
                        defaultInput defaultOutput (i + 1) n))) as Rest
        by (apply IH; lia).
    destruct (getDeviceInfo i) as [info|m]; [| exact Rest].
    cbn [map]. constructor; [| exact Rest].
    intros Hin. apply in_map_iff in Hin.
    destruct Hin as (d & Eid & Hd).
    apply enumerate_loop_In in Hd.
    destruct Hd as (j & info' & Hj & _ & ->).
    apply device_id_inj in Eid.
    apply to_int_inj_unsigned in Eid; unfold Cxx.UINT_MODULUS in *; lia.
Qed.

(** X21.  [enumerateDevices] never throws, and the devices it returns have
    pairwise different identifiers (so no two of them compare equal), for
    any answers of the library with a device count that fits
    [unsigned int]; there are at most as many devices as the count. *)
Theorem enumerateDevices_unique_ids : forall q s,
  (forall count, RtAudio.getDeviceCount q = completes count ->
                 count <= Cxx.UINT_MODULUS) ->
  exists devices s',
    enumerateDevices hash q s = Returns devices s'
    /\ NoDup (map RtAudioDevice.getId devices)
    /\ (forall count, RtAudio.getDeviceCount q = completes count ->
          Z.of_nat (length devices) <= Z.max 0 count).
Proof.
  intros q s Hcount. unfold enumerateDevices.
  destruct s as [bt cfg cb r p x t l ce e]. run.
  destruct q as [gc gi go gd]; simpl in *.
  destruct gc as [count|m]; simpl.
  2: { do 2 eexists. split; [reflexivity |].
       split; [constructor | discriminate]. }
  destruct gi as [di|m]; simpl.
  2: { do 2 eexists. split; [reflexivity |].
       split; [constructor | intros; simpl; lia]. }
  destruct go as [do_|m]; simpl.
  2: { do 2 eexists. split; [reflexivity |].
       split; [constructor | intros; simpl; lia]. }
  do 2 eexists. split; [reflexivity |]. split.
  - specialize (Hcount count eq_refl).
    apply enumerate_loop_NoDup; unfold Cxx.UINT_MODULUS in *; lia.
  - intros c [= <-].
    assert (forall n i,
               (length (enumerate_loop hash gd bt
                          (Cxx.to_int di) (Cxx.to_int do_) i n) <= n)%nat)
      as L.
    { induction n as [|n IH]; intros i; simpl; [lia |].
      destruct (gd i); simpl; specialize (IH (i + 1)); lia. }
    specialize (L (Z.to_nat count) 0). lia.
Qed.

(** X22.  When the library answers the device count and the two default
    devices, [enumerateDevices] leaves the object unchanged and returns
    exactly one device for each index below the count whose descriptor
    query completes, skipping those whose query raises: the device carries
    that index, the descriptor, the backend's type, and is flagged default
    input (output) exactly when its index is the default input (output)
    index.  When one of the three first queries raises, the result is
    empty and the message becomes the last error. *)
Theorem enumerateDevices_contents : forall q s,
  (forall count defaultInput defaultOutput,
      RtAudio.getDeviceCount q = completes count ->
      RtAudio.getDefaultInputDevice q = completes defaultInput ->
      RtAudio.getDefaultOutputDevice q = completes defaultOutput ->
      exists devices,
        enumerateDevices hash q s = Returns devices s
        /\ forall d,
             In d devices <->
             exists j info,
               0 <= j < count
               /\ RtAudio.getDeviceInfo q j = completes info
               /\ d = RtAudioDevice.new hash (Cxx.to_int j) info
                        (getBackendType s)
                        (Cxx.to_int j =? Cxx.to_int defaultInput)
                        (Cxx.to_int j =? Cxx.to_int defaultOutput))
  /\ (forall message,
         RtAudio.getDeviceCount q = raises message
         \/ (exists count, RtAudio.getDeviceCount q = completes count)
            /\ (RtAudio.getDefaultInputDevice q = raises message
                \/ (exists d, RtAudio.getDefaultInputDevice q = completes d)
                   /\ RtAudio.getDefaultOutputDevice q = raises message) ->
         enumerateDevices hash q s = Returns [] (set_lastError message s)).
Proof.
  intros q s. unfold enumerateDevices, getBackendType.
  destruct s as [bt cfg cb r p x t l ce e]. run.
  destruct q as [gc gi go gd]; simpl. split.
  - intros count di do_ -> -> ->. simpl.
    eexists. split; [reflexivity |].
    intros d. rewrite enumerate_loop_In.
    split; intros (j & info & Hj & Hq & ->); exists j, info;
      repeat split; auto; lia.
  - intros message [-> | [[count ->] [-> | [[d ->] ->]]]]; reflexivity.
Qed.

(** ** Device lookup *)

Lemma find_by_name_step name isInput d ds :
  find_by_name name isInput (d :: ds)
  = if name_matches name isInput d then RtAudioDevice.getRtAudioDeviceId d
    else find_by_name name isInput ds.
Proof.
  unfold name_matches. cbn [find_by_name].
  destruct isInput; simpl;
    rewrite ?Bool.andb_false_r, ?Bool.orb_false_r; reflexivity.
Qed.

Lemma find_by_name_spec name isInput ds :
  (exists before d after,
      ds = (before ++ d :: after)%list
      /\ forallb (fun x => negb (name_matches name isInput x)) before = true
      /\ name_matches name isInput d = true
      /\ find_by_name name isInput ds = RtAudioDevice.getRtAudioDeviceId d)
  \/ (forallb (fun x => negb (name_matches name isInput x)) ds = true
      /\ find_by_name name isInput ds = -1).
Proof.
  induction ds as [|d ds IH].
  - right. split; reflexivity.
  - rewrite find_by_name_step.
    destruct (name_matches name isInput d) eqn:Md.
    + left. exists [], d, ds. repeat split; auto.
    + destruct IH as [(before & d' & after & -> & Hb & Hd & Hf) | [Hn Hf]].
      * left. exists (d :: before), d', after.
        repeat split; auto. simpl. now rewrite Md.
      * right. split; [| exact Hf]. simpl. now rewrite Md.
Qed.

Lemma enumerateDevices_total q s :
  exists devices s', enumerateDevices hash q s = Returns devices s'.
Proof.
  unfold enumerateDevices. run.
  destruct q as [[c|m] [di|m'] [do_|m''] gd]; simpl; eauto.
Qed.

(** X23.  [findDeviceIdByName] never throws.  It returns the index of the
    first enumerated device that has the given name and at least one
    channel in the requested direction (devices before it either have
    another name or no such channel), and -1 when no enumerated device
    qualifies. *)
Theorem findDeviceIdByName_first_match : forall name isInput q s,
  exists devices id s',
    enumerateDevices hash q s = Returns devices s'
    /\ findDeviceIdByName hash name isInput q s = Returns id s'
    /\ ((exists before d after,
            devices = (before ++ d :: after)%list
            /\ forallb (fun x => negb (name_matches name isInput x)) before
               = true
            /\ RtAudioDevice.getName d = name
            /\ 0 < (if isInput
                    then RtAudio.inputChannels
                           (RtAudioDevice.getRtDeviceInfo d)
                    else RtAudio.outputChannels
                           (RtAudioDevice.getRtDeviceInfo d))
            /\ id = RtAudioDevice.getRtAudioDeviceId d)
        \/ (forallb (fun x => negb (name_matches name isInput x)) devices
            = true
            /\ id = -1)).
Proof.
  intros name isInput q s.
  unfold findDeviceIdByName. cbv beta iota delta [bind ret].
  destruct (enumerateDevices_total q s) as (devices & s' & E). rewrite E.
  exists devices, (find_by_name name isInput devices), s'.
  split; [reflexivity |]. split; [reflexivity |].
  destruct (find_by_name_spec name isInput devices)
    as [(before & d & after & Hds & Hb & Hd & Hf) | [Hn Hf]].
  - left. exists before, d, after.
    unfold name_matches in Hd. apply andb_prop in Hd.
    destruct Hd as [Hname Hch].
    apply String.eqb_eq in Hname. apply Z.ltb_lt in Hch.
    repeat split; auto.
  - right. auto.
Qed.




(** X25.  [getCurrentInputDevice] returns the null pointer exactly when
    the backend is not running or the library raises in [getDeviceInfo(1)],
    [getDefaultInputDevice] or [getDefaultOutputDevice]; otherwise it
    returns the device built for index 1 from the library's answers, with
    the backend's type, whatever devices the configuration names.
    [getCurrentOutputDevice] does the same with index 2, and
    [createDeviceFromRtAudioId] returns the null pointer for a negative
    index. *)
Theorem current_devices : forall q s,
  (getCurrentInputDevice hash q s = None <->
   isRunning s = false
   \/ (exists message, RtAudio.getDeviceInfo q 1 = raises message)
   \/ (exists message, RtAudio.getDefaultInputDevice q = raises message)
   \/ (exists message, RtAudio.getDefaultOutputDevice q = raises message))
  /\ (getCurrentOutputDevice hash q s = None <->
      isRunning s = false
      \/ (exists message, RtAudio.getDeviceInfo q 2 = raises message)
      \/ (exists message, RtAudio.getDefaultInputDevice q = raises message)
      \/ (exists message, RtAudio.getDefaultOutputDevice q = raises message))
  /\ (forall d, getCurrentInputDevice hash q s = Some d ->
        exists info input output,
          RtAudio.getDeviceInfo q 1 = completes info
          /\ RtAudio.getDefaultInputDevice q = completes input
          /\ RtAudio.getDefaultOutputDevice q = completes output
          /\ d = RtAudioDevice.new hash 1 info (getBackendType s)
                   (1 =? Cxx.to_int input) (1 =? Cxx.to_int output))
  /\ (forall d, getCurrentOutputDevice hash q s = Some d ->
        exists info input output,
          RtAudio.getDeviceInfo q 2 = completes info
          /\ RtAudio.getDefaultInputDevice q = completes input
          /\ RtAudio.getDefaultOutputDevice q = completes output
          /\ d = RtAudioDevice.new hash 2 info (getBackendType s)
                   (2 =? Cxx.to_int input) (2 =? Cxx.to_int output))
  /\ (forall deviceId, deviceId < 0 ->
        createDeviceFromRtAudioId hash q deviceId s = None).
Proof.
  intros q s.
  unfold getCurrentInputDevice, getCurrentOutputDevice,
    createDeviceFromRtAudioId, getBackendType.
  change (1 <? 0) with false. change (2 <? 0) with false. cbv iota.
  split; [| split; [| split; [| split]]].
  - destruct (isRunning s); simpl; [| intuition].
    destruct (RtAudio.getDeviceInfo q 1) as [info|m];
      [| split; eauto].
    destruct (RtAudio.getDefaultInputDevice q) as [di|m];
      [| split; eauto 6].
    destruct (RtAudio.getDefaultOutputDevice q) as [do_|m];
      [| split; eauto 6].
    split; [discriminate |].
    intros [H | [[m H] | [[m H] | [m H]]]]; discriminate.
  - destruct (isRunning s); simpl; [| intuition].
    destruct (RtAudio.getDeviceInfo q 2) as [info|m];
      [| split; eauto].
    destruct (RtAudio.getDefaultInputDevice q) as [di|m];
      [| split; eauto 6].
    destruct (RtAudio.getDefaultOutputDevice q) as [do_|m];
      [| split; eauto 6].
    split; [discriminate |].
    intros [H | [[m H] | [[m H] | [m H]]]]; discriminate.
  - intros d. destruct (isRunning s); simpl; [| discriminate].
    destruct (RtAudio.getDeviceInfo q 1) as [info|]; [| discriminate].
    destruct (RtAudio.getDefaultInputDevice q) as [di|]; [| discriminate].
    destruct (RtAudio.getDefaultOutputDevice q) as [do_|];
      [| discriminate].
    intros [= <-]. exists info, di, do_. auto.
  - intros d. destruct (isRunning s); simpl; [| discriminate].
    destruct (RtAudio.getDeviceInfo q 2) as [info|]; [| discriminate].
    destruct (RtAudio.getDefaultInputDevice q) as [di|]; [| discriminate].
    destruct (RtAudio.getDefaultOutputDevice q) as [do_|];
      [| discriminate].
    intros [= <-]. exists info, di, do_. auto.
  - intros deviceId Hneg.
    destruct (Z.ltb_spec deviceId 0); [reflexivity | lia].
Qed.

End EngineProperties.

(** * The rest of the engine: concrete runs *)

Section MoreRuns.

#[local] Existing Instance rtaudio_h.

Lemma supportsFormat_iff_listed_witness :
  RtAudioDevice.supportsFormat Int16
    (RtAudioDevice.new length_hash 2 usb_interface BackendType.ALSA true
       false) = true
  <-> In Int16
        (supportedFormats
           (RtAudioDevice.getCapabilities
              (RtAudioDevice.new length_hash 2 usb_interface BackendType.ALSA
                 true false))).
Proof.
  apply (proj1 (supportsFormat_iff_listed _)). simpl. tauto.
Defined.

Lemma supportsSampleRate_iff_listed_witness :
  RtAudioDevice.supportsSampleRate (-1)
    (RtAudioDevice.new length_hash 2 usb_interface BackendType.ALSA true
       false) = false.
Proof.
  assert (Forall (fun r => 0 <= r < Cxx.UINT_MODULUS)
            (RtAudio.sampleRates usb_interface)) as Valid
      by (simpl; unfold Cxx.UINT_MODULUS;
          repeat (apply Forall_cons; [lia |]); apply Forall_nil).
  apply (proj2 (proj2 (supportsSampleRate_iff_listed (-1)
                         (RtAudioDevice.new length_hash 2 usb_interface
                            BackendType.ALSA true false) Valid))).
  - unfold Cxx.INT_MIN. lia.
  - simpl. unfold Cxx.INT_MAX.
    repeat (apply Forall_cons; [lia |]); apply Forall_nil.
Defined.

Lemma changeBufferSize_refused_witness :
  changeBufferSize 256
    (mkReopen (completes tt) (completes tt) (completes 256) (completes tt) 7)
    (started_backend null_callback)
  = Returns false (started_backend null_callback).
Proof.
  apply changeBufferSize_refused. right. reflexivity.
Defined.

Lemma changeSampleRate_succeeds_witness :
  exists s',
    changeSampleRate 44100
      (mkReopen (completes tt) (completes tt) (completes 512) (completes tt)
         7) flexible_backend = Returns true s'
    /\ getCurrentConfig s'
       = with_sampleRate 44100 (getCurrentConfig flexible_backend)
    /\ isRunning s' = true /\ isPaused s' = isPaused flexible_backend
    /\ getLastError s' = getLastError flexible_backend.
Proof.
  apply changeSampleRate_succeeds; reflexivity.
Defined.

Lemma changeSampleRate_failure_witness :
  match changeSampleRate 44100
          (mkReopen (completes tt) (completes tt) (raises "busy")
             (completes tt) 7) flexible_backend with
  | Returns false s' =>
      getLastError s' = "Failed to change sample rate: busy"
      /\ sampleRate (getCurrentConfig s') = 44100
      /\ isRunning s' = true /\ isPaused s' = true
  | _ => False
  end.
Proof.
  pose proof (changeSampleRate_failure 44100
                (mkReopen (completes tt) (completes tt) (raises "busy")
                   (completes tt) 7) flexible_backend eq_refl eq_refl) as F.
  vm_compute in F. vm_compute. tauto.
Defined.

Lemma initialize_outcome_witness :
  exists s',
    initialize default_StreamConfig (completes tt) fresh_backend
    = Returns tt s'
    /\ getCurrentConfig s' = default_StreamConfig
    /\ getLastError s' = "".
Proof.
  destruct (proj2 (initialize_outcome default_StreamConfig fresh_backend)
              eq_refl) as (s' & E & Hc & He & _).
  exists s'. auto.
Defined.

Lemma start_success_witness :
  exists f inputParams outputParams resolved frames,
    Some null_callback = Some f
    /\ isRunning (state_after
                    (initialize playback_config (completes tt)
                       fresh_backend)) = false
    /\ stream_parameters length_hash zero_parameters three_devices
         (set_userCallback (Some null_callback)
            (state_after
               (initialize playback_config (completes tt) fresh_backend)))
       = Returns (inputParams, outputParams) resolved
    /\ checked_openStream
         (open_request playback_config inputParams outputParams)
       = completes frames
    /\ isRunning (started_backend null_callback) = true
    /\ getActualBufferSize (started_backend null_callback)
       = Cxx.to_int frames.
Proof.
  destruct (start_success length_hash zero_parameters (Some null_callback)
              three_devices checked_openStream (completes tt) 0
              (state_after
                 (initialize playback_config (completes tt) fresh_backend))
              (started_backend null_callback) eq_refl)
    as (f & ip & op & resolved & frames & Hf & Hn & Hp & Ho & _ & Hr & _ & _
        & _ & _ & _ & _ & _ & Hb & _).
  exists f, ip, op, resolved, frames.
  repeat split; assumption.
Defined.

Lemma start_native_failure_witness :
  exists s',
    start length_hash zero_parameters (Some null_callback) three_devices
      (fun _ => raises "no device") (completes tt) 5 fresh_backend
    = Throws (AudioException AudioBackendStartFailed
                "Failed to start audio stream: no device") s'.
Proof.
  apply (proj2 (start_native_failure length_hash zero_parameters
                  null_callback three_devices (fun _ => raises "no device")
                  (completes tt) 5 fresh_backend eq_refl)
           "no device" 2 0); reflexivity.
Defined.

Lemma start_rejected_witness :
  start length_hash zero_parameters (Some null_callback) three_devices
    checked_openStream (completes tt) 9 (started_backend null_callback)
  = Throws (AudioException AudioBackendStartFailed
              "Backend is already running") (started_backend null_callback).
Proof.
  apply (proj1 (start_rejected _ _ _ _ _ _ _ _)). reflexivity.
Defined.

Lemma pause_resume_round_trip_witness :
  exists s1,
    pause (completes tt) (started_backend null_callback) = Returns tt s1
    /\ isRunning s1 = true /\ isPaused s1 = true
    /\ resume (completes tt) 99 s1
       = Returns tt (set_lastCallbackTime 99 (started_backend null_callback)).
Proof.
  apply (proj1 (pause_resume_round_trip 99 _)); reflexivity.
Defined.

Lemma xrun_count_over_periods_witness :
  getXrunCount
    (run_periods
       [mkPeriod None None 512 0%float 1 10;
        mkPeriod None None 512 0%float 3 20;
        mkPeriod None None 512 0%float 0 30]
       (started_backend null_callback))
  = 0 + 3.
Proof.
  apply (proj1 (proj2 (xrun_count_over_periods
                         [mkPeriod None None 512 0%float 1 10;
                          mkPeriod None None 512 0%float 3 20;
                          mkPeriod None None 512 0%float 0 30]
                         (started_backend null_callback)
                         ltac:(vm_compute; intuition discriminate))));
    vm_compute; discriminate.
Defined.

Lemma enumerateDevices_unique_ids_witness :
  exists devices s',
    enumerateDevices length_hash three_devices fresh_backend
    = Returns devices s'
    /\ NoDup (map RtAudioDevice.getId devices).
Proof.
  destruct (enumerateDevices_unique_ids length_hash three_devices
              fresh_backend
              ltac:(intros count [= <-]; vm_compute; discriminate))
    as (devices & s' & E & N & _).
  exists devices, s'. auto.
Defined.

Lemma enumerateDevices_contents_witness :
  exists devices,
    enumerateDevices length_hash three_devices fresh_backend
    = Returns devices fresh_backend
    /\ map RtAudioDevice.getRtAudioDeviceId devices = [0; 2].
Proof.
  destruct (proj1 (enumerateDevices_contents length_hash three_devices
                     fresh_backend) 3 2 0 eq_refl eq_refl eq_refl)
    as (devices & E & _).
  exists devices. split; [exact E |].
  vm_compute in E. injection E as <-. reflexivity.
Defined.


Lemma current_devices_witness :
  getCurrentInputDevice length_hash three_devices
    (started_backend null_callback) = None.
Proof.
  apply (proj1 (current_devices length_hash three_devices
                  (started_backend null_callback))).
  right. left. exists "device unavailable". reflexivity.
Defined.

End MoreRuns.
